(** * Extended dynamic state tests: configuration model, sequence ordering
      and stencil oracle

    Shallow embedding of
    [external/vulkancts/modules/vulkan/pipeline/vktPipelineExtendedDynamicStateTests.cpp].

    Conventions.
    - [deUint8], [deUint32], [int] and [VkDeviceSize] values are integers in
      [Z]; a conversion to [deUint8] is written out as [to_deUint8].
    - [float] values are only stored, copied and compared by the modelled
      code; every literal involved is dyadic and is represented by the
      rational it denotes.
    - [DE_ASSERT] failures and out-of-range element accesses are failures
      of the [option] monad ([None]).
    - Commands recorded into the command buffer are a list of [Command]s,
      threaded by a writer monad with failure ([Rec]). *)

From Stdlib Require Import ZArith QArith Lia DecimalString.
From stdpp Require Import base decidable option numbers list strings.
From coqutil Require Import Datatypes.RecordSetters.
Import TriangleBracketNotations.

Open Scope Z_scope.

(** ** Vulkan enumerations used by the file *)

(** Modelled from the spec: [VkCompareOp] is declared in the Vulkan headers
    of the framework, not in this file. The seven operations of the table
    of the stencil oracle, and the eighth enumerator of the API,
    [VK_COMPARE_OP_NOT_EQUAL], which [stencilPasses] leaves to its default
    branch. *)
Inductive VkCompareOp :=
| VK_COMPARE_OP_NEVER
| VK_COMPARE_OP_LESS
| VK_COMPARE_OP_EQUAL
| VK_COMPARE_OP_LESS_OR_EQUAL
| VK_COMPARE_OP_GREATER
| VK_COMPARE_OP_NOT_EQUAL
| VK_COMPARE_OP_GREATER_OR_EQUAL
| VK_COMPARE_OP_ALWAYS.

(** Modelled from the spec: [VkStencilOp] is declared in the Vulkan
    headers. The eight operations of the table of the stencil oracle, and
    the [MAX_ENUM] placeholder the test generator initialises the
    operations with. *)
Inductive VkStencilOp :=
| VK_STENCIL_OP_KEEP
| VK_STENCIL_OP_ZERO
| VK_STENCIL_OP_REPLACE
| VK_STENCIL_OP_INCREMENT_AND_CLAMP
| VK_STENCIL_OP_DECREMENT_AND_CLAMP
| VK_STENCIL_OP_INVERT
| VK_STENCIL_OP_INCREMENT_AND_WRAP
| VK_STENCIL_OP_DECREMENT_AND_WRAP
| VK_STENCIL_OP_MAX_ENUM.

#[global] Instance VkCompareOp_eq_dec : EqDecision VkCompareOp.
Proof. solve_decision. Defined.

#[global] Instance VkStencilOp_eq_dec : EqDecision VkStencilOp.
Proof. solve_decision. Defined.

(** Modelled from the spec: [VkFrontFace], declared in the Vulkan
    headers. *)
Inductive VkFrontFace :=
| VK_FRONT_FACE_COUNTER_CLOCKWISE
| VK_FRONT_FACE_CLOCKWISE.

(** Modelled from the spec: [VkPrimitiveTopology], declared in the Vulkan
    headers; the topologies [getTopologyClass] groups into point, line,
    triangle and patch classes. *)
Inductive VkPrimitiveTopology :=
| VK_PRIMITIVE_TOPOLOGY_POINT_LIST
| VK_PRIMITIVE_TOPOLOGY_LINE_LIST
| VK_PRIMITIVE_TOPOLOGY_LINE_STRIP
| VK_PRIMITIVE_TOPOLOGY_TRIANGLE_LIST
| VK_PRIMITIVE_TOPOLOGY_TRIANGLE_STRIP
| VK_PRIMITIVE_TOPOLOGY_TRIANGLE_FAN
| VK_PRIMITIVE_TOPOLOGY_LINE_LIST_WITH_ADJACENCY
| VK_PRIMITIVE_TOPOLOGY_LINE_STRIP_WITH_ADJACENCY
| VK_PRIMITIVE_TOPOLOGY_TRIANGLE_LIST_WITH_ADJACENCY
| VK_PRIMITIVE_TOPOLOGY_TRIANGLE_STRIP_WITH_ADJACENCY
| VK_PRIMITIVE_TOPOLOGY_PATCH_LIST.

(** Modelled from the spec: [VkLogicOp], declared in the Vulkan
    headers. *)
Inductive VkLogicOp :=
| VK_LOGIC_OP_CLEAR | VK_LOGIC_OP_AND | VK_LOGIC_OP_AND_REVERSE
| VK_LOGIC_OP_COPY | VK_LOGIC_OP_AND_INVERTED | VK_LOGIC_OP_NO_OP
| VK_LOGIC_OP_XOR | VK_LOGIC_OP_OR | VK_LOGIC_OP_NOR
| VK_LOGIC_OP_EQUIVALENT | VK_LOGIC_OP_INVERT | VK_LOGIC_OP_OR_REVERSE
| VK_LOGIC_OP_COPY_INVERTED | VK_LOGIC_OP_OR_INVERTED | VK_LOGIC_OP_NAND
| VK_LOGIC_OP_SET.

(** Modelled from the spec: [VkDynamicState], declared in the Vulkan
    headers: the states of Vulkan 1.0 and the extended dynamic states this
    file declares for its pipelines. *)
Inductive VkDynamicState :=
| VK_DYNAMIC_STATE_VIEWPORT
| VK_DYNAMIC_STATE_SCISSOR
| VK_DYNAMIC_STATE_LINE_WIDTH
| VK_DYNAMIC_STATE_DEPTH_BIAS
| VK_DYNAMIC_STATE_BLEND_CONSTANTS
| VK_DYNAMIC_STATE_DEPTH_BOUNDS
| VK_DYNAMIC_STATE_STENCIL_COMPARE_MASK
| VK_DYNAMIC_STATE_STENCIL_WRITE_MASK
| VK_DYNAMIC_STATE_STENCIL_REFERENCE
| VK_DYNAMIC_STATE_CULL_MODE_EXT
| VK_DYNAMIC_STATE_FRONT_FACE_EXT
| VK_DYNAMIC_STATE_PRIMITIVE_TOPOLOGY_EXT
| VK_DYNAMIC_STATE_VIEWPORT_WITH_COUNT_EXT
| VK_DYNAMIC_STATE_SCISSOR_WITH_COUNT_EXT
| VK_DYNAMIC_STATE_VERTEX_INPUT_BINDING_STRIDE_EXT
| VK_DYNAMIC_STATE_DEPTH_TEST_ENABLE_EXT
| VK_DYNAMIC_STATE_DEPTH_WRITE_ENABLE_EXT
| VK_DYNAMIC_STATE_DEPTH_COMPARE_OP_EXT
| VK_DYNAMIC_STATE_DEPTH_BOUNDS_TEST_ENABLE_EXT
| VK_DYNAMIC_STATE_STENCIL_TEST_ENABLE_EXT
| VK_DYNAMIC_STATE_STENCIL_OP_EXT
| VK_DYNAMIC_STATE_VERTEX_INPUT_EXT
| VK_DYNAMIC_STATE_PATCH_CONTROL_POINTS_EXT
| VK_DYNAMIC_STATE_RASTERIZER_DISCARD_ENABLE_EXT
| VK_DYNAMIC_STATE_DEPTH_BIAS_ENABLE_EXT
| VK_DYNAMIC_STATE_LOGIC_OP_EXT
| VK_DYNAMIC_STATE_PRIMITIVE_RESTART_ENABLE_EXT.

#[global] Instance VkPrimitiveTopology_eq_dec : EqDecision VkPrimitiveTopology.
Proof. solve_decision. Defined.

#[global] Instance VkDynamicState_eq_dec : EqDecision VkDynamicState.
Proof. solve_decision. Defined.

(** Modelled from the spec: the flag types of the Vulkan headers are
    integers ([VkFlags]); the bit values are the ones of the API. *)
Definition VkCullModeFlags := Z.
Definition VK_CULL_MODE_NONE : VkCullModeFlags := 0.
Definition VK_CULL_MODE_FRONT_BIT : VkCullModeFlags := 1.
Definition VK_CULL_MODE_BACK_BIT : VkCullModeFlags := 2.
Definition VK_CULL_MODE_FRONT_AND_BACK : VkCullModeFlags := 3.

(** Modelled from the spec: the stencil face flags of the Vulkan headers,
    with the [MAX_ENUM] value the generator uses as a placeholder. *)
Definition VkStencilFaceFlags := Z.
Definition VK_STENCIL_FACE_FRONT_BIT : VkStencilFaceFlags := 1.
Definition VK_STENCIL_FACE_BACK_BIT : VkStencilFaceFlags := 2.
Definition VK_STENCIL_FACE_FRONT_AND_BACK : VkStencilFaceFlags := 3.
Definition VK_STENCIL_FACE_FLAG_BITS_MAX_ENUM : VkStencilFaceFlags := 0x7FFFFFFF.

(** Modelled from the spec: the pipeline construction modes of the
    framework, monolithic or split into libraries. *)
Inductive PipelineConstructionType :=
| PIPELINE_CONSTRUCTION_TYPE_MONOLITHIC
| PIPELINE_CONSTRUCTION_TYPE_LINK_TIME_OPTIMIZED_LIBRARY
| PIPELINE_CONSTRUCTION_TYPE_FAST_LINKED_LIBRARY.

(** ** Vectors and Vulkan structures *)

Definition float := Q.

(** Modelled from the spec: the vector types [tcu::Vec4] and [tcu::UVec4]
    of the framework. *)
Record Vec4 := mkVec4 { vx : float; vy : float; vz : float; vw : float }.
Record UVec4 := mkUVec4 { ux : Z; uy : Z; uz : Z; uw : Z }.

(** Modelled from the spec: the structures [VkViewport] and [VkRect2D] of
    the Vulkan headers. *)
Record VkViewport := mkViewport {
  viewport_x : float; viewport_y : float;
  viewport_width : float; viewport_height : float;
  viewport_minDepth : float; viewport_maxDepth : float }.

Record VkRect2D := mkRect2D {
  rect_offset_x : Z; rect_offset_y : Z;
  rect_extent_width : Z; rect_extent_height : Z }.

(** Modelled from the spec: [vk::makeViewport(width, height)] and
    [vk::makeRect2D(width, height)] of the framework: the whole
    framebuffer, with depth range 0 to 1 for the viewport. *)
Definition makeViewport (width height : Z) : VkViewport :=
  mkViewport 0%Q 0%Q (inject_Z width) (inject_Z height) 0%Q 1%Q.

Definition makeRect2D (width height : Z) : VkRect2D :=
  mkRect2D 0 0 width height.

(** Modelled from the spec: [VkClearValue] of the Vulkan headers is a
    union; the file only stores colours in it, with
    [vk::makeClearValueColor]. *)
Inductive VkClearValue :=
| ClearValueColorFloat (color : Vec4)
| ClearValueColorUint (color : UVec4).

Definition makeClearValueColor (color : Vec4) : VkClearValue :=
  ClearValueColorFloat color.

(** ** Fixed-width integers *)

(** [static_cast<deUint8>(z)] for an [int] value [z]. *)
Definition to_deUint8 (z : Z) : Z := z mod 256.

(** The values a [deUint8] can hold. *)
Definition is_deUint8 (z : Z) : Prop := 0 <= z <= 255.

(** ** Failure *)

(** Modelled from the spec: the assertion macro [DE_ASSERT(cond)] of the
    framework; a violated assertion is fatal. *)
Definition DE_ASSERT (cond : bool) : option unit :=
  if cond then Some tt else None.

(** Modelled from the spec: [operator bool] of the framework's
    [tcu::Maybe], true iff a value is present. *)
Definition hasValue {T : Type} (m : option T) : bool :=
  match m with Some _ => true | None => false end.

(** ** Constants *)

Definition kFramebufferWidth : Z := 64.
Definition kFramebufferHeight : Z := 64.
Definition kLinePointsPerRow : Z := 4.
Definition kLineVertexCount : Z := kFramebufferHeight * kLinePointsPerRow.

(** ** Vertex generators

    The three [VertexGenerator] subclasses have no state; a
    [const VertexGenerator*] in a configuration points to one of the three
    static instances returned by [getVertexWithPaddingGenerator] and its
    siblings. *)

Definition StrideVec := list Z.

Inductive VertexGenerator :=
| VertexWithPadding
| VertexWithExtraAttributes
| MultipleBindingsVertex.

Definition getVertexWithPaddingGenerator : VertexGenerator :=
  VertexWithPadding.
Definition getVertexWithExtraAttributesGenerator : VertexGenerator :=
  VertexWithExtraAttributes.
Definition getVertexWithMultipleBindingsGenerator : VertexGenerator :=
  MultipleBindingsVertex.

(** [sizeof] of the vector types: two and four packed 32-bit floats. *)
Definition sizeof_Vec2 : Z := 8.
Definition sizeof_Vec4 : Z := 16.

Definition getVertexDataStrides (g : VertexGenerator) : StrideVec :=
  match g with
  | VertexWithPadding =>
      (* VertexData: coords, padding *)
      [2 * sizeof_Vec2]
  | VertexWithExtraAttributes =>
      (* VertexData: coords, padding[10], ones *)
      [sizeof_Vec2 + 10 * sizeof_Vec2 + sizeof_Vec2]
  | MultipleBindingsVertex =>
      let Zeros := sizeof_Vec2 in
      let PaddingOnes := 4 * sizeof_Vec2 + sizeof_Vec2 in
      let CoordsData := 3 * sizeof_Vec2 in
      let OneZeroPadding := sizeof_Vec4 + 3 * sizeof_Vec2 in
      [Zeros; PaddingOnes; Zeros; CoordsData; Zeros; OneZeroPadding]
  end.

(** ** Stencil and depth-bias parameters *)

Record StencilOpParams := mkStencilOpParams {
  faceMask    : VkStencilFaceFlags;
  failOp      : VkStencilOp;
  passOp      : VkStencilOp;
  depthFailOp : VkStencilOp;
  compareOp   : VkCompareOp }.

Definition kDefaultStencilOpParams : StencilOpParams :=
  {| faceMask    := VK_STENCIL_FACE_FRONT_AND_BACK;
     failOp      := VK_STENCIL_OP_KEEP;
     passOp      := VK_STENCIL_OP_KEEP;
     depthFailOp := VK_STENCIL_OP_KEEP;
     compareOp   := VK_COMPARE_OP_ALWAYS |}.

Record DepthBiasParams := mkDepthBiasParams {
  constantFactor : float;
  clamp          : float }.

Definition kNoDepthBiasParams : DepthBiasParams :=
  {| constantFactor := 0%Q; clamp := 0%Q |}.

Definition ViewportVec := list VkViewport.
Definition ScissorVec := list VkRect2D.
Definition StencilOpVec := list StencilOpParams.

(** ** Static and dynamic pairs *)

Record StaticAndDynamicPair (T : Type) := mkPair {
  staticValue  : T;
  dynamicValue : option T }.

Arguments mkPair {T} _ _.
Arguments staticValue {T} _.
Arguments dynamicValue {T} _.

Module Pair.

(** Helper constructor to set a static value and no dynamic value. *)
Definition static_only {T : Type} (value : T) : StaticAndDynamicPair T :=
  {| staticValue := value; dynamicValue := None |}.

(** Helper constructor to set both. *)
Definition static_and_dynamic {T : Type} (sVal dVal : T)
  : StaticAndDynamicPair T :=
  {| staticValue := sVal; dynamicValue := Some dVal |}.

(** If the dynamic value is present, swap static and dynamic values. *)
Definition swapValues {T : Type} (p : StaticAndDynamicPair T)
  : StaticAndDynamicPair T :=
  match dynamicValue p with
  | None => p
  | Some d => {| staticValue := d; dynamicValue := Some (staticValue p) |}
  end.

End Pair.

Definition BooleanFlagConfig := StaticAndDynamicPair bool.
Definition CullModeConfig := StaticAndDynamicPair VkCullModeFlags.
Definition FrontFaceConfig := StaticAndDynamicPair VkFrontFace.
Definition TopologyConfig := StaticAndDynamicPair VkPrimitiveTopology.
Definition ViewportConfig := StaticAndDynamicPair ViewportVec.
Definition ScissorConfig := StaticAndDynamicPair ScissorVec.
Definition StrideConfig := StaticAndDynamicPair StrideVec.
Definition DepthTestEnableConfig := BooleanFlagConfig.
Definition DepthWriteEnableConfig := BooleanFlagConfig.
Definition DepthCompareOpConfig := StaticAndDynamicPair VkCompareOp.
Definition DepthBoundsTestEnableConfig := BooleanFlagConfig.
Definition StencilTestEnableConfig := BooleanFlagConfig.
Definition StencilOpConfig := StaticAndDynamicPair StencilOpVec.
Definition VertexGeneratorConfig := StaticAndDynamicPair VertexGenerator.
Definition DepthBiasEnableConfig := BooleanFlagConfig.
Definition RastDiscardEnableConfig := BooleanFlagConfig.
Definition PrimRestartEnableConfig := BooleanFlagConfig.
Definition LogicOpConfig := StaticAndDynamicPair VkLogicOp.
Definition PatchControlPointsConfig := StaticAndDynamicPair Z.
Definition DepthBiasConfig := StaticAndDynamicPair DepthBiasParams.

(** ** Colours, meshes and sequence orderings *)

Definition kDefaultTriangleColor : Vec4 := mkVec4 0%Q 0%Q 1%Q 1%Q.
Definition kDefaultClearColor : Vec4 := mkVec4 0%Q 0%Q 0%Q 1%Q.

Record MeshParams := mkMeshParams {
  color      : Vec4;
  depth      : float;
  reversed   : bool;
  scaleX     : float;
  scaleY     : float;
  offsetX    : float;
  offsetY    : float;
  stripScale : float }.

(** [MeshParams()] with every argument defaulted. *)
Definition MeshParams_default : MeshParams :=
  {| color := kDefaultTriangleColor; depth := 0%Q; reversed := false;
     scaleX := 1%Q; scaleY := 1%Q; offsetX := 0%Q; offsetY := 0%Q;
     stripScale := 0%Q |}.

Inductive SequenceOrdering :=
| CMD_BUFFER_START
| BEFORE_DRAW
| BETWEEN_PIPELINES
| AFTER_PIPELINES
| BEFORE_GOOD_STATIC
| TWO_DRAWS_DYNAMIC
| TWO_DRAWS_STATIC.

#[global] Instance SequenceOrdering_eq_dec : EqDecision SequenceOrdering.
Proof. solve_decision. Defined.

(** ** Reference colour generators *)

Inductive ReferenceColorGenerator :=
| SingleColorGenerator (m_colorFloat : Vec4) (m_colorUint : UVec4)
    (isUint : bool)
| HorizontalSplitGenerator (m_top m_bottom : Vec4)
| LastSegmentMissingGenerator (m_geomColor m_clearColor : Vec4).

(** The two constructors of [SingleColorGenerator]. *)
Definition SingleColorGenerator_float (c : Vec4) : ReferenceColorGenerator :=
  SingleColorGenerator c (mkUVec4 0 0 0 0) false.

Definition SingleColorGenerator_uint (c : UVec4) : ReferenceColorGenerator :=
  SingleColorGenerator (mkVec4 0%Q 0%Q 0%Q 0%Q) c true.

Inductive Pixel :=
| PixelFloat (c : Vec4)
| PixelUint (c : UVec4).

(** [operator()]: the value stored by [access.setPixel(..., x, y)] for
    a pixel [(x, y)] of the framebuffer. *)
Definition referencePixel (g : ReferenceColorGenerator) (x y : Z) : Pixel :=
  match g with
  | SingleColorGenerator m_colorFloat m_colorUint isUint =>
      if isUint then PixelUint m_colorUint else PixelFloat m_colorFloat
  | HorizontalSplitGenerator m_top m_bottom =>
      let kHalfHeight := kFramebufferHeight / 2 in
      PixelFloat (if y <? kHalfHeight then m_top else m_bottom)
  | LastSegmentMissingGenerator m_geomColor m_clearColor =>
      let kLastSegmentStart := 48 (* int(kWidth * 0.75f) *) in
      PixelFloat (if (y =? kFramebufferHeight - 1) && (x >=? kLastSegmentStart)
                  then m_clearColor else m_geomColor)
  end.

(** ** Vertex generator choice *)

(** The arguments are pointers that may be null. *)
Definition makeVertexGeneratorConfig
  (staticGen dynamicGen : option VertexGenerator)
  : option VertexGeneratorConfig :=
  _ ← DE_ASSERT (negb (hasValue dynamicGen && negb (hasValue staticGen)));
  match dynamicGen, staticGen with
  | Some d, Some s => Some (Pair.static_and_dynamic s d)
  | Some d, None => None (* null static pointer stored: excluded above *)
  | None, Some s => Some (Pair.static_only s)
  | None, None => Some (Pair.static_only getVertexWithPaddingGenerator)
  end.

Definition chooseVertexGenerator
  (staticGen dynamicGen : option VertexGenerator) : option VertexGenerator :=
  _ ← DE_ASSERT (negb (hasValue dynamicGen && negb (hasValue staticGen)));
  match dynamicGen, staticGen with
  | Some d, _ => Some d
  | None, Some s => Some s
  | None, None => Some getVertexWithPaddingGenerator
  end.

(** ** Topology classes and mesh shading compatibility *)

Inductive TopologyClass :=
| TopologyClass_POINT
| TopologyClass_LINE
| TopologyClass_TRIANGLE
| TopologyClass_PATCH
| TopologyClass_INVALID.

#[global] Instance TopologyClass_eq_dec : EqDecision TopologyClass.
Proof. solve_decision. Defined.

(** Is a particular dynamic state incompatible with mesh shading
    pipelines? *)
Definition isMeshShadingPipelineIncompatible (state : VkDynamicState) : bool :=
  match state with
  | VK_DYNAMIC_STATE_PRIMITIVE_TOPOLOGY_EXT
  | VK_DYNAMIC_STATE_VERTEX_INPUT_BINDING_STRIDE_EXT
  | VK_DYNAMIC_STATE_PRIMITIVE_RESTART_ENABLE_EXT
  | VK_DYNAMIC_STATE_PATCH_CONTROL_POINTS_EXT
  | VK_DYNAMIC_STATE_VERTEX_INPUT_EXT => true
  | _ => false
  end.

Definition isMeshShadingPipelineCompatible (state : VkDynamicState) : bool :=
  negb (isMeshShadingPipelineIncompatible state).

(** Every [VkPrimitiveTopology] is covered by a case, so the trailing
    [DE_ASSERT(false)] of the source is never reached. *)
Definition getTopologyClass (topology : VkPrimitiveTopology) : TopologyClass :=
  match topology with
  | VK_PRIMITIVE_TOPOLOGY_POINT_LIST => TopologyClass_POINT
  | VK_PRIMITIVE_TOPOLOGY_LINE_LIST
  | VK_PRIMITIVE_TOPOLOGY_LINE_STRIP
  | VK_PRIMITIVE_TOPOLOGY_LINE_LIST_WITH_ADJACENCY
  | VK_PRIMITIVE_TOPOLOGY_LINE_STRIP_WITH_ADJACENCY => TopologyClass_LINE
  | VK_PRIMITIVE_TOPOLOGY_TRIANGLE_LIST
  | VK_PRIMITIVE_TOPOLOGY_TRIANGLE_STRIP
  | VK_PRIMITIVE_TOPOLOGY_TRIANGLE_FAN
  | VK_PRIMITIVE_TOPOLOGY_TRIANGLE_LIST_WITH_ADJACENCY
  | VK_PRIMITIVE_TOPOLOGY_TRIANGLE_STRIP_WITH_ADJACENCY =>
      TopologyClass_TRIANGLE
  | VK_PRIMITIVE_TOPOLOGY_PATCH_LIST => TopologyClass_PATCH
  end.

(** ** Test configuration *)

Record TestConfig := mkTestConfig {
  pipelineConstructionType      : PipelineConstructionType;
  sequenceOrdering              : SequenceOrdering;
  meshParams                    : list MeshParams;
  referenceStencil              : Z;
  clearColorValue               : VkClearValue;
  clearDepthValue               : float;
  clearStencilValue             : Z;
  referenceColor                : ReferenceColorGenerator;
  expectedDepth                 : float;
  expectedStencil               : Z;
  minDepthBounds                : float;
  maxDepthBounds                : float;
  forceGeometryShader           : bool;
  useMeshShaders                : bool;
  bindUnusedMeshShadingPipeline : bool;
  singleVertex                  : bool;
  singleVertexDrawCount         : Z;
  vertexDataOffset              : Z;
  vertexDataExtraBytes          : Z;
  useExtraDynPCPPipeline        : bool;
  vertexGenerator               : VertexGeneratorConfig;
  cullModeConfig                : CullModeConfig;
  frontFaceConfig               : FrontFaceConfig;
  topologyConfig                : TopologyConfig;
  viewportConfig                : ViewportConfig;
  scissorConfig                 : ScissorConfig;
  strideConfig                  : StrideConfig;
  depthTestEnableConfig         : DepthTestEnableConfig;
  depthWriteEnableConfig        : DepthWriteEnableConfig;
  depthCompareOpConfig          : DepthCompareOpConfig;
  depthBoundsTestEnableConfig   : DepthBoundsTestEnableConfig;
  stencilTestEnableConfig       : StencilTestEnableConfig;
  stencilOpConfig               : StencilOpConfig;
  depthBiasEnableConfig         : DepthBiasEnableConfig;
  rastDiscardEnableConfig       : RastDiscardEnableConfig;
  primRestartEnableConfig       : PrimRestartEnableConfig;
  logicOpConfig                 : LogicOpConfig;
  patchControlPointsConfig      : PatchControlPointsConfig;
  depthBiasConfig               : DepthBiasConfig;
  (* private *)
  m_swappedValues               : bool }.

(** The member initialisers of the constructor with "sane defaults",
    given the vertex generator pair and the strides of the chosen
    generator. *)
Definition TestConfig_init (pipelineType : PipelineConstructionType)
  (ordering : SequenceOrdering) (useMeshShaders_ : bool)
  (vertexGenerator_ : VertexGeneratorConfig) (strides : StrideVec)
  : TestConfig :=
    {| pipelineConstructionType      := pipelineType;
       sequenceOrdering              := ordering;
       meshParams                    := [MeshParams_default];
       referenceStencil              := 0;
       clearColorValue               := makeClearValueColor kDefaultClearColor;
       clearDepthValue               := 1%Q;
       clearStencilValue             := 0;
       referenceColor                :=
         SingleColorGenerator_float kDefaultTriangleColor;
       expectedDepth                 := 1%Q;
       expectedStencil               := 0;
       minDepthBounds                := 0%Q;
       maxDepthBounds                := 1%Q;
       forceGeometryShader           := false;
       useMeshShaders                := useMeshShaders_;
       bindUnusedMeshShadingPipeline := false;
       singleVertex                  := false;
       singleVertexDrawCount         := 0;
       vertexDataOffset              := 0;
       vertexDataExtraBytes          := 0;
       useExtraDynPCPPipeline        := false;
       vertexGenerator               := vertexGenerator_;
       cullModeConfig                := Pair.static_only VK_CULL_MODE_NONE;
       frontFaceConfig               :=
         Pair.static_only VK_FRONT_FACE_COUNTER_CLOCKWISE;
       topologyConfig                :=
         Pair.static_only VK_PRIMITIVE_TOPOLOGY_TRIANGLE_STRIP;
       viewportConfig                :=
         Pair.static_only [makeViewport kFramebufferWidth kFramebufferHeight];
       scissorConfig                 :=
         Pair.static_only [makeRect2D kFramebufferWidth kFramebufferHeight];
       strideConfig                  := Pair.static_only strides;
       depthTestEnableConfig         := Pair.static_only false;
       depthWriteEnableConfig        := Pair.static_only false;
       depthCompareOpConfig          := Pair.static_only VK_COMPARE_OP_NEVER;
       depthBoundsTestEnableConfig   := Pair.static_only false;
       stencilTestEnableConfig       := Pair.static_only false;
       stencilOpConfig               :=
         Pair.static_only [kDefaultStencilOpParams];
       depthBiasEnableConfig         := Pair.static_only false;
       rastDiscardEnableConfig       := Pair.static_only false;
       primRestartEnableConfig       := Pair.static_only false;
       logicOpConfig                 := Pair.static_only VK_LOGIC_OP_CLEAR;
       patchControlPointsConfig      := Pair.static_only 1;
       depthBiasConfig               := Pair.static_only kNoDepthBiasParams;
       m_swappedValues               := false |}.

(** The constructor; the generator arguments are pointers that default
    to null. *)
Definition TestConfig_new (pipelineType : PipelineConstructionType)
  (ordering : SequenceOrdering) (useMeshShaders_ : bool)
  (staticVertexGenerator dynamicVertexGenerator : option VertexGenerator)
  : option TestConfig :=
  vertexGenerator_ ←
    makeVertexGeneratorConfig staticVertexGenerator dynamicVertexGenerator;
  chosen ← chooseVertexGenerator staticVertexGenerator dynamicVertexGenerator;
  Some (TestConfig_init pipelineType ordering useMeshShaders_
          vertexGenerator_ (getVertexDataStrides chosen)).

(** Get the proper viewport vector according to the test config. *)
Definition getActiveViewportVec (c : TestConfig) : ViewportVec :=
  match dynamicValue (viewportConfig c), negb (m_swappedValues c) with
  | Some d, true => d
  | _, _ => staticValue (viewportConfig c)
  end.

(** Gets the proper vertex generator according to the test config. *)
Definition getActiveVertexGenerator (c : TestConfig) : VertexGenerator :=
  match dynamicValue (vertexGenerator c), negb (m_swappedValues c) with
  | Some d, true => d
  | _, _ => staticValue (vertexGenerator c)
  end.

(** Gets the inactive vertex generator according to the test config. *)
Definition getInactiveVertexGenerator (c : TestConfig) : VertexGenerator :=
  match dynamicValue (vertexGenerator c), m_swappedValues c with
  | Some d, true => d
  | _, _ => staticValue (vertexGenerator c)
  end.

(** Get the active number of patch control points. *)
Definition getActivePatchControlPoints (c : TestConfig) : Z :=
  match dynamicValue (patchControlPointsConfig c), negb (m_swappedValues c) with
  | Some d, true => d
  | _, _ => staticValue (patchControlPointsConfig c)
  end.

(** Get the active depth bias parameters. *)
Definition getActiveDepthBiasParams (c : TestConfig) : DepthBiasParams :=
  match dynamicValue (depthBiasConfig c), negb (m_swappedValues c) with
  | Some d, true => d
  | _, _ => staticValue (depthBiasConfig c)
  end.

(** Get the active primitive restart enable value. *)
Definition getActivePrimitiveRestartEnable (c : TestConfig) : bool :=
  match dynamicValue (primRestartEnableConfig c), negb (m_swappedValues c) with
  | Some d, true => d
  | _, _ => staticValue (primRestartEnableConfig c)
  end.

(** Returns true if there is more than one viewport. *)
Definition isMultiViewport (c : TestConfig) : bool :=
  bool_decide (1 < length (getActiveViewportVec c))%nat.

(** Returns true if the case needs a geometry shader. *)
Definition needsGeometryShader (c : TestConfig) : bool :=
  (isMultiViewport c && negb (useMeshShaders c)) || forceGeometryShader c.

(** Returns true if we should use the static and dynamic values
    exchanged. *)
Definition isReversed (c : TestConfig) : bool :=
  bool_decide (sequenceOrdering c = BEFORE_GOOD_STATIC)
  || bool_decide (sequenceOrdering c = TWO_DRAWS_STATIC).

(** Swaps static and dynamic configuration values. *)
Definition swapValues (c : TestConfig) : TestConfig :=
  c <| vertexGenerator ::= Pair.swapValues |>
    <| cullModeConfig ::= Pair.swapValues |>
    <| frontFaceConfig ::= Pair.swapValues |>
    <| topologyConfig ::= Pair.swapValues |>
    <| viewportConfig ::= Pair.swapValues |>
    <| scissorConfig ::= Pair.swapValues |>
    <| strideConfig ::= Pair.swapValues |>
    <| depthTestEnableConfig ::= Pair.swapValues |>
    <| depthWriteEnableConfig ::= Pair.swapValues |>
    <| depthCompareOpConfig ::= Pair.swapValues |>
    <| depthBoundsTestEnableConfig ::= Pair.swapValues |>
    <| stencilTestEnableConfig ::= Pair.swapValues |>
    <| stencilOpConfig ::= Pair.swapValues |>
    <| depthBiasEnableConfig ::= Pair.swapValues |>
    <| rastDiscardEnableConfig ::= Pair.swapValues |>
    <| primRestartEnableConfig ::= Pair.swapValues |>
    <| logicOpConfig ::= Pair.swapValues |>
    <| patchControlPointsConfig ::= Pair.swapValues |>
    <| depthBiasConfig ::= Pair.swapValues |>
    <| m_swappedValues ::= negb |>.

(** Returns the number of iterations when recording commands. *)
Definition numIterations (c : TestConfig) : Z :=
  match sequenceOrdering c with
  | TWO_DRAWS_DYNAMIC | TWO_DRAWS_STATIC => 2
  | _ => 1
  end.

(** Returns true if we're testing the logic op. *)
Definition testLogicOp (c : TestConfig) : bool :=
  hasValue (dynamicValue (logicOpConfig c)).

(** Returns true if we're testing the patch control points. *)
Definition testPatchControlPoints (c : TestConfig) : bool :=
  hasValue (dynamicValue (patchControlPointsConfig c)).

(** Returns true if the topology class is patches for tessellation. *)
Definition patchesTopology (c : TestConfig) : bool :=
  bool_decide
    (getTopologyClass (staticValue (topologyConfig c)) = TopologyClass_PATCH).

(** Returns true if the test needs tessellation shaders. *)
Definition needsTessellation (c : TestConfig) : bool :=
  testPatchControlPoints c || patchesTopology c.

(** Returns true if the test needs an index buffer. *)
Definition needsIndexBuffer (c : TestConfig) : option bool :=
  if hasValue (dynamicValue (primRestartEnableConfig c)) then
    _ ← DE_ASSERT (bool_decide
           (getTopologyClass (staticValue (topologyConfig c))
            = TopologyClass_LINE));
    _ ← DE_ASSERT (kLineVertexCount =? 255 + 1);
    Some true
  else Some false.

(** Returns true if the test needs the depth bias clamp feature. *)
Definition needsDepthBiasClampFeature (c : TestConfig) : bool :=
  negb (Qeq_bool (clamp (getActiveDepthBiasParams c)) 0%Q).

(** [if (cond) states.push_back(state)]. *)
Definition push_back_if {A : Type} (cond : bool) (x : A) (v : list A)
  : list A :=
  if cond then v ++ [x] else v.

(** Returns the list of dynamic states affected by this config. *)
Definition getDynamicStates (c : TestConfig) : list VkDynamicState :=
  let dynamicStates := [] in
  let dynamicStates := push_back_if (hasValue (dynamicValue (depthBiasConfig c))) VK_DYNAMIC_STATE_DEPTH_BIAS dynamicStates in
  let dynamicStates := push_back_if (hasValue (dynamicValue (cullModeConfig c))) VK_DYNAMIC_STATE_CULL_MODE_EXT dynamicStates in
  let dynamicStates := push_back_if (hasValue (dynamicValue (frontFaceConfig c))) VK_DYNAMIC_STATE_FRONT_FACE_EXT dynamicStates in
  let dynamicStates := push_back_if (hasValue (dynamicValue (topologyConfig c))) VK_DYNAMIC_STATE_PRIMITIVE_TOPOLOGY_EXT dynamicStates in
  let dynamicStates := push_back_if (hasValue (dynamicValue (viewportConfig c))) VK_DYNAMIC_STATE_VIEWPORT_WITH_COUNT_EXT dynamicStates in
  let dynamicStates := push_back_if (hasValue (dynamicValue (scissorConfig c))) VK_DYNAMIC_STATE_SCISSOR_WITH_COUNT_EXT dynamicStates in
  let dynamicStates := push_back_if (hasValue (dynamicValue (strideConfig c))) VK_DYNAMIC_STATE_VERTEX_INPUT_BINDING_STRIDE_EXT dynamicStates in
  let dynamicStates := push_back_if (hasValue (dynamicValue (depthTestEnableConfig c))) VK_DYNAMIC_STATE_DEPTH_TEST_ENABLE_EXT dynamicStates in
  let dynamicStates := push_back_if (hasValue (dynamicValue (depthWriteEnableConfig c))) VK_DYNAMIC_STATE_DEPTH_WRITE_ENABLE_EXT dynamicStates in
  let dynamicStates := push_back_if (hasValue (dynamicValue (depthCompareOpConfig c))) VK_DYNAMIC_STATE_DEPTH_COMPARE_OP_EXT dynamicStates in
  let dynamicStates := push_back_if (hasValue (dynamicValue (depthBoundsTestEnableConfig c))) VK_DYNAMIC_STATE_DEPTH_BOUNDS_TEST_ENABLE_EXT dynamicStates in
  let dynamicStates := push_back_if (hasValue (dynamicValue (stencilTestEnableConfig c))) VK_DYNAMIC_STATE_STENCIL_TEST_ENABLE_EXT dynamicStates in
  let dynamicStates := push_back_if (hasValue (dynamicValue (stencilOpConfig c))) VK_DYNAMIC_STATE_STENCIL_OP_EXT dynamicStates in
  let dynamicStates := push_back_if (hasValue (dynamicValue (vertexGenerator c))) VK_DYNAMIC_STATE_VERTEX_INPUT_EXT dynamicStates in
  let dynamicStates := push_back_if (hasValue (dynamicValue (patchControlPointsConfig c))) VK_DYNAMIC_STATE_PATCH_CONTROL_POINTS_EXT dynamicStates in
  let dynamicStates := push_back_if (hasValue (dynamicValue (rastDiscardEnableConfig c))) VK_DYNAMIC_STATE_RASTERIZER_DISCARD_ENABLE_EXT dynamicStates in
  let dynamicStates := push_back_if (hasValue (dynamicValue (depthBiasEnableConfig c))) VK_DYNAMIC_STATE_DEPTH_BIAS_ENABLE_EXT dynamicStates in
  let dynamicStates := push_back_if (hasValue (dynamicValue (logicOpConfig c))) VK_DYNAMIC_STATE_LOGIC_OP_EXT dynamicStates in
  let dynamicStates := push_back_if (hasValue (dynamicValue (primRestartEnableConfig c))) VK_DYNAMIC_STATE_PRIMITIVE_RESTART_ENABLE_EXT dynamicStates in
  dynamicStates.

(** Returns true if the test configuration uses dynamic states which are
    incompatible with mesh shading pipelines ([std::any_of]). *)
Definition badMeshShadingPipelineDynState (c : TestConfig) : bool :=
  let states := getDynamicStates c in
  existsb isMeshShadingPipelineIncompatible states.

(** ** The design's view of pairs and configurations

    The design document describes one query [active(swapped)] on pairs;
    the source has no such member and repeats its expression in each
    [getActive...] query above. [active] follows the document's words and
    is compared with the queries in the properties. *)

Definition active {T : Type} (p : StaticAndDynamicPair T) (swapped : bool)
  : T :=
  match dynamicValue p with
  | Some d => if swapped then staticValue p else d
  | None => staticValue p
  end.

(** [R] holds between each of the nineteen pairs of two
    configurations. *)
Definition each_pair
  (R : forall T : Type, StaticAndDynamicPair T -> StaticAndDynamicPair T -> Prop)
  (c c' : TestConfig) : Prop :=
  R _ (vertexGenerator c) (vertexGenerator c')
  /\ R _ (cullModeConfig c) (cullModeConfig c')
  /\ R _ (frontFaceConfig c) (frontFaceConfig c')
  /\ R _ (topologyConfig c) (topologyConfig c')
  /\ R _ (viewportConfig c) (viewportConfig c')
  /\ R _ (scissorConfig c) (scissorConfig c')
  /\ R _ (strideConfig c) (strideConfig c')
  /\ R _ (depthTestEnableConfig c) (depthTestEnableConfig c')
  /\ R _ (depthWriteEnableConfig c) (depthWriteEnableConfig c')
  /\ R _ (depthCompareOpConfig c) (depthCompareOpConfig c')
  /\ R _ (depthBoundsTestEnableConfig c) (depthBoundsTestEnableConfig c')
  /\ R _ (stencilTestEnableConfig c) (stencilTestEnableConfig c')
  /\ R _ (stencilOpConfig c) (stencilOpConfig c')
  /\ R _ (depthBiasEnableConfig c) (depthBiasEnableConfig c')
  /\ R _ (rastDiscardEnableConfig c) (rastDiscardEnableConfig c')
  /\ R _ (primRestartEnableConfig c) (primRestartEnableConfig c')
  /\ R _ (logicOpConfig c) (logicOpConfig c')
  /\ R _ (patchControlPointsConfig c) (patchControlPointsConfig c')
  /\ R _ (depthBiasConfig c) (depthBiasConfig c').

(** The fields of a configuration that are not pairs, the private flag
    apart, agree. *)
Definition same_scalars (c c' : TestConfig) : Prop :=
  pipelineConstructionType c = pipelineConstructionType c'
  /\ sequenceOrdering c = sequenceOrdering c'
  /\ meshParams c = meshParams c'
  /\ referenceStencil c = referenceStencil c'
  /\ clearColorValue c = clearColorValue c'
  /\ clearDepthValue c = clearDepthValue c'
  /\ clearStencilValue c = clearStencilValue c'
  /\ referenceColor c = referenceColor c'
  /\ expectedDepth c = expectedDepth c'
  /\ expectedStencil c = expectedStencil c'
  /\ minDepthBounds c = minDepthBounds c'
  /\ maxDepthBounds c = maxDepthBounds c'
  /\ forceGeometryShader c = forceGeometryShader c'
  /\ useMeshShaders c = useMeshShaders c'
  /\ bindUnusedMeshShadingPipeline c = bindUnusedMeshShadingPipeline c'
  /\ singleVertex c = singleVertex c'
  /\ singleVertexDrawCount c = singleVertexDrawCount c'
  /\ vertexDataOffset c = vertexDataOffset c'
  /\ vertexDataExtraBytes c = vertexDataExtraBytes c'
  /\ useExtraDynPCPPipeline c = useExtraDynPCPPipeline c'.

(** The five dynamic states the design lists as incompatible with mesh
    shading pipelines. *)
Definition meshShadingIncompatibleStates : list VkDynamicState :=
  [ VK_DYNAMIC_STATE_PRIMITIVE_TOPOLOGY_EXT;
    VK_DYNAMIC_STATE_VERTEX_INPUT_BINDING_STRIDE_EXT;
    VK_DYNAMIC_STATE_PRIMITIVE_RESTART_ENABLE_EXT;
    VK_DYNAMIC_STATE_PATCH_CONTROL_POINTS_EXT;
    VK_DYNAMIC_STATE_VERTEX_INPUT_EXT ].

(** The depth test of a configuration is statically off. *)
Definition depthTestDisabled (config : TestConfig) : Prop :=
  depthTestEnableConfig config = Pair.static_only false.

(** The depth test of a configuration is statically on with compare
    operation LESS, and no mesh lies in front of the cleared depth: the
    depth test fails for every fragment. *)
Definition depthTestFails (config : TestConfig) : Prop :=
  depthTestEnableConfig config = Pair.static_only true
  /\ depthCompareOpConfig config = Pair.static_only VK_COMPARE_OP_LESS
  /\ Forall (fun mesh => ~ (depth mesh < clearDepthValue config)%Q)
       (meshParams config).

(** The colour expected in every pixel of the framebuffer is [c]. *)
Definition expectsColor (config : TestConfig) (c : Vec4) : Prop :=
  forall x y, referencePixel (referenceColor config) x y = PixelFloat c.

(** ** Vertex input descriptions of the generators *)

(** Modelled from the spec: the formats, input rates and vertex input
    description structures of the Vulkan headers used by the vertex
    generators. *)
Inductive VkFormat :=
| VK_FORMAT_R32G32_SFLOAT
| VK_FORMAT_R32G32B32A32_SFLOAT.

Inductive VkVertexInputRate :=
| VK_VERTEX_INPUT_RATE_VERTEX
| VK_VERTEX_INPUT_RATE_INSTANCE.

Record VkVertexInputAttributeDescription2EXT := mkAttributeDescription2 {
  attr_location : Z; attr_binding : Z; attr_format : VkFormat;
  attr_offset : Z }.

Record VkVertexInputBindingDescription2EXT := mkBindingDescription2 {
  bind_binding : Z; bind_stride : Z; bind_inputRate : VkVertexInputRate;
  bind_divisor : Z }.

Definition makeVertexInputAttributeDescription2EXT
  (location binding : Z) (format : VkFormat) (offset : Z) :=
  mkAttributeDescription2 location binding format offset.

Definition makeVertexInputBindingDescription2EXT
  (binding stride : Z) (inputRate : VkVertexInputRate) :=
  mkBindingDescription2 binding stride inputRate 1.

(** [static_cast<deUint32>(z)]. *)
Definition to_deUint32 (z : Z) : Z := z mod 2 ^ 32.

(** [strides.at(i)] fails when out of range. *)
Definition stride_at (strides : StrideVec) (i : nat) : option Z :=
  to_deUint32 <$> strides !! i.

Definition getAttributeDescriptions2 (g : VertexGenerator)
  : list VkVertexInputAttributeDescription2EXT :=
  match g with
  | VertexWithPadding =>
      [makeVertexInputAttributeDescription2EXT 0 0 VK_FORMAT_R32G32_SFLOAT 0]
  | VertexWithExtraAttributes =>
      [makeVertexInputAttributeDescription2EXT 0 0 VK_FORMAT_R32G32_SFLOAT 0;
       makeVertexInputAttributeDescription2EXT 1 0 VK_FORMAT_R32G32_SFLOAT
         (* offsetof(VertexData, ones) *) (sizeof_Vec2 + 10 * sizeof_Vec2)]
  | MultipleBindingsVertex =>
      [makeVertexInputAttributeDescription2EXT 2 5
         VK_FORMAT_R32G32B32A32_SFLOAT (* offsetof(OneZeroPadding, oneZero) *) 0;
       makeVertexInputAttributeDescription2EXT 1 3 VK_FORMAT_R32G32_SFLOAT
         (* offsetof(CoordsData, coords) *) sizeof_Vec2;
       makeVertexInputAttributeDescription2EXT 0 1 VK_FORMAT_R32G32_SFLOAT
         (* offsetof(PaddingOnes, ones) *) (4 * sizeof_Vec2)]
  end.

Definition getBindingDescriptions2 (g : VertexGenerator) (strides : StrideVec)
  : option (list VkVertexInputBindingDescription2EXT) :=
  match g with
  | VertexWithPadding | VertexWithExtraAttributes =>
      s0 ← stride_at strides 0;
      Some [makeVertexInputBindingDescription2EXT 0 s0
              VK_VERTEX_INPUT_RATE_VERTEX]
  | MultipleBindingsVertex =>
      s2 ← stride_at strides 2;
      s0 ← stride_at strides 0;
      s1 ← stride_at strides 1;
      s5 ← stride_at strides 5;
      s4 ← stride_at strides 4;
      s3 ← stride_at strides 3;
      Some [makeVertexInputBindingDescription2EXT 2 s2
              VK_VERTEX_INPUT_RATE_INSTANCE;
            makeVertexInputBindingDescription2EXT 0 s0
              VK_VERTEX_INPUT_RATE_INSTANCE;
            makeVertexInputBindingDescription2EXT 1 s1
              VK_VERTEX_INPUT_RATE_VERTEX;
            makeVertexInputBindingDescription2EXT 5 s5
              VK_VERTEX_INPUT_RATE_VERTEX;
            makeVertexInputBindingDescription2EXT 4 s4
              VK_VERTEX_INPUT_RATE_INSTANCE;
            makeVertexInputBindingDescription2EXT 3 s3
              VK_VERTEX_INPUT_RATE_VERTEX]
  end.

(** Modelled from the spec: [VkVertexInputBindingDescription] of the
    Vulkan headers and [vk::makeVertexInputBindingDescription] of the
    framework, used for the vertex input state of the pipelines. *)
Record VkVertexInputBindingDescription := mkBindingDescription {
  bd_binding : Z; bd_stride : Z; bd_inputRate : VkVertexInputRate }.

Definition makeVertexInputBindingDescription
  (binding stride : Z) (inputRate : VkVertexInputRate) :=
  mkBindingDescription binding stride inputRate.

(** Vertex bindings for [VkPipelineVertexInputStateCreateInfo]; the
    multiple bindings generator lists them in an order of its own. *)
Definition getBindingDescriptions (g : VertexGenerator) (strides : StrideVec)
  : option (list VkVertexInputBindingDescription) :=
  match g with
  | VertexWithPadding | VertexWithExtraAttributes =>
      s0 ← stride_at strides 0;
      Some [makeVertexInputBindingDescription 0 s0
              VK_VERTEX_INPUT_RATE_VERTEX]
  | MultipleBindingsVertex =>
      s2 ← stride_at strides 2;
      s0 ← stride_at strides 0;
      s1 ← stride_at strides 1;
      s4 ← stride_at strides 4;
      s3 ← stride_at strides 3;
      s5 ← stride_at strides 5;
      Some [makeVertexInputBindingDescription 2 s2
              VK_VERTEX_INPUT_RATE_INSTANCE;
            makeVertexInputBindingDescription 0 s0
              VK_VERTEX_INPUT_RATE_INSTANCE;
            makeVertexInputBindingDescription 1 s1
              VK_VERTEX_INPUT_RATE_VERTEX;
            makeVertexInputBindingDescription 4 s4
              VK_VERTEX_INPUT_RATE_INSTANCE;
            makeVertexInputBindingDescription 3 s3
              VK_VERTEX_INPUT_RATE_VERTEX;
            makeVertexInputBindingDescription 5 s5
              VK_VERTEX_INPUT_RATE_VERTEX]
  end.

(** The size in bytes of the buffer made by
    [createSingleBindingVertexData<T>]: the leading padding, one [T] per
    coordinate and the trailing padding. Only the size is modelled; the
    bytes, vertex records between two runs of the padding pattern, are
    not. *)
Definition createSingleBindingVertexData_size (sizeof_T : Z)
  (coords_size dataOffset trailingPadding : Z) : option Z :=
  _ ← DE_ASSERT (negb (coords_size =? 0));
  Some (dataOffset + coords_size * sizeof_T + trailingPadding).

(** The sizes of the buffers made by [createVertexData], one per
    binding. *)
Definition createVertexData_sizes (g : VertexGenerator)
  (coords_size dataOffset trailingPadding : Z) : option (list Z) :=
  let single sizeof_T :=
    createSingleBindingVertexData_size sizeof_T coords_size dataOffset
      trailingPadding in
  match g with
  | VertexWithPadding =>
      (* VertexData: coords, padding *)
      s ← single (2 * sizeof_Vec2); Some [s]
  | VertexWithExtraAttributes =>
      (* VertexData: coords, padding[10], ones *)
      s ← single (sizeof_Vec2 + 10 * sizeof_Vec2 + sizeof_Vec2); Some [s]
  | MultipleBindingsVertex =>
      let Zeros := sizeof_Vec2 in
      let PaddingOnes := 4 * sizeof_Vec2 + sizeof_Vec2 in
      let CoordsData := 3 * sizeof_Vec2 in
      let OneZeroPadding := sizeof_Vec4 + 3 * sizeof_Vec2 in
      b0 ← single Zeros;
      b1 ← single PaddingOnes;
      b2 ← single Zeros;
      b3 ← single CoordsData;
      b4 ← single Zeros;
      b5 ← single OneZeroPadding;
      Some [b0; b1; b2; b3; b4; b5]
  end.

(** ** Command buffer *)

(** The pipelines created by [iterate]. [graphicsPipeline] is the one
    with dynamic states. *)
Inductive Pipeline :=
| staticPipeline
| graphicsPipeline
| meshNoOutPipeline
| extraDynPCPPipeline.

Record PushConstants := mkPushConstants {
  triangleColor : Vec4;
  meshDepth     : float;
  viewPortIndex : Z;
  pc_scaleX     : float;
  pc_scaleY     : float;
  pc_offsetX    : float;
  pc_offsetY    : float;
  pc_stripScale : float }.

(** One constructor per [vkd.cmd...] call made while recording. *)
Inductive Command :=
| cmdSetCullMode (cullMode : VkCullModeFlags)
| cmdSetFrontFace (frontFace : VkFrontFace)
| cmdSetPrimitiveTopology (topology : VkPrimitiveTopology)
| cmdSetViewportWithCount (viewports : ViewportVec)
| cmdSetScissorWithCount (scissors : ScissorVec)
| cmdSetDepthTestEnable (enable : bool)
| cmdSetDepthWriteEnable (enable : bool)
| cmdSetDepthCompareOp (op : VkCompareOp)
| cmdSetDepthBoundsTestEnable (enable : bool)
| cmdSetStencilTestEnable (enable : bool)
| cmdSetDepthBiasEnable (enable : bool)
| cmdSetDepthBias (constantFactor clamp slopeFactor : float)
| cmdSetRasterizerDiscardEnable (enable : bool)
| cmdSetPrimitiveRestartEnable (enable : bool)
| cmdSetLogicOpEXT (op : VkLogicOp)
| cmdSetPatchControlPointsEXT (patchControlPoints : Z)
| cmdSetStencilOp (params : StencilOpParams)
| cmdSetVertexInputEXT
    (bindings : list VkVertexInputBindingDescription2EXT)
    (attributes : list VkVertexInputAttributeDescription2EXT)
| cmdBindVertexBuffers2 (buffers offsets sizes strides : list Z)
| cmdBindVertexBuffers (buffers offsets : list Z)
| cmdBindIndexBuffer
| cmdBindDescriptorSets (reversedSet : bool)
| cmdPushConstants (pushConstants : PushConstants)
| cmdBindPipeline (pipeline : Pipeline)
| cmdDraw (vertexCount instanceCount firstVertex firstInstance : Z)
| cmdDrawIndexed
    (indexCount instanceCount firstIndex vertexOffset firstInstance : Z)
| cmdDrawMeshTasksEXT (groupCountX groupCountY groupCountZ : Z)
| beginCommandBuffer
| beginRenderPass (framebuffer : Z)
| endRenderPass
| endCommandBuffer.

(** Recording: a result together with the commands appended to the
    command buffer, or a failure. *)
Record Rec (A : Type) := mkRec { runRec : option (A * list Command) }.

Arguments mkRec {A} _.
Arguments runRec {A} _.

#[global] Instance Rec_ret : MRet Rec :=
  fun A a => mkRec (Some (a, [])).

#[global] Instance Rec_bind : MBind Rec :=
  fun A B f m =>
    mkRec (match runRec m with
           | None => None
           | Some (a, out1) =>
               match runRec (f a) with
               | None => None
               | Some (b, out2) => Some (b, out1 ++ out2)
               end
           end).

(** Append one command to the command buffer. *)
Definition emit (c : Command) : Rec unit := mkRec (Some (tt, [c])).

(** A computation that records nothing. *)
Definition check {A : Type} (o : option A) : Rec A :=
  mkRec (match o with Some a => Some (a, []) | None => None end).

(** The commands recorded by a successful recording. *)
Definition recorded {A : Type} (m : Rec A) : option (list Command) :=
  snd <$> runRec m.

(** [if (maybe) body(maybe.get())]. *)
Definition whenSome {T : Type} (m : option T) (body : T -> Rec unit)
  : Rec unit :=
  match m with Some v => body v | None => mret tt end.

(** [if (cond) body]. *)
Definition when (cond : bool) (body : Rec unit) : Rec unit :=
  if cond then body else mret tt.

(** A range-based [for] loop. *)
Fixpoint forEach {A : Type} (l : list A) (body : A -> Rec unit) : Rec unit :=
  match l with
  | [] => mret tt
  | x :: l' => body x;; forEach l' body
  end.

(** ** Recording helpers *)

Record VertexBufferInfo := mkVertexBufferInfo {
  buffer   : Z;   (* buffer handle *)
  offset   : Z;
  dataSize : Z }.

(** Sets values for dynamic states if needed according to the test
    configuration. *)
Definition setDynamicStates (testConfig : TestConfig) : Rec unit :=
  whenSome (dynamicValue (cullModeConfig testConfig))
    (fun v => emit (cmdSetCullMode v));;
  whenSome (dynamicValue (frontFaceConfig testConfig))
    (fun v => emit (cmdSetFrontFace v));;
  whenSome (dynamicValue (topologyConfig testConfig))
    (fun v => emit (cmdSetPrimitiveTopology v));;
  whenSome (dynamicValue (viewportConfig testConfig))
    (fun viewports => emit (cmdSetViewportWithCount viewports));;
  whenSome (dynamicValue (scissorConfig testConfig))
    (fun scissors => emit (cmdSetScissorWithCount scissors));;
  whenSome (dynamicValue (depthTestEnableConfig testConfig))
    (fun v => emit (cmdSetDepthTestEnable v));;
  whenSome (dynamicValue (depthWriteEnableConfig testConfig))
    (fun v => emit (cmdSetDepthWriteEnable v));;
  whenSome (dynamicValue (depthCompareOpConfig testConfig))
    (fun v => emit (cmdSetDepthCompareOp v));;
  whenSome (dynamicValue (depthBoundsTestEnableConfig testConfig))
    (fun v => emit (cmdSetDepthBoundsTestEnable v));;
  whenSome (dynamicValue (stencilTestEnableConfig testConfig))
    (fun v => emit (cmdSetStencilTestEnable v));;
  whenSome (dynamicValue (depthBiasEnableConfig testConfig))
    (fun v => emit (cmdSetDepthBiasEnable v));;
  whenSome (dynamicValue (depthBiasConfig testConfig))
    (fun bias => emit (cmdSetDepthBias (constantFactor bias) (clamp bias) 0%Q));;
  whenSome (dynamicValue (rastDiscardEnableConfig testConfig))
    (fun v => emit (cmdSetRasterizerDiscardEnable v));;
  whenSome (dynamicValue (primRestartEnableConfig testConfig))
    (fun v => emit (cmdSetPrimitiveRestartEnable v));;
  whenSome (dynamicValue (logicOpConfig testConfig))
    (fun v => emit (cmdSetLogicOpEXT v));;
  whenSome (dynamicValue (patchControlPointsConfig testConfig))
    (fun v => emit (cmdSetPatchControlPointsEXT v));;
  whenSome (dynamicValue (stencilOpConfig testConfig))
    (fun ops => forEach ops (fun params => emit (cmdSetStencilOp params)));;
  whenSome (dynamicValue (vertexGenerator testConfig))
    (fun generator =>
       bindings ← check (getBindingDescriptions2 generator
                           (staticValue (strideConfig testConfig)));
       let attributes := getAttributeDescriptions2 generator in
       emit (cmdSetVertexInputEXT bindings attributes)).

(** Bind the appropriate vertex buffers using dynamic strides if the test
    configuration needs a dynamic stride. Return true if the vertex buffer
    was bound. *)
Definition maybeBindVertexBufferDynStride (testConfig : TestConfig)
  (meshIdx : nat) (vertBuffers rvertBuffers : list VertexBufferInfo)
  : Rec bool :=
  match dynamicValue (strideConfig testConfig) with
  | None => mret false
  | Some strides =>
      check (DE_ASSERT (negb (useMeshShaders testConfig)));;
      let viewportVec := getActiveViewportVec testConfig in
      check (DE_ASSERT
        ((bool_decide (length viewportVec = 1%nat)
          && bool_decide (length (meshParams testConfig) = 1%nat))
         || bool_decide (sequenceOrdering testConfig = BEFORE_DRAW)
         || bool_decide (sequenceOrdering testConfig = AFTER_PIPELINES)));;
      mesh ← check (meshParams testConfig !! meshIdx);
      let chosenBuffers :=
        if reversed mesh then rvertBuffers else vertBuffers in
      check (DE_ASSERT
        (bool_decide (length chosenBuffers = length strides)));;
      emit (cmdBindVertexBuffers2 (buffer <$> chosenBuffers)
              (offset <$> chosenBuffers) (dataSize <$> chosenBuffers)
              strides);;
      mret true
  end.

(** Bind the given vertex buffers with the non-dynamic call. *)
Definition bindVertexBuffers (vertexBuffers : list VertexBufferInfo)
  : Rec unit :=
  emit (cmdBindVertexBuffers (buffer <$> vertexBuffers)
          (offset <$> vertexBuffers)).

(** ** Command recording of [ExtendedDynamicStateInstance::iterate]

    The model covers the swap of the configuration values, the checks
    and the vertex buffers that come between the swap and the recording,
    and the recording of the command buffer. The loops of the recording
    are written first, for given vertex buffers. *)

Section Iterate.

Variables vertBuffers rvertBuffers : list VertexBufferInfo.

(** [vertices.size()]: six vertices for triangles and patches, one
    segmented line per row otherwise, resized to one vertex for
    [singleVertex]. *)
Definition vertices_size (c : TestConfig) : Z :=
  if singleVertex c then 1
  else match getTopologyClass (staticValue (topologyConfig c)) with
       | TopologyClass_TRIANGLE | TopologyClass_PATCH => 6
       | _ => kLineVertexCount
       end.

(** [indices.size()]. *)
Definition indices_size : Z := kLineVertexCount.

(** The body of the loop over meshes, for one viewport. *)
Definition drawMesh (m_testConfig : TestConfig) (boundInAdvance : bool)
  (viewportIdx meshIdx : nat) : Rec unit :=
  let kSequenceOrdering := sequenceOrdering m_testConfig in
  let vertDataAsSSBO := useMeshShaders m_testConfig in
  mesh ← check (meshParams m_testConfig !! meshIdx);
  (* Push constants. *)
  emit (cmdPushConstants
          {| triangleColor := color mesh;
             meshDepth     := depth mesh;
             viewPortIndex := Z.of_nat viewportIdx;
             pc_scaleX     := scaleX mesh;
             pc_scaleY     := scaleY mesh;
             pc_offsetX    := offsetX mesh;
             pc_offsetY    := offsetY mesh;
             pc_stripScale := stripScale mesh |});;
  (* Maybe set extended dynamic state here. *)
  boundBeforeDraw ←
    (if bool_decide (kSequenceOrdering = BEFORE_DRAW)
        || bool_decide (kSequenceOrdering = AFTER_PIPELINES)
     then setDynamicStates m_testConfig;;
          maybeBindVertexBufferDynStride m_testConfig meshIdx
            vertBuffers rvertBuffers
     else mret false);
  (* Bind vertex buffer with static stride if needed and draw. *)
  when (negb (boundInAdvance || boundBeforeDraw)
        && negb (useMeshShaders m_testConfig))
    (bindVertexBuffers (if reversed mesh then rvertBuffers else vertBuffers);;
     needsIndex ← check (needsIndexBuffer m_testConfig);
     when needsIndex (emit cmdBindIndexBuffer));;
  when vertDataAsSSBO (emit (cmdBindDescriptorSets (reversed mesh)));;
  (* Draw mesh. *)
  needsIndex ← check (needsIndexBuffer m_testConfig);
  if (needsIndex : bool) then
    emit (cmdDrawIndexed indices_size 1 0 0 0)
  else if useMeshShaders m_testConfig then
    check (DE_ASSERT (vertices_size m_testConfig >? 2));;
    check (DE_ASSERT
             (negb (hasValue (dynamicValue (topologyConfig m_testConfig)))));;
    check (DE_ASSERT
             (bool_decide (staticValue (topologyConfig m_testConfig)
                           = VK_PRIMITIVE_TOPOLOGY_TRIANGLE_STRIP)));;
    let numPrimitives := vertices_size m_testConfig - 2 in
    emit (cmdDrawMeshTasksEXT numPrimitives 1 1)
  else
    let vertex_count :=
      if singleVertex m_testConfig
      then singleVertexDrawCount m_testConfig
      else vertices_size m_testConfig in
    emit (cmdDraw vertex_count 1 0 0).

(** The loops over viewports and meshes. *)
Definition drawMeshes (m_testConfig : TestConfig) (boundInAdvance : bool)
  : Rec unit :=
  let viewportVec := getActiveViewportVec m_testConfig in
  forEach (seq 0 (length viewportVec)) (fun viewportIdx =>
    forEach (seq 0 (length (meshParams m_testConfig))) (fun meshIdx =>
      drawMesh m_testConfig boundInAdvance viewportIdx meshIdx)).

(** The body of the loop over iterations. *)
Definition recordIteration (m_testConfig : TestConfig) (iteration : Z)
  : Rec unit :=
  let kSequenceOrdering := sequenceOrdering m_testConfig in
  let bindStaticFirst :=
    bool_decide (kSequenceOrdering = BETWEEN_PIPELINES)
    || bool_decide (kSequenceOrdering = AFTER_PIPELINES)
    || bool_decide (kSequenceOrdering = TWO_DRAWS_DYNAMIC) in
  (* Track in-advance vertex buffer binding. *)
  let boundInAdvance := false in
  (* Maybe set extended dynamic state here. *)
  boundInAdvance ←
    (if bool_decide (kSequenceOrdering = CMD_BUFFER_START)
     then setDynamicStates m_testConfig;;
          maybeBindVertexBufferDynStride m_testConfig 0
            vertBuffers rvertBuffers
     else mret boundInAdvance);
  (* Begin render pass. *)
  emit (beginRenderPass iteration);;
  (* Bind a static pipeline first if needed. *)
  when (bindStaticFirst && (iteration =? 0))
    (emit (cmdBindPipeline staticPipeline));;
  (* Maybe set extended dynamic state here. *)
  boundInAdvance ←
    (if bool_decide (kSequenceOrdering = BETWEEN_PIPELINES)
     then setDynamicStates m_testConfig;;
          maybeBindVertexBufferDynStride m_testConfig 0
            vertBuffers rvertBuffers
     else mret boundInAdvance);
  (* Bind dynamic pipeline. *)
  when ((negb (bool_decide (kSequenceOrdering = TWO_DRAWS_DYNAMIC))
         && negb (bool_decide (kSequenceOrdering = TWO_DRAWS_STATIC)))
        || (bool_decide (kSequenceOrdering = TWO_DRAWS_DYNAMIC)
            && (iteration >? 0))
        || (bool_decide (kSequenceOrdering = TWO_DRAWS_STATIC)
            && (iteration =? 0)))
    (when (bindUnusedMeshShadingPipeline m_testConfig)
       (check (DE_ASSERT
                 (bool_decide (kSequenceOrdering = CMD_BUFFER_START)));;
        emit (cmdBindPipeline meshNoOutPipeline));;
     when (useExtraDynPCPPipeline m_testConfig)
       (emit (cmdBindPipeline extraDynPCPPipeline);;
        when (negb (bool_decide (kSequenceOrdering = CMD_BUFFER_START))
              && negb (bool_decide (kSequenceOrdering = BETWEEN_PIPELINES)))
          (emit (cmdSetPatchControlPointsEXT
                   (staticValue (patchControlPointsConfig m_testConfig))));;
        emit (cmdDraw 3 1 0 0));;
     emit (cmdBindPipeline graphicsPipeline));;
  boundInAdvance ←
    (if bool_decide (kSequenceOrdering = BEFORE_GOOD_STATIC)
        || (bool_decide (kSequenceOrdering = TWO_DRAWS_DYNAMIC)
            && (iteration >? 0))
        || (bool_decide (kSequenceOrdering = TWO_DRAWS_STATIC)
            && (iteration =? 0))
     then setDynamicStates m_testConfig;;
          maybeBindVertexBufferDynStride m_testConfig 0
            vertBuffers rvertBuffers
     else mret boundInAdvance);
  (* Bind a static pipeline last if needed. *)
  when (bool_decide (kSequenceOrdering = BEFORE_GOOD_STATIC)
        || (bool_decide (kSequenceOrdering = TWO_DRAWS_STATIC)
            && (iteration >? 0)))
    (emit (cmdBindPipeline staticPipeline));;
  drawMeshes m_testConfig boundInAdvance;;
  emit endRenderPass.

End Iterate.

(** The configuration used by [iterate] once the values have been
    swapped for the reversed orderings. *)
Definition iterate_config (m_testConfig : TestConfig) : TestConfig :=
  let kReversed := isReversed m_testConfig in
  if kReversed then swapValues m_testConfig else m_testConfig.

(** Create a vector of [VertexBufferInfo] elements using the given vertex
    generator and set of vertices. [handle i] is the handle of the buffer
    created for element [i]; the sum of the 32-bit offset and trailing
    size is a 32-bit sum. *)
Definition prepareVertexBuffers (handle : nat -> Z)
  (generator : VertexGenerator) (vertices_size dataOffset trailingSize : Z)
  : option (list VertexBufferInfo) :=
  vertexData ← createVertexData_sizes generator vertices_size dataOffset
                 trailingSize;
  mapM (fun '(i, bufferSize) =>
          let extraSize := to_deUint32 (dataOffset + trailingSize) in
          _ ← DE_ASSERT (bufferSize >? extraSize);
          let dataSize_ := bufferSize - extraSize in
          Some {| buffer := handle i; offset := dataOffset;
                  dataSize := dataSize_ |})
       (imap pair vertexData).

(** What [iterate] computes and checks between the swap of the values and
    the recording, as far as the recording depends on it: the vertices,
    the vertex buffers of both windings, the bindings of the static
    vertex input state and the viewport and scissor counts. It fails
    where [iterate] stops on an assertion or on an index out of range.
    The depth/stencil format is assumed to be supported; images, views,
    framebuffers (one colour and one depth/stencil view per iteration),
    descriptor sets, shader modules and pipelines are not modelled. *)
Definition iterate_prepare (vertHandle rvertHandle : nat -> Z)
  (m_testConfig : TestConfig)
  : option (list VertexBufferInfo * list VertexBufferInfo) :=
  let vertDataAsSSBO := useMeshShaders m_testConfig in
  (* Vertex buffer. *)
  let topologyClass :=
    getTopologyClass (staticValue (topologyConfig m_testConfig)) in
  _ ← (if bool_decide (topologyClass = TopologyClass_TRIANGLE) then Some tt
       else if bool_decide (topologyClass = TopologyClass_PATCH) then
         DE_ASSERT (getActivePatchControlPoints m_testConfig >? 1)
       else Some tt);
  let vertices_size_ := vertices_size m_testConfig in
  (* Reversed vertices order in triangle strip (1, 0, 3, 2, 5, 4). *)
  rvertices_size ←
    (if bool_decide (topologyClass = TopologyClass_TRIANGLE) then
       _ ← DE_ASSERT (negb (vertices_size_ =? 0));
       Some (if singleVertex m_testConfig then 1 else 6)
     else Some 0);
  _ ← (if negb (bool_decide (topologyClass = TopologyClass_TRIANGLE)) then
         mapM (fun mesh => DE_ASSERT (negb (reversed mesh)))
           (meshParams m_testConfig)
       else Some []);
  (* Buffers with vertex data for the different bindings. *)
  let dataOffset := to_deUint32 (vertexDataOffset m_testConfig) in
  let trailingSize := to_deUint32 (vertexDataExtraBytes m_testConfig) in
  let generator := getActiveVertexGenerator m_testConfig in
  vertBuffers ← prepareVertexBuffers vertHandle generator vertices_size_
                  dataOffset trailingSize;
  rvertBuffers ←
    (if bool_decide (topologyClass = TopologyClass_TRIANGLE) then
       prepareVertexBuffers rvertHandle generator rvertices_size
         dataOffset trailingSize
     else Some []);
  (* Descriptor sets of the vertex data, if needed. *)
  _ ← (if vertDataAsSSBO then
         DE_ASSERT (bool_decide (length vertBuffers = length rvertBuffers))
       else Some tt);
  (* Input state. *)
  vertexBindings ←
    getBindingDescriptions (staticValue (vertexGenerator m_testConfig))
      (staticValue (strideConfig m_testConfig));
  (* Viewport state. *)
  _ ← (match dynamicValue (viewportConfig m_testConfig) with
       | Some viewports => DE_ASSERT (bool_decide (0 < length viewports)%nat)
       | None =>
           DE_ASSERT (bool_decide
             (0 < length (staticValue (viewportConfig m_testConfig)))%nat)
       end);
  _ ← (match dynamicValue (scissorConfig m_testConfig) with
       | Some scissors => DE_ASSERT (bool_decide (0 < length scissors)%nat)
       | None =>
           DE_ASSERT (bool_decide
             (0 < length (staticValue (scissorConfig m_testConfig)))%nat)
       end);
  Some (vertBuffers, rvertBuffers).

(** [iterate] from the swap of the values to the end of the command
    buffer: the values are swapped for the reversed orderings, the
    buffers are prepared and the command buffer is recorded. The handles
    of the vertex buffers are parameters; the framebuffer of an iteration
    is identified by the iteration's number. *)
Definition iterate_record (vertHandle rvertHandle : nat -> Z)
  (m_testConfig : TestConfig) : Rec unit :=
  let kNumIterations := numIterations m_testConfig in
  let m_testConfig := iterate_config m_testConfig in
  buffers ← check (iterate_prepare vertHandle rvertHandle m_testConfig);
  let vertBuffers := buffers.1 in
  let rvertBuffers := buffers.2 in
  emit beginCommandBuffer;;
  forEach (seqZ 0 kNumIterations)
    (recordIteration vertBuffers rvertBuffers m_testConfig);;
  emit endCommandBuffer.

(** ** Classification of commands *)

Definition isPipelineBind (c : Command) : bool :=
  match c with cmdBindPipeline _ => true | _ => false end.

(** The commands that set a dynamic state, the binding of vertex buffers
    with dynamic strides included. *)
Definition isDynamicStateCommand (c : Command) : bool :=
  match c with
  | cmdSetCullMode _ | cmdSetFrontFace _ | cmdSetPrimitiveTopology _
  | cmdSetViewportWithCount _ | cmdSetScissorWithCount _
  | cmdSetDepthTestEnable _ | cmdSetDepthWriteEnable _
  | cmdSetDepthCompareOp _ | cmdSetDepthBoundsTestEnable _
  | cmdSetStencilTestEnable _ | cmdSetDepthBiasEnable _
  | cmdSetDepthBias _ _ _ | cmdSetRasterizerDiscardEnable _
  | cmdSetPrimitiveRestartEnable _ | cmdSetLogicOpEXT _
  | cmdSetPatchControlPointsEXT _ | cmdSetStencilOp _
  | cmdSetVertexInputEXT _ _ | cmdBindVertexBuffers2 _ _ _ _ => true
  | _ => false
  end.


(** Every command of a successful recording satisfies [P]. *)
Definition emitsOnly {A : Type} (P : Command -> Prop) (m : Rec A) : Prop :=
  forall a out, runRec m = Some (a, out) -> Forall P out.


(** ** Dynamic states and the commands that set them

    [getDynamicStates] lists a state and [setDynamicStates] (or, for the
    strides, [maybeBindVertexBufferDynStride]) records a command under
    the same condition, the presence of a dynamic value in one pair of
    the configuration. The two definitions below name this
    correspondence, to state that the recorded commands set the states
    the dynamic pipeline declares. *)


(** The pair of configuration [c] that stands for [state] has a dynamic
    value. *)
Definition hasDynamicValue (c : TestConfig) (state : VkDynamicState) : bool :=
  match state with
  | VK_DYNAMIC_STATE_DEPTH_BIAS => hasValue (dynamicValue (depthBiasConfig c))
  | VK_DYNAMIC_STATE_CULL_MODE_EXT =>
      hasValue (dynamicValue (cullModeConfig c))
  | VK_DYNAMIC_STATE_FRONT_FACE_EXT =>
      hasValue (dynamicValue (frontFaceConfig c))
  | VK_DYNAMIC_STATE_PRIMITIVE_TOPOLOGY_EXT =>
      hasValue (dynamicValue (topologyConfig c))
  | VK_DYNAMIC_STATE_VIEWPORT_WITH_COUNT_EXT =>
      hasValue (dynamicValue (viewportConfig c))
  | VK_DYNAMIC_STATE_SCISSOR_WITH_COUNT_EXT =>
      hasValue (dynamicValue (scissorConfig c))
  | VK_DYNAMIC_STATE_VERTEX_INPUT_BINDING_STRIDE_EXT =>
      hasValue (dynamicValue (strideConfig c))
  | VK_DYNAMIC_STATE_DEPTH_TEST_ENABLE_EXT =>
      hasValue (dynamicValue (depthTestEnableConfig c))
  | VK_DYNAMIC_STATE_DEPTH_WRITE_ENABLE_EXT =>
      hasValue (dynamicValue (depthWriteEnableConfig c))
  | VK_DYNAMIC_STATE_DEPTH_COMPARE_OP_EXT =>
      hasValue (dynamicValue (depthCompareOpConfig c))
  | VK_DYNAMIC_STATE_DEPTH_BOUNDS_TEST_ENABLE_EXT =>
      hasValue (dynamicValue (depthBoundsTestEnableConfig c))
  | VK_DYNAMIC_STATE_STENCIL_TEST_ENABLE_EXT =>
      hasValue (dynamicValue (stencilTestEnableConfig c))
  | VK_DYNAMIC_STATE_STENCIL_OP_EXT =>
      hasValue (dynamicValue (stencilOpConfig c))
  | VK_DYNAMIC_STATE_VERTEX_INPUT_EXT =>
      hasValue (dynamicValue (vertexGenerator c))
  | VK_DYNAMIC_STATE_PATCH_CONTROL_POINTS_EXT =>
      hasValue (dynamicValue (patchControlPointsConfig c))
  | VK_DYNAMIC_STATE_RASTERIZER_DISCARD_ENABLE_EXT =>
      hasValue (dynamicValue (rastDiscardEnableConfig c))
  | VK_DYNAMIC_STATE_DEPTH_BIAS_ENABLE_EXT =>
      hasValue (dynamicValue (depthBiasEnableConfig c))
  | VK_DYNAMIC_STATE_LOGIC_OP_EXT => hasValue (dynamicValue (logicOpConfig c))
  | VK_DYNAMIC_STATE_PRIMITIVE_RESTART_ENABLE_EXT =>
      hasValue (dynamicValue (primRestartEnableConfig c))
  | _ => false
  end.


(** ** The design's table for the orderings with two draws

    Recordings written after the rows of the table, to be compared with
    [iterate_record] in the properties. *)



Section TwoDraws.

Variables vertBuffers rvertBuffers : list VertexBufferInfo.



End TwoDraws.

(** The conditions under which [iterate] reaches the recording: more
    than one patch control point with a patch topology, no reversed mesh
    unless the topology is one of triangles, a topology of triangles when
    the vertex data is read from storage buffers (the buffers of the
    reversed winding exist for triangles only), a static stride for every
    binding of the static vertex generator, and at least one viewport and
    one scissor in the values given to the dynamic pipeline. *)
Definition passesChecks (c : TestConfig) : Prop :=
  (getTopologyClass (staticValue (topologyConfig c)) = TopologyClass_PATCH
   -> 1 < getActivePatchControlPoints c)
  /\ (getTopologyClass (staticValue (topologyConfig c))
      <> TopologyClass_TRIANGLE
      -> Forall (fun mesh => reversed mesh = false) (meshParams c))
  /\ (useMeshShaders c = true
      -> getTopologyClass (staticValue (topologyConfig c))
         = TopologyClass_TRIANGLE)
  /\ is_Some (getBindingDescriptions (staticValue (vertexGenerator c))
                (staticValue (strideConfig c)))
  /\ default (staticValue (viewportConfig c)) (dynamicValue (viewportConfig c))
     <> []
  /\ default (staticValue (scissorConfig c)) (dynamicValue (scissorConfig c))
     <> [].

(** A configuration that passes every check of [iterate] whatever the
    handles of the buffers are: the conditions of [passesChecks] for the
    checks before the recording and, for the recording, classic
    pipelines, static strides and vertex input, no primitive restart test
    and no unused mesh shading pipeline. *)
Definition plainRecording (c : TestConfig) : Prop :=
  useMeshShaders c = false
  /\ bindUnusedMeshShadingPipeline c = false
  /\ dynamicValue (strideConfig c) = None
  /\ dynamicValue (vertexGenerator c) = None
  /\ dynamicValue (primRestartEnableConfig c) = None
  /\ passesChecks c.

(** ** Stencil oracle *)

Definition stencilPasses (op : VkCompareOp) (storedValue referenceValue : Z)
  : option bool :=
  match op with
  | VK_COMPARE_OP_NEVER            => Some false
  | VK_COMPARE_OP_LESS             => Some (referenceValue <? storedValue)
  | VK_COMPARE_OP_EQUAL            => Some (referenceValue =? storedValue)
  | VK_COMPARE_OP_LESS_OR_EQUAL    => Some (referenceValue <=? storedValue)
  | VK_COMPARE_OP_GREATER          => Some (referenceValue >? storedValue)
  | VK_COMPARE_OP_GREATER_OR_EQUAL => Some (referenceValue >=? storedValue)
  | VK_COMPARE_OP_ALWAYS           => Some true
  | _ => None (* DE_ASSERT(false) *)
  end.

Definition stencilResult (op : VkStencilOp)
  (storedValue referenceValue min max : Z) : option Z :=
  let result := storedValue in
  match op with
  | VK_STENCIL_OP_KEEP    => Some result
  | VK_STENCIL_OP_ZERO    => Some 0
  | VK_STENCIL_OP_REPLACE => Some referenceValue
  | VK_STENCIL_OP_INCREMENT_AND_CLAMP =>
      Some (if result =? max then result else to_deUint8 (result + 1))
  | VK_STENCIL_OP_DECREMENT_AND_CLAMP =>
      Some (if result =? min then result else to_deUint8 (result - 1))
  | VK_STENCIL_OP_INVERT  => Some (to_deUint8 (Z.lnot result))
  | VK_STENCIL_OP_INCREMENT_AND_WRAP =>
      Some (if result =? max then min else to_deUint8 (result + 1))
  | VK_STENCIL_OP_DECREMENT_AND_WRAP =>
      Some (if result =? min then max else to_deUint8 (result - 1))
  | _ => None (* DE_ASSERT(false) *)
  end.

(** ** Stencil operation tests of [createExtendedDynamicStateTests] *)

Record FaceCase := mkFaceCase {
  face_face : VkStencilFaceFlags;
  face_name : string }.

Definition kFaces : list FaceCase :=
  [ mkFaceCase VK_STENCIL_FACE_FRONT_BIT "face_front";
    mkFaceCase VK_STENCIL_FACE_BACK_BIT "face_back";
    mkFaceCase VK_STENCIL_FACE_FRONT_AND_BACK "face_both_single";
    (* MAX_ENUM is a placeholder. *)
    mkFaceCase VK_STENCIL_FACE_FLAG_BITS_MAX_ENUM "face_both_dual" ].

Record CompareCase := mkCompareCase {
  compare_compareOp : VkCompareOp;
  compare_name      : string }.

Definition kCompare : list CompareCase :=
  [ mkCompareCase VK_COMPARE_OP_NEVER "xf";
    mkCompareCase VK_COMPARE_OP_LESS "lt";
    mkCompareCase VK_COMPARE_OP_EQUAL "eq";
    mkCompareCase VK_COMPARE_OP_LESS_OR_EQUAL "le";
    mkCompareCase VK_COMPARE_OP_GREATER "gt";
    mkCompareCase VK_COMPARE_OP_GREATER_OR_EQUAL "ge";
    mkCompareCase VK_COMPARE_OP_ALWAYS "xt" ].

Definition kMinVal : Z := 0.
Definition kMaxVal : Z := 255.
Definition kMidVal : Z := to_deUint8 (kMaxVal * 2 / 5).
Definition kMinValI : Z := kMinVal.
Definition kMaxValI : Z := kMaxVal.

Record StencilOpCase := mkStencilOpCase {
  op_stencilOp      : VkStencilOp;
  op_name           : string;
  (* One test per clear value interesting for this operation. *)
  op_clearValues    : list Z;
  (* Alternative operation giving incompatible results. *)
  op_incompatibleOp : VkStencilOp }.

Definition kStencilOps : list StencilOpCase :=
  [ mkStencilOpCase VK_STENCIL_OP_KEEP "keep" [kMidVal] VK_STENCIL_OP_ZERO;
    mkStencilOpCase VK_STENCIL_OP_ZERO "zero" [kMidVal] VK_STENCIL_OP_KEEP;
    mkStencilOpCase VK_STENCIL_OP_REPLACE "replace" [kMidVal]
      VK_STENCIL_OP_ZERO;
    mkStencilOpCase VK_STENCIL_OP_INCREMENT_AND_CLAMP "inc_clamp"
      [kMaxVal - 1; kMaxVal] VK_STENCIL_OP_ZERO;
    mkStencilOpCase VK_STENCIL_OP_DECREMENT_AND_CLAMP "dec_clamp"
      [kMinVal + 1; kMinVal] VK_STENCIL_OP_INCREMENT_AND_CLAMP;
    mkStencilOpCase VK_STENCIL_OP_INVERT "invert" [kMidVal] VK_STENCIL_OP_ZERO;
    mkStencilOpCase VK_STENCIL_OP_INCREMENT_AND_WRAP "inc_wrap"
      [kMaxVal - 1; kMaxVal] VK_STENCIL_OP_KEEP;
    mkStencilOpCase VK_STENCIL_OP_DECREMENT_AND_WRAP "dec_wrap"
      [kMinVal + 1; kMinVal] VK_STENCIL_OP_KEEP ].

(** Modelled from the spec: [de::toString(int)] of the framework, the
    decimal representation. *)
Definition toString (z : Z) : string := NilZero.string_of_int (Z.to_int z).

(** [v[i] = f(v[i])]; the element must exist. *)
Definition modify_at {A : Type} (i : nat) (f : A -> A) (v : list A)
  : option (list A) :=
  x ← v !! i; Some (<[i := f x]> v).

(** [v.front() = f(v.front())] and [v.back() = f(v.back())]. *)
Definition modify_front {A : Type} (f : A -> A) (v : list A) :=
  modify_at 0 f v.

Definition modify_back {A : Type} (f : A -> A) (v : list A) :=
  modify_at (length v - 1) f v.

(** The members of [StencilOpParams] the generator points to with
    [activeOp] and [inactiveOps]. *)
Inductive StencilOpMember := member_failOp | member_passOp | member_depthFailOp.

(** [*ptr = value] for a pointer to one of these members. *)
Definition assign_op (ptr : StencilOpMember) (value : VkStencilOp)
  (params : StencilOpParams) : StencilOpParams :=
  match ptr with
  | member_failOp      => params <| failOp := value |>
  | member_passOp      => params <| passOp := value |>
  | member_depthFailOp => params <| depthFailOp := value |>
  end.

Section StencilOpTests.

Variable pipelineConstructionType_ : PipelineConstructionType.
Variable kOrdering : SequenceOrdering.
Variable kUseMeshShaders : bool.

(** Mesh set-up according to the face under test. *)
Definition stencilFaceMeshes (face : FaceCase) (config : TestConfig)
  : option TestConfig :=
  if face_face face =? VK_STENCIL_FACE_FRONT_BIT then
    (* Default parameters are OK. *)
    Some config
  else if face_face face =? VK_STENCIL_FACE_BACK_BIT then
    (* Reverse the mesh so it applies the back operation. *)
    meshes ← modify_at 0 (fun m => m <| reversed := true |>)
               (meshParams config);
    Some (config <| meshParams := meshes |>)
  else
    (* Front and back: make the second mesh a reversed copy of the
       first mesh. *)
    front ← meshParams config !! 0%nat;
    let meshes := meshParams config ++ [front] in
    meshes ← modify_back (fun m => m <| reversed := true |>) meshes;
    (* Apply scale and offset to the top mesh. *)
    meshes ← modify_front (fun m => m <| scaleY := (1#2)%Q |>) meshes;
    meshes ← modify_front (fun m => m <| offsetY := (-1#2)%Q |>) meshes;
    (* Apply scale and offset to the bottom mesh. *)
    meshes ← modify_back (fun m => m <| scaleY := (1#2)%Q |>) meshes;
    meshes ← modify_back (fun m => m <| offsetY := (1#2)%Q |>) meshes;
    Some (config <| meshParams := meshes |>).

(** The body of the loop over sub-cases: the name and configuration of
    the test added to the group. *)
Definition stencilSubCase (face : FaceCase) (compare : CompareCase)
  (op : StencilOpCase) (clearVal refVal : Z) (wouldPass : bool)
  (subCaseIdx : Z) : option (string * TestConfig) :=
  let refValU8 := to_deUint8 refVal in
  let refValU32 := to_deUint32 refVal in
  (* depthFail would be the second variant. *)
  let depthFail := subCaseIdx >? 0 in
  (* Global result of the stencil+depth test. *)
  let globalPass := wouldPass && negb depthFail in
  (* Start tuning test parameters. *)
  config ← TestConfig_new pipelineConstructionType_ kOrdering
             kUseMeshShaders None None;
  config ← stencilFaceMeshes face config;
  (* Enable the stencil test. *)
  let config := config <| stencilTestEnableConfig -> staticValue := true |> in
  (* Set dynamic configuration. *)
  let dynamicStencilConfig :=
    {| faceMask    := face_face face;
       compareOp   := compare_compareOp compare;
       failOp      := VK_STENCIL_OP_MAX_ENUM;
       passOp      := VK_STENCIL_OP_MAX_ENUM;
       depthFailOp := VK_STENCIL_OP_MAX_ENUM |} in
  (* Set operations so only the appropriate operation for this case
     gives the right result. *)
  let '(activeOp, inactiveOps0, inactiveOps1) :=
    if wouldPass then
      if depthFail
      then (member_depthFailOp, member_passOp, member_failOp)
      else (member_passOp, member_depthFailOp, member_failOp)
    else (member_failOp, member_passOp, member_depthFailOp) in
  let dynamicStencilConfig :=
    assign_op activeOp (op_stencilOp op) dynamicStencilConfig in
  let dynamicStencilConfig :=
    assign_op inactiveOps0 (op_incompatibleOp op) dynamicStencilConfig in
  let dynamicStencilConfig :=
    assign_op inactiveOps1 (op_incompatibleOp op) dynamicStencilConfig in
  (* Make sure all ops have been configured properly. *)
  _ ← DE_ASSERT (negb (bool_decide
         (failOp dynamicStencilConfig = VK_STENCIL_OP_MAX_ENUM)));
  _ ← DE_ASSERT (negb (bool_decide
         (passOp dynamicStencilConfig = VK_STENCIL_OP_MAX_ENUM)));
  _ ← DE_ASSERT (negb (bool_decide
         (depthFailOp dynamicStencilConfig = VK_STENCIL_OP_MAX_ENUM)));
  (* Set an incompatible static operation too. *)
  let setStatic (staticStencilConfig : StencilOpParams) :=
    staticStencilConfig
      <| faceMask := face_face face |>
      <| compareOp := if globalPass then VK_COMPARE_OP_NEVER
                      else VK_COMPARE_OP_ALWAYS |>
      <| passOp := op_incompatibleOp op |>
      <| failOp := op_incompatibleOp op |>
      <| depthFailOp := op_incompatibleOp op |> in
  staticOps ← modify_front setStatic
                (staticValue (stencilOpConfig config));
  (* Set dynamic configuration. *)
  let stencilOps := [dynamicStencilConfig] in
  '(stencilOps, staticOps) ←
    (if faceMask dynamicStencilConfig =? VK_STENCIL_FACE_FLAG_BITS_MAX_ENUM
     then
       (* This is the dual case. We will set the front and back face
          values with two separate calls. *)
       let stencilOps := stencilOps ++ [dynamicStencilConfig] in
       stencilOps ← modify_front
         (fun p => p <| faceMask := VK_STENCIL_FACE_FRONT_BIT |>) stencilOps;
       stencilOps ← modify_back
         (fun p => p <| faceMask := VK_STENCIL_FACE_BACK_BIT |>) stencilOps;
       staticOps ← modify_front
         (fun p => p <| faceMask := VK_STENCIL_FACE_FRONT_AND_BACK |>)
         staticOps;
       Some (stencilOps, staticOps)
     else Some (stencilOps, staticOps));
  let config := config
    <| stencilOpConfig := mkPair staticOps (Some stencilOps) |>
    <| clearStencilValue := clearVal |>
    <| referenceStencil := refValU32 |> in
  let config :=
    if depthFail then
      (* Enable depth test and make it fail. *)
      config <| depthTestEnableConfig -> staticValue := true |>
             <| clearDepthValue := (1#2)%Q |>
             <| depthCompareOpConfig -> staticValue := VK_COMPARE_OP_LESS |>
             <| meshParams ::= fmap (fun meshPar =>
                                       meshPar <| depth := (3#4)%Q |>) |>
    else config in
  (* Set expected outcome. *)
  expected ← stencilResult (op_stencilOp op) clearVal refValU8
               kMinVal kMaxVal;
  let config := config
    <| referenceColor := SingleColorGenerator_float
         (if globalPass then kDefaultTriangleColor
          else kDefaultClearColor) |>
    (* No depth writing by default. *)
    <| expectedDepth := clearDepthValue config |>
    <| expectedStencil := expected |> in
  let testName :=
    "stencil_state" +:+ "_" +:+ face_name face
      +:+ "_" +:+ compare_name compare
      +:+ "_" +:+ op_name op
      +:+ "_clear_" +:+ toString clearVal
      +:+ "_ref_" +:+ toString refVal
      +:+ "_" +:+ (if wouldPass
                   then (if depthFail then "depthfail" else "pass")
                   else "fail") in
  Some (testName, config).

(** The body of the loop over reference deltas. *)
Definition stencilRefCases (face : FaceCase) (compare : CompareCase)
  (op : StencilOpCase) (clearVal delta : Z)
  : option (list (string * TestConfig)) :=
  let refVal := clearVal + delta in
  if (refVal <? kMinValI) || (refVal >? kMaxValI) then
    Some [] (* continue *)
  else
    let refValU8 := to_deUint8 refVal in
    (* Calculate outcome of the stencil test itself. *)
    wouldPass ← stencilPasses (compare_compareOp compare) clearVal refValU8;
    (* If the test passes, use an additional variant for the depthFail
       operation. *)
    let subCases := if (wouldPass : bool) then 2 else 1 in
    mapM (stencilSubCase face compare op clearVal refVal wouldPass)
      (seqZ 0 subCases).

(** Nested loops: the results of the bodies, in order. *)
Definition forAll {A B : Type} (l : list A) (body : A -> option (list B))
  : option (list B) :=
  @concat B <$> mapM body l.

(** The stencil operation tests added to one ordering group. *)
Definition stencilOpTests : option (list (string * TestConfig)) :=
  forAll kFaces (fun face =>
  forAll kCompare (fun compare =>
  forAll kStencilOps (fun op =>
  (* Try clearing the stencil value with different values. *)
  forAll (op_clearValues op) (fun clearVal =>
  (* Use interesting values as the reference stencil value. *)
  forAll (seqZ (-1) 3) (fun delta =>
    stencilRefCases face compare op clearVal delta))))).

End StencilOpTests.

(** ** Cull mode tests of [createExtendedDynamicStateTests]

    The configuration of the first test of every ordering group,
    "cull_none": the constructor's defaults for null generator pointers,
    a static cull mode FRONT and a dynamic cull mode NONE. *)
Definition cull_none_config (pipelineConstructionType_ : PipelineConstructionType)
  (kOrdering : SequenceOrdering) (kUseMeshShaders : bool) : TestConfig :=
  (TestConfig_init pipelineConstructionType_ kOrdering kUseMeshShaders
     (Pair.static_only getVertexWithPaddingGenerator)
     (getVertexDataStrides getVertexWithPaddingGenerator))
    <| cullModeConfig -> staticValue := VK_CULL_MODE_FRONT_BIT |>
    <| cullModeConfig -> dynamicValue := Some VK_CULL_MODE_NONE |>.

(** ** The recording, ordering by ordering

    The loop over iterations of [iterate] places its commands with flags
    computed from the ordering and the iteration's number. Below, the
    same recording is written as one straight sequence per ordering, to
    be compared with [iterate_record] in the properties. *)

Section Ordered.

Variables vertBuffers rvertBuffers : list VertexBufferInfo.

(** The block that binds the pipeline with dynamic states: an unused mesh
    shading pipeline and the extra pipeline with dynamic patch control
    points come first when the configuration asks for them. *)
Definition bindDynamicPipelines (c : TestConfig) : Rec unit :=
  when (bindUnusedMeshShadingPipeline c)
    (check (DE_ASSERT (bool_decide (sequenceOrdering c = CMD_BUFFER_START)));;
     emit (cmdBindPipeline meshNoOutPipeline));;
  when (useExtraDynPCPPipeline c)
    (emit (cmdBindPipeline extraDynPCPPipeline);;
     when (negb (bool_decide (sequenceOrdering c = CMD_BUFFER_START))
           && negb (bool_decide (sequenceOrdering c = BETWEEN_PIPELINES)))
       (emit (cmdSetPatchControlPointsEXT
                (staticValue (patchControlPointsConfig c))));;
     emit (cmdDraw 3 1 0 0));;
  emit (cmdBindPipeline graphicsPipeline).

(** The dynamic state is set and the vertex buffers of the first mesh
    are bound if the strides are dynamic. *)
Definition setStatesAndStride (c : TestConfig) : Rec bool :=
  setDynamicStates c;;
  maybeBindVertexBufferDynStride c 0 vertBuffers rvertBuffers.

Definition inRenderPass (framebuffer : Z) (body : Rec unit) : Rec unit :=
  emit (beginRenderPass framebuffer);; body;; emit endRenderPass.

Definition orderedCommands (c : TestConfig) : Rec unit :=
  let draw := drawMeshes vertBuffers rvertBuffers c in
  let bindStatic := emit (cmdBindPipeline staticPipeline) in
  emit beginCommandBuffer;;
  match sequenceOrdering c with
  | CMD_BUFFER_START =>
      bound ← setStatesAndStride c;
      inRenderPass 0 (bindDynamicPipelines c;; draw bound)
  | BEFORE_DRAW =>
      (* [drawMeshes] sets the state before each draw *)
      inRenderPass 0 (bindDynamicPipelines c;; draw false)
  | BETWEEN_PIPELINES =>
      inRenderPass 0
        (bindStatic;; bound ← setStatesAndStride c;
         bindDynamicPipelines c;; draw bound)
  | AFTER_PIPELINES =>
      (* [drawMeshes] sets the state before each draw *)
      inRenderPass 0 (bindStatic;; bindDynamicPipelines c;; draw false)
  | BEFORE_GOOD_STATIC =>
      inRenderPass 0
        (bindDynamicPipelines c;; bound ← setStatesAndStride c;
         bindStatic;; draw bound)
  | TWO_DRAWS_DYNAMIC =>
      inRenderPass 0 (bindStatic;; draw false);;
      inRenderPass 1
        (bindDynamicPipelines c;; bound ← setStatesAndStride c; draw bound)
  | TWO_DRAWS_STATIC =>
      inRenderPass 0
        (bindDynamicPipelines c;; bound ← setStatesAndStride c; draw bound);;
      inRenderPass 1 (bindStatic;; draw false)
  end;;
  emit endCommandBuffer.

End Ordered.

Definition orderedRecording (vertHandle rvertHandle : nat -> Z)
  (c : TestConfig) : Rec unit :=
  let c' := iterate_config c in
  buffers ← check (iterate_prepare vertHandle rvertHandle c');
  orderedCommands buffers.1 buffers.2 c'.

(** ** Pipelines of [iterate] *)

(** [bindStaticFirst] and [useStaticPipeline] of [iterate]; [kReversed] is
    read before the values are swapped. *)
Definition bindStaticFirst (c : TestConfig) : bool :=
  bool_decide (sequenceOrdering c = BETWEEN_PIPELINES)
  || bool_decide (sequenceOrdering c = AFTER_PIPELINES)
  || bool_decide (sequenceOrdering c = TWO_DRAWS_DYNAMIC).

Definition useStaticPipeline (c : TestConfig) : bool :=
  let kReversed := isReversed c in
  bindStaticFirst c || kReversed.

(** The pipelines that [iterate] builds: the dynamic pipeline always, the
    others under their conditions. *)
Definition pipelineBuilt (c : TestConfig) (p : Pipeline) : bool :=
  match p with
  | staticPipeline => useStaticPipeline c
  | graphicsPipeline => true
  | meshNoOutPipeline => bindUnusedMeshShadingPipeline c
  | extraDynPCPPipeline => useExtraDynPCPPipeline c
  end.

#[global] Instance Pipeline_eq_dec : EqDecision Pipeline.
Proof. solve_decision. Defined.

(** The pipelines bound by a list of commands, in order. *)
Definition boundPipelines (cmds : list Command) : list Pipeline :=
  omap (fun cmd => match cmd with cmdBindPipeline p => Some p | _ => None end)
       cmds.

(** ** Vertex input of the static pipeline *)

(** Modelled from the spec: [VkVertexInputAttributeDescription] of the
    Vulkan headers and [vk::makeVertexInputAttributeDescription] of the
    framework. *)
Record VkVertexInputAttributeDescription := mkAttributeDescription {
  ad_location : Z; ad_binding : Z; ad_format : VkFormat; ad_offset : Z }.

Definition makeVertexInputAttributeDescription
  (location binding : Z) (format : VkFormat) (offset : Z) :=
  mkAttributeDescription location binding format offset.

(** Vertex attributes for [VkPipelineVertexInputStateCreateInfo]. *)
Definition getAttributeDescriptions (g : VertexGenerator)
  : list VkVertexInputAttributeDescription :=
  match g with
  | VertexWithPadding =>
      [makeVertexInputAttributeDescription 0 0 VK_FORMAT_R32G32_SFLOAT 0]
  | VertexWithExtraAttributes =>
      [makeVertexInputAttributeDescription 0 0 VK_FORMAT_R32G32_SFLOAT 0;
       makeVertexInputAttributeDescription 1 0 VK_FORMAT_R32G32_SFLOAT
         (* offsetof(VertexData, ones) *) (sizeof_Vec2 + 10 * sizeof_Vec2)]
  | MultipleBindingsVertex =>
      [makeVertexInputAttributeDescription 1 3 VK_FORMAT_R32G32_SFLOAT
         (* offsetof(CoordsData, coords) *) sizeof_Vec2;
       makeVertexInputAttributeDescription 2 5
         VK_FORMAT_R32G32B32A32_SFLOAT (* offsetof(OneZeroPadding, oneZero) *) 0;
       makeVertexInputAttributeDescription 0 1 VK_FORMAT_R32G32_SFLOAT
         (* offsetof(PaddingOnes, ones) *) (4 * sizeof_Vec2)]
  end.

(** The bytes an attribute of a format reads: two or four 32-bit
    floats. *)
Definition formatSize (format : VkFormat) : Z :=
  match format with
  | VK_FORMAT_R32G32_SFLOAT => sizeof_Vec2
  | VK_FORMAT_R32G32B32A32_SFLOAT => sizeof_Vec4
  end.

(** * Properties *)

(** ** Fixed-width arithmetic *)

Lemma to_deUint8_range z : is_deUint8 (to_deUint8 z).
Proof.
  unfold is_deUint8, to_deUint8.
  pose proof (Z.mod_pos_bound z 256 ltac:(lia)). lia.
Qed.

Lemma to_deUint8_id z : is_deUint8 z -> to_deUint8 z = z.
Proof. unfold is_deUint8, to_deUint8. intros Hz. apply Z.mod_small. lia. Qed.

Lemma to_deUint8_succ z :
  is_deUint8 z -> to_deUint8 (z + 1) = if decide (z = 255) then 0 else z + 1.
Proof.
  intros Hz. case_decide as Hmax.
  - subst z. reflexivity.
  - apply to_deUint8_id. unfold is_deUint8 in *. lia.
Qed.

Lemma to_deUint8_pred z :
  is_deUint8 z -> to_deUint8 (z - 1) = if decide (z = 0) then 255 else z - 1.
Proof.
  intros Hz. case_decide as Hmin.
  - subst z. reflexivity.
  - apply to_deUint8_id. unfold is_deUint8 in *. lia.
Qed.

Lemma to_deUint8_lnot z : is_deUint8 z -> to_deUint8 (Z.lnot z) = 255 - z.
Proof.
  intros Hz. unfold to_deUint8, Z.lnot, is_deUint8 in *.
  replace (Z.pred (- z)) with ((255 - z) + (-1) * 256) by lia.
  rewrite Z.mod_add by lia. apply Z.mod_small. lia.
Qed.

Lemma deUint8_complement_bits z i :
  is_deUint8 z -> 0 <= i < 8 ->
  Z.testbit (255 - z) i = negb (Z.testbit z i).
Proof.
  intros Hz Hi. rewrite <- (to_deUint8_lnot z Hz). unfold to_deUint8.
  change 256 with (2 ^ 8). rewrite Z.mod_pow2_bits_low by lia.
  apply Z.lnot_spec. lia.
Qed.

(** ** Stencil oracle *)

Lemma Zgtb_decide x y : (x >? y) = bool_decide (x > y).
Proof.
  rewrite Z.gtb_ltb. destruct (Z.ltb_spec y x); symmetry.
  - apply bool_decide_eq_true. lia.
  - apply bool_decide_eq_false. lia.
Qed.

Lemma Zgeb_decide x y : (x >=? y) = bool_decide (x >= y).
Proof.
  rewrite Z.geb_leb. destruct (Z.leb_spec y x); symmetry.
  - apply bool_decide_eq_true. lia.
  - apply bool_decide_eq_false. lia.
Qed.

Lemma Zltb_decide x y : (x <? y) = bool_decide (x < y).
Proof.
  destruct (Z.ltb_spec x y); symmetry.
  - by apply bool_decide_eq_true.
  - apply bool_decide_eq_false. lia.
Qed.

Lemma Zleb_decide x y : (x <=? y) = bool_decide (x <= y).
Proof.
  destruct (Z.leb_spec x y); symmetry.
  - by apply bool_decide_eq_true.
  - apply bool_decide_eq_false. lia.
Qed.

Lemma Zeqb_decide x y : (x =? y) = bool_decide (x = y).
Proof.
  destruct (Z.eqb_spec x y); symmetry.
  - by apply bool_decide_eq_true.
  - by apply bool_decide_eq_false.
Qed.

(** C1. For the seven compare operations of the closed enumeration and
    all stored and reference values (in particular all 8-bit ones),
    [stencilPasses] returns the comparison [reference OP stored]: NEVER
    is false, ALWAYS is true, LESS is [reference < stored], EQUAL is
    [reference = stored], LESS_OR_EQUAL is [reference <= stored], GREATER
    is [reference > stored] and GREATER_OR_EQUAL is [reference >= stored].
    With LESS, stored 10 and reference 5 pass, stored 5 and reference 10
    do not. *)
Theorem stencilPasses_reference_op_stored (stored reference : Z) :
  stencilPasses VK_COMPARE_OP_NEVER stored reference = Some false
  /\ stencilPasses VK_COMPARE_OP_LESS stored reference
     = Some (bool_decide (reference < stored))
  /\ stencilPasses VK_COMPARE_OP_EQUAL stored reference
     = Some (bool_decide (reference = stored))
  /\ stencilPasses VK_COMPARE_OP_LESS_OR_EQUAL stored reference
     = Some (bool_decide (reference <= stored))
  /\ stencilPasses VK_COMPARE_OP_GREATER stored reference
     = Some (bool_decide (reference > stored))
  /\ stencilPasses VK_COMPARE_OP_GREATER_OR_EQUAL stored reference
     = Some (bool_decide (reference >= stored))
  /\ stencilPasses VK_COMPARE_OP_ALWAYS stored reference = Some true
  /\ stencilPasses VK_COMPARE_OP_LESS 10 5 = Some true
  /\ stencilPasses VK_COMPARE_OP_LESS 5 10 = Some false.
Proof.
  unfold stencilPasses.
  rewrite Zltb_decide, Zeqb_decide, Zleb_decide, Zgtb_decide, Zgeb_decide.
  repeat split.
Qed.

(** C2. For the eight stencil operations and all 8-bit stored, reference,
    min and max values, [stencilResult] returns: stored for KEEP, 0 for
    ZERO, reference for REPLACE, [stored == max ? stored : stored + 1] for
    INCREMENT_AND_CLAMP, [stored == min ? stored : stored - 1] for
    DECREMENT_AND_CLAMP, the bitwise complement of stored for INVERT,
    [stored == max ? min : stored + 1] for INCREMENT_AND_WRAP and
    [stored == min ? max : stored - 1] for DECREMENT_AND_WRAP. The sums
    and differences are those of the result type [deUint8]; they are the
    plain integers [stored + 1] unless stored is 255, and [stored - 1]
    unless stored is 0. The result is always an 8-bit value. With min 0
    and max 255, INCREMENT_AND_CLAMP at 255 gives 255, INCREMENT_AND_WRAP
    at 255 gives 0 and DECREMENT_AND_WRAP at 0 gives 255. *)
Theorem stencilResult_table (stored reference min max : Z) :
  is_deUint8 stored -> is_deUint8 reference ->
  is_deUint8 min -> is_deUint8 max ->
  stencilResult VK_STENCIL_OP_KEEP stored reference min max = Some stored
  /\ stencilResult VK_STENCIL_OP_ZERO stored reference min max = Some 0
  /\ stencilResult VK_STENCIL_OP_REPLACE stored reference min max
     = Some reference
  /\ stencilResult VK_STENCIL_OP_INCREMENT_AND_CLAMP stored reference min max
     = Some (if bool_decide (stored =max) then stored
             else to_deUint8 (stored + 1))
  /\ stencilResult VK_STENCIL_OP_DECREMENT_AND_CLAMP stored reference min max
     = Some (if bool_decide (stored =min) then stored
             else to_deUint8 (stored - 1))
  /\ (exists complement,
        stencilResult VK_STENCIL_OP_INVERT stored reference min max
        = Some complement
        /\ complement = 255 - stored
        /\ forall i, 0 <= i < 8 ->
             Z.testbit complement i = negb (Z.testbit stored i))
  /\ stencilResult VK_STENCIL_OP_INCREMENT_AND_WRAP stored reference min max
     = Some (if bool_decide (stored =max) then min else to_deUint8 (stored + 1))
  /\ stencilResult VK_STENCIL_OP_DECREMENT_AND_WRAP stored reference min max
     = Some (if bool_decide (stored =min) then max else to_deUint8 (stored - 1))
  /\ (stored <> 255 -> to_deUint8 (stored + 1) = stored + 1)
  /\ (stored <> 0 -> to_deUint8 (stored - 1) = stored - 1)
  /\ (forall op result,
        stencilResult op stored reference min max = Some result ->
        is_deUint8 result)
  /\ stencilResult VK_STENCIL_OP_INCREMENT_AND_CLAMP 255 reference 0 255
     = Some 255
  /\ stencilResult VK_STENCIL_OP_INCREMENT_AND_WRAP 255 reference 0 255
     = Some 0
  /\ stencilResult VK_STENCIL_OP_DECREMENT_AND_WRAP 0 reference 0 255
     = Some 255.
Proof.
  intros Hs Hr Hmin Hmax. unfold stencilResult.
  rewrite !Zeqb_decide.
  repeat apply conj; try reflexivity.
  - eexists. split; [reflexivity|]. split.
    + by apply to_deUint8_lnot.
    + intros i Hi. rewrite to_deUint8_lnot by done.
      by apply deUint8_complement_bits.
  - intros Hne. rewrite to_deUint8_succ by done. by case_decide.
  - intros Hne. rewrite to_deUint8_pred by done. by case_decide.
  - intros op result Hres.
    destruct op; simplify_eq; try done;
      repeat case_bool_decide; subst; auto using to_deUint8_range;
      unfold is_deUint8; lia.
Qed.

Lemma stencilResult_table_witness :
  is_deUint8 255 /\ is_deUint8 7 /\ is_deUint8 0 /\ is_deUint8 254
  /\ stencilResult VK_STENCIL_OP_INCREMENT_AND_CLAMP 255 7 0 254
     = Some (if bool_decide (255 = 254) then 255 else to_deUint8 (255 + 1)).
Proof.
  assert (H255 : is_deUint8 255) by (unfold is_deUint8; lia).
  assert (H7 : is_deUint8 7) by (unfold is_deUint8; lia).
  assert (H0 : is_deUint8 0) by (unfold is_deUint8; lia).
  assert (H254 : is_deUint8 254) by (unfold is_deUint8; lia).
  destruct (stencilResult_table 255 7 0 254 H255 H7 H0 H254)
    as (_ & _ & _ & Hinc & _).
  exact (conj H255 (conj H7 (conj H0 (conj H254 Hinc)))).
Defined.

(** ** Pairs and configurations *)

Lemma Pair_swapValues_involutive {T : Type} (p : StaticAndDynamicPair T) :
  Pair.swapValues (Pair.swapValues p) = p.
Proof. by destruct p as [s [d|]]. Qed.

Lemma Pair_swapValues_static_only {T : Type} (p : StaticAndDynamicPair T) :
  dynamicValue p = None -> Pair.swapValues p = p.
Proof. unfold Pair.swapValues. by intros ->. Qed.

Lemma Pair_swapValues_exchanges {T : Type} (p : StaticAndDynamicPair T) d :
  dynamicValue p = Some d ->
  staticValue (Pair.swapValues p) = d
  /\ dynamicValue (Pair.swapValues p) = Some (staticValue p).
Proof. unfold Pair.swapValues. by intros ->. Qed.

Lemma active_swapValues {T : Type} (p : StaticAndDynamicPair T) swapped :
  active (Pair.swapValues p) (negb swapped) = active p swapped.
Proof. by destruct p as [s [d|]], swapped. Qed.

Lemma swapValues_pairs c :
  each_pair (fun T p p' => p' = Pair.swapValues p) c (swapValues c).
Proof. by destruct c. Qed.

Lemma swapValues_scalars c : same_scalars c (swapValues c).
Proof. by destruct c. Qed.

Lemma swapValues_flag c :
  m_swappedValues (swapValues c) = negb (m_swappedValues c).
Proof. by destruct c. Qed.

Lemma swapValues_involutive c : swapValues (swapValues c) = c.
Proof.
  destruct c. cbv [swapValues apply_update]. cbn.
  by rewrite !Pair_swapValues_involutive, negb_involutive.
Qed.

Lemma getActiveViewportVec_active c :
  getActiveViewportVec c = active (viewportConfig c) (m_swappedValues c).
Proof.
  unfold getActiveViewportVec, active.
  by destruct (dynamicValue _), (m_swappedValues c).
Qed.

Lemma getActiveVertexGenerator_active c :
  getActiveVertexGenerator c = active (vertexGenerator c) (m_swappedValues c).
Proof.
  unfold getActiveVertexGenerator, active.
  by destruct (dynamicValue _), (m_swappedValues c).
Qed.

Lemma getActivePatchControlPoints_active c :
  getActivePatchControlPoints c
  = active (patchControlPointsConfig c) (m_swappedValues c).
Proof.
  unfold getActivePatchControlPoints, active.
  by destruct (dynamicValue _), (m_swappedValues c).
Qed.

Lemma getActiveDepthBiasParams_active c :
  getActiveDepthBiasParams c = active (depthBiasConfig c) (m_swappedValues c).
Proof.
  unfold getActiveDepthBiasParams, active.
  by destruct (dynamicValue _), (m_swappedValues c).
Qed.

Lemma getActivePrimitiveRestartEnable_active c :
  getActivePrimitiveRestartEnable c
  = active (primRestartEnableConfig c) (m_swappedValues c).
Proof.
  unfold getActivePrimitiveRestartEnable, active.
  by destruct (dynamicValue _), (m_swappedValues c).
Qed.

(** C3. Each active-value query of the configuration is the design's
    [active] on its pair and the swapped flag. [active] returns the
    dynamic value when one is present and the flag is false, and the
    static value otherwise. For a pair without dynamic value, swapping
    leaves the pair unchanged and the active value is the static value
    for both values of the flag. *)
Theorem active_value_query :
  (forall c,
     getActiveViewportVec c = active (viewportConfig c) (m_swappedValues c)
     /\ getActiveVertexGenerator c
        = active (vertexGenerator c) (m_swappedValues c)
     /\ getActivePatchControlPoints c
        = active (patchControlPointsConfig c) (m_swappedValues c)
     /\ getActiveDepthBiasParams c
        = active (depthBiasConfig c) (m_swappedValues c)
     /\ getActivePrimitiveRestartEnable c
        = active (primRestartEnableConfig c) (m_swappedValues c))
  /\ (forall (T : Type) (p : StaticAndDynamicPair T) (swapped : bool),
        (forall d, dynamicValue p = Some d -> swapped = false ->
                   active p swapped = d)
        /\ (dynamicValue p = None \/ swapped = true ->
            active p swapped = staticValue p))
  /\ (forall (T : Type) (p : StaticAndDynamicPair T),
        dynamicValue p = None ->
        Pair.swapValues p = p
        /\ active p false = staticValue p
        /\ active p true = staticValue p).
Proof.
  split; [|split].
  - intros c.
    auto using getActiveViewportVec_active, getActiveVertexGenerator_active,
      getActivePatchControlPoints_active, getActiveDepthBiasParams_active,
      getActivePrimitiveRestartEnable_active.
  - intros T p swapped. unfold active. split.
    + by intros d -> ->.
    + intros [-> | ->]; [done|]. by destruct (dynamicValue p).
  - intros T p Hnone. split; [by apply Pair_swapValues_static_only|].
    unfold active. by rewrite Hnone.
Qed.

Lemma active_value_query_witness :
  dynamicValue (Pair.static_only 7) = None
  /\ Pair.swapValues (Pair.static_only 7) = Pair.static_only 7
  /\ active (Pair.static_only 7) false = 7
  /\ active (Pair.static_only 7) true = 7
  /\ active (Pair.static_and_dynamic 7 9) false = 9
  /\ active (Pair.static_and_dynamic 7 9) true = 7.
Proof.
  destruct active_value_query as (_ & Hactive & Hstatic).
  destruct (Hstatic Z (Pair.static_only 7) eq_refl) as (Hswap & Hf & Ht).
  destruct (Hactive Z (Pair.static_and_dynamic 7 9) false) as (Hdyn & _).
  destruct (Hactive Z (Pair.static_and_dynamic 7 9) true) as (_ & Hsta).
  exact (conj eq_refl (conj Hswap (conj Hf (conj Ht
           (conj (Hdyn 9 eq_refl eq_refl) (Hsta (or_intror eq_refl))))))).
Defined.

(** C6. For a pair with both values, one [swapValues] exchanges the
    static and dynamic contents and a second one restores them.
    [TestConfig::swapValues] applies the pair swap to each of the nineteen
    pairs, toggles the private flag, leaves the other fields alone, and
    applied twice gives back the configuration. *)
Theorem swapValues_involution :
  (forall (T : Type) (s d : T),
     Pair.swapValues (Pair.static_and_dynamic s d)
     = Pair.static_and_dynamic d s
     /\ Pair.swapValues (Pair.swapValues (Pair.static_and_dynamic s d))
        = Pair.static_and_dynamic s d)
  /\ (forall c,
        each_pair (fun T p p' => p' = Pair.swapValues p) c (swapValues c)
        /\ same_scalars c (swapValues c)
        /\ m_swappedValues (swapValues c) = negb (m_swappedValues c)
        /\ swapValues (swapValues c) = c).
Proof.
  split.
  - intros T s d. split; [done|]. apply Pair_swapValues_involutive.
  - intros c.
    auto using swapValues_pairs, swapValues_scalars, swapValues_flag,
      swapValues_involutive.
Qed.

(** C10. Every active-value query returns the same result before and
    after [swapValues]. *)
Theorem active_values_invariant_under_swapValues c :
  getActiveViewportVec (swapValues c) = getActiveViewportVec c
  /\ getActiveVertexGenerator (swapValues c) = getActiveVertexGenerator c
  /\ getActivePatchControlPoints (swapValues c) = getActivePatchControlPoints c
  /\ getActiveDepthBiasParams (swapValues c) = getActiveDepthBiasParams c
  /\ getActivePrimitiveRestartEnable (swapValues c)
     = getActivePrimitiveRestartEnable c.
Proof.
  rewrite !getActiveViewportVec_active, !getActiveVertexGenerator_active,
    !getActivePatchControlPoints_active, !getActiveDepthBiasParams_active,
    !getActivePrimitiveRestartEnable_active, swapValues_flag.
  destruct (swapValues_pairs c)
    as (-> & _ & _ & _ & -> & _ & _ & _ & _ & _ & _ & _ & _ & _ & _
        & -> & _ & -> & ->).
  by rewrite !active_swapValues.
Qed.

(** ** Reversed orderings *)

Lemma isReversed_true c :
  isReversed c = true
  <-> sequenceOrdering c = BEFORE_GOOD_STATIC
      \/ sequenceOrdering c = TWO_DRAWS_STATIC.
Proof.
  unfold isReversed.
  rewrite orb_true_iff, !bool_decide_eq_true. tauto.
Qed.

Lemma each_pair_impl (R R' : forall T : Type,
    StaticAndDynamicPair T -> StaticAndDynamicPair T -> Prop) c c' :
  (forall T p p', R T p p' -> R' T p p') ->
  each_pair R c c' -> each_pair R' c c'.
Proof. unfold each_pair. intros HR H. intuition auto. Qed.

(** C5. [isReversed] is true exactly for the orderings BEFORE_GOOD_STATIC
    and TWO_DRAWS_STATIC. When it is true, the configuration used for
    recording is the given one with [swapValues] applied once, so that
    the static value of each pair with a dynamic value is the original
    dynamic value (and its dynamic value the original static one);
    otherwise the configuration is used as given. The checks and the
    vertex buffers that precede the recording use the same
    configuration as the recording. *)
Theorem isReversed_swaps_before_recording (c : TestConfig) :
  (isReversed c = true
   <-> sequenceOrdering c = BEFORE_GOOD_STATIC
       \/ sequenceOrdering c = TWO_DRAWS_STATIC)
  /\ (isReversed c = true ->
      iterate_config c = swapValues c
      /\ each_pair
           (fun T p p' =>
              forall d, dynamicValue p = Some d ->
                        staticValue p' = d
                        /\ dynamicValue p' = Some (staticValue p))
           c (iterate_config c))
  /\ (isReversed c = false -> iterate_config c = c)
  /\ (forall vertHandle rvertHandle,
        iterate_record vertHandle rvertHandle c
        = (buffers ← check (iterate_prepare vertHandle rvertHandle
                              (iterate_config c));
           emit beginCommandBuffer;;
           forEach (seqZ 0 (numIterations c))
             (recordIteration buffers.1 buffers.2 (iterate_config c));;
           emit endCommandBuffer)).
Proof.
  split; [apply isReversed_true|]. split; [|split].
  - intros Hrev. unfold iterate_config. rewrite Hrev. split; [done|].
    eapply each_pair_impl; [|apply swapValues_pairs].
    intros T p p' -> d Hd. simpl. by apply Pair_swapValues_exchanges.
  - intros Hrev. unfold iterate_config. by rewrite Hrev.
  - done.
Qed.

Lemma isReversed_swaps_before_recording_witness :
  isReversed (cull_none_config PIPELINE_CONSTRUCTION_TYPE_MONOLITHIC
                TWO_DRAWS_STATIC false) = true
  /\ staticValue (cullModeConfig (iterate_config
       (cull_none_config PIPELINE_CONSTRUCTION_TYPE_MONOLITHIC
          TWO_DRAWS_STATIC false))) = VK_CULL_MODE_NONE
  /\ dynamicValue (cullModeConfig (iterate_config
       (cull_none_config PIPELINE_CONSTRUCTION_TYPE_MONOLITHIC
          TWO_DRAWS_STATIC false))) = Some VK_CULL_MODE_FRONT_BIT.
Proof.
  destruct (isReversed_swaps_before_recording
              (cull_none_config PIPELINE_CONSTRUCTION_TYPE_MONOLITHIC
                 TWO_DRAWS_STATIC false)) as (_ & Hswap & _).
  destruct (Hswap eq_refl) as (_ & _ & Hcull & _).
  destruct (Hcull VK_CULL_MODE_NONE eq_refl) as (Hs & Hd).
  exact (conj eq_refl (conj Hs Hd)).
Defined.

(** ** Mesh shading compatibility *)

Lemma existsb_elem_of {A : Type} (f : A -> bool) (l : list A) :
  existsb f l = true <-> exists x, x ∈ l /\ f x = true.
Proof.
  rewrite existsb_exists. setoid_rewrite list_elem_of_In. done.
Qed.

Lemma isMeshShadingPipelineIncompatible_true state :
  isMeshShadingPipelineIncompatible state = true
  <-> state ∈ meshShadingIncompatibleStates.
Proof.
  unfold meshShadingIncompatibleStates. rewrite !elem_of_cons, elem_of_nil.
  destruct state; simpl; split; intros H; try done;
    try tauto; by repeat destruct H as [H|H].
Qed.

(** C7. [isMeshShadingPipelineIncompatible] is true exactly for primitive
    topology, vertex-input binding stride, primitive-restart enable, patch
    control points and vertex input, and false for every other dynamic
    state. [badMeshShadingPipelineDynState] is true exactly when some
    element of the configuration's dynamic-state list is one of the
    five. *)
Theorem mesh_shading_incompatible_states :
  (forall state,
     isMeshShadingPipelineIncompatible state = true
     <-> state ∈ meshShadingIncompatibleStates)
  /\ (forall state,
        isMeshShadingPipelineIncompatible state = false
        <-> state ∉ meshShadingIncompatibleStates)
  /\ (forall c,
        badMeshShadingPipelineDynState c = true
        <-> exists state,
              state ∈ getDynamicStates c
              /\ state ∈ meshShadingIncompatibleStates).
Proof.
  split; [|split].
  - apply isMeshShadingPipelineIncompatible_true.
  - intros state. rewrite <- isMeshShadingPipelineIncompatible_true.
    by destruct (isMeshShadingPipelineIncompatible state).
  - intros c. unfold badMeshShadingPipelineDynState.
    rewrite existsb_elem_of.
    by setoid_rewrite isMeshShadingPipelineIncompatible_true.
Qed.

(** ** Stencil operation tests *)

Lemma DE_ASSERT_ne {A : Type} `{EqDecision A} (x y : A) :
  x <> y -> DE_ASSERT (negb (bool_decide (x = y))) = Some tt.
Proof. intros H. by rewrite bool_decide_eq_false_2. Qed.

Lemma stencilResult_Some op s r mn mx :
  op <> VK_STENCIL_OP_MAX_ENUM -> is_Some (stencilResult op s r mn mx).
Proof. by destruct op. Qed.

Lemma stencilPasses_Some op s r :
  op <> VK_COMPARE_OP_NOT_EQUAL -> is_Some (stencilPasses op s r).
Proof. by destruct op. Qed.

Lemma kCompare_ops compare :
  compare ∈ kCompare -> compare_compareOp compare <> VK_COMPARE_OP_NOT_EQUAL.
Proof.
  unfold kCompare. intros H.
  repeat (apply elem_of_cons in H as [->|H]; [done|]).
  by apply elem_of_nil in H.
Qed.

Lemma kStencilOps_ops op :
  op ∈ kStencilOps ->
  op_stencilOp op <> VK_STENCIL_OP_MAX_ENUM
  /\ op_incompatibleOp op <> VK_STENCIL_OP_MAX_ENUM
  /\ Forall is_deUint8 (op_clearValues op).
Proof.
  unfold kStencilOps. intros H.
  repeat (apply elem_of_cons in H as [->|H];
          [by repeat split; repeat constructor|]).
  by apply elem_of_nil in H.
Qed.

Lemma to_deUint32_id z : is_deUint8 z -> to_deUint32 z = z.
Proof. unfold is_deUint8, to_deUint32. intros Hz. apply Z.mod_small. lia. Qed.

Lemma default_colors_differ : kDefaultTriangleColor <> kDefaultClearColor.
Proof. done. Qed.

Ltac stencil_simpl :=
  cbn -[stencilResult toString to_deUint8 to_deUint32 String.append
        kDefaultTriangleColor kDefaultClearColor Qlt].

(** One sub-case: the test is created, and its configuration holds the
    oracle's values. *)
Lemma stencilSubCase_ok P O M face compare op clearVal refVal wouldPass idx :
  op_stencilOp op <> VK_STENCIL_OP_MAX_ENUM ->
  op_incompatibleOp op <> VK_STENCIL_OP_MAX_ENUM ->
  exists name config,
    stencilSubCase P O M face compare op clearVal refVal wouldPass idx
    = Some (name, config)
    /\ stencilResult (op_stencilOp op) clearVal (to_deUint8 refVal)
         kMinVal kMaxVal = Some (expectedStencil config)
    /\ referenceStencil config = to_deUint32 refVal
    /\ clearStencilValue config = clearVal
    /\ referenceColor config
       = SingleColorGenerator_float
           (if wouldPass && negb (idx >? 0) then kDefaultTriangleColor
            else kDefaultClearColor)
    /\ (if idx >? 0 then depthTestFails config else depthTestDisabled config)
    /\ clearColorValue config = makeClearValueColor kDefaultClearColor
    /\ Forall (fun mesh => color mesh = kDefaultTriangleColor)
         (meshParams config)
    /\ stencilTestEnableConfig config = Pair.static_only true
    /\ sequenceOrdering config = O.
Proof.
  intros Hop Hinc.
  destruct (stencilResult_Some (op_stencilOp op) clearVal (to_deUint8 refVal)
              kMinVal kMaxVal Hop) as [expected Hexpected].
  unfold stencilSubCase.
  change (TestConfig_new P O M None None)
    with (Some (TestConfig_init P O M
                  (Pair.static_only VertexWithPadding) [16])).
  rewrite Hexpected.
  cbn [mbind option_bind].
  unfold stencilFaceMeshes.
  cbn [meshParams TestConfig_init].
  destruct (face_face face =? VK_STENCIL_FACE_FRONT_BIT);
    [|destruct (face_face face =? VK_STENCIL_FACE_BACK_BIT)];
    stencil_simpl;
    (destruct wouldPass, (idx >? 0); stencil_simpl;
     rewrite ?DE_ASSERT_ne by done; stencil_simpl;
     destruct (face_face face =? VK_STENCIL_FACE_FLAG_BITS_MAX_ENUM);
     stencil_simpl;
     (do 2 eexists; split; [reflexivity|]);
     stencil_simpl; unfold depthTestFails, depthTestDisabled; stencil_simpl;
     repeat split; repeat constructor; done).
Qed.

Lemma depthTest_exclusive config :
  depthTestFails config -> depthTestDisabled config -> False.
Proof. unfold depthTestFails, depthTestDisabled. by intros (-> & _) ?. Qed.

(** An out-of-range reference value is skipped. *)
Lemma stencilRefCases_skip P O M face compare op clearVal delta :
  ~ (0 <= clearVal + delta <= 255) ->
  stencilRefCases P O M face compare op clearVal delta = Some [].
Proof.
  intros Hout. unfold stencilRefCases, kMinValI, kMaxValI, kMinVal, kMaxVal.
  destruct (Z.ltb_spec (clearVal + delta) 0); [done|].
  destruct (Z.gtb_spec (clearVal + delta) 255); [done|]. lia.
Qed.

(** An in-range reference value gives the sub-case with index 0 and, when
    the stencil test would pass, the sub-case with index 1. *)
Lemma stencilRefCases_in_range P O M face compare op clearVal delta :
  compare_compareOp compare <> VK_COMPARE_OP_NOT_EQUAL ->
  op_stencilOp op <> VK_STENCIL_OP_MAX_ENUM ->
  op_incompatibleOp op <> VK_STENCIL_OP_MAX_ENUM ->
  0 <= clearVal + delta <= 255 ->
  exists wouldPass first,
    stencilPasses (compare_compareOp compare) clearVal (clearVal + delta)
    = Some wouldPass
    /\ stencilSubCase P O M face compare op clearVal (clearVal + delta)
         wouldPass 0 = Some first
    /\ if wouldPass
       then exists second,
              stencilSubCase P O M face compare op clearVal (clearVal + delta)
                wouldPass 1 = Some second
              /\ stencilRefCases P O M face compare op clearVal delta
                 = Some [first; second]
       else stencilRefCases P O M face compare op clearVal delta
            = Some [first].
Proof.
  intros Hcmp Hop Hinc Hin.
  destruct (stencilPasses_Some (compare_compareOp compare) clearVal
              (clearVal + delta) Hcmp) as [wouldPass Hpass].
  destruct (stencilSubCase_ok P O M face compare op clearVal
              (clearVal + delta) wouldPass 0 Hop Hinc)
    as (n0 & c0 & H0 & _).
  destruct (stencilSubCase_ok P O M face compare op clearVal
              (clearVal + delta) wouldPass 1 Hop Hinc)
    as (n1 & c1 & H1 & _).
  exists wouldPass, (n0, c0). split; [done|]. split; [done|].
  unfold stencilRefCases, kMinValI, kMaxValI, kMinVal, kMaxVal.
  destruct (Z.ltb_spec (clearVal + delta) 0); [lia|].
  destruct (Z.gtb_spec (clearVal + delta) 255); [lia|].
  rewrite to_deUint8_id by done. rewrite Hpass. cbn [orb mbind option_bind].
  destruct wouldPass.
  - exists (n1, c1). split; [done|].
    change (seqZ 0 2) with [0; 1]. cbn [mapM]. by rewrite H0, H1.
  - change (seqZ 0 1) with [0]. cbn [mapM]. by rewrite H0.
Qed.

(** Nested loops succeed when their bodies do, and a property of every
    element produced by a body holds of every element produced by the
    loop. *)
Lemma forAll_Forall {A B : Type} (Q : B -> Prop) (l : list A)
    (body : A -> option (list B)) :
  (forall a, a ∈ l -> exists r, body a = Some r /\ Forall Q r) ->
  exists r, forAll l body = Some r /\ Forall Q r.
Proof.
  unfold forAll. induction l as [|a l IH]; intros Hbody.
  - by exists [].
  - destruct (Hbody a) as (r & Hr & HQ); [by left|].
    destruct IH as (rs & Hrs & HQs); [intros; apply Hbody; by right|].
    exists (r ++ rs). split; [|by apply Forall_app].
    cbn [mapM]. rewrite Hr. cbn [mbind option_bind].
    destruct (mapM body l) as [k|]; [|done].
    cbn in *. by simplify_eq.
Qed.

Lemma expectsColor_single config c c' :
  referenceColor config = SingleColorGenerator_float c ->
  expectsColor config c' <-> c' = c.
Proof.
  unfold expectsColor. intros ->. simpl. split.
  - intros H. specialize (H 0 0). by simplify_eq.
  - by intros ->.
Qed.

(** The oracle of one generated sub-case. *)
Lemma stencil_case_oracle P O M face compare op clearVal refVal wouldPass idx
    case :
  op_stencilOp op <> VK_STENCIL_OP_MAX_ENUM ->
  op_incompatibleOp op <> VK_STENCIL_OP_MAX_ENUM ->
  is_deUint8 refVal ->
  stencilSubCase P O M face compare op clearVal refVal wouldPass idx
  = Some case ->
  (if idx >? 0 then depthTestFails case.2 else depthTestDisabled case.2)
  /\ (expectsColor case.2 kDefaultTriangleColor
      <-> wouldPass = true /\ ~ depthTestFails case.2)
  /\ (expectsColor case.2 kDefaultClearColor
      <-> ~ (wouldPass = true /\ ~ depthTestFails case.2))
  /\ Forall (fun mesh => color mesh = kDefaultTriangleColor)
       (meshParams case.2)
  /\ clearColorValue case.2 = makeClearValueColor kDefaultClearColor
  /\ stencilResult (op_stencilOp op) clearVal refVal 0 255
     = Some (expectedStencil case.2)
  /\ referenceStencil case.2 = refVal
  /\ clearStencilValue case.2 = clearVal.
Proof.
  intros Hop Hinc Href Hcase.
  destruct (stencilSubCase_ok P O M face compare op clearVal refVal
              wouldPass idx Hop Hinc)
    as (name & config & Hsub & Hres & Hrefst & Hclear & Hcolor & Hdepth
        & Hclearcol & Hmesh & _).
  rewrite Hsub in Hcase. injection Hcase as <-. cbn [snd].
  rewrite to_deUint8_id in Hres by done.
  rewrite to_deUint32_id in Hrefst by done.
  rewrite !(expectsColor_single _ _ _ Hcolor).
  pose proof default_colors_differ as Hdiff.
  pose proof (depthTest_exclusive config) as Hexcl.
  repeat split; try done;
    destruct wouldPass, (idx >? 0); cbn [andb negb] in *; intuition congruence.
Qed.

(** C8. For every tuple of face, compare operation, stencil operation,
    clear value and in-range reference value enumerated by the stencil
    test generator: the stencil test outcome [wouldPass] is computed by
    [stencilPasses] on the clear value and the reference value; two
    sub-cases are generated when it is true and one otherwise, and a
    sub-case whose depth test is enabled and fails is generated exactly
    when it is true. In every generated sub-case the expected colour of
    the whole framebuffer is the colour of the meshes exactly when the
    stencil test passes and the depth test does not fail, and the clear
    colour otherwise; the expected stencil value is [stencilResult] of the
    stencil operation on the clear value and the reference value with
    bounds 0 and 255. *)
Theorem stencil_test_oracle P O M face compare op clearVal delta :
  face ∈ kFaces -> compare ∈ kCompare -> op ∈ kStencilOps ->
  clearVal ∈ op_clearValues op -> delta ∈ seqZ (-1) 3 ->
  0 <= clearVal + delta <= 255 ->
  exists wouldPass cases,
    stencilPasses (compare_compareOp compare) clearVal (clearVal + delta)
    = Some wouldPass
    /\ stencilRefCases P O M face compare op clearVal delta = Some cases
    /\ length cases = (if wouldPass then 2 else 1)%nat
    /\ ((exists case, case ∈ cases /\ depthTestFails case.2)
        <-> wouldPass = true)
    /\ Forall (fun case =>
         (depthTestDisabled case.2 \/ depthTestFails case.2)
         /\ (expectsColor case.2 kDefaultTriangleColor
             <-> wouldPass = true /\ ~ depthTestFails case.2)
         /\ (expectsColor case.2 kDefaultClearColor
             <-> ~ (wouldPass = true /\ ~ depthTestFails case.2))
         /\ Forall (fun mesh => color mesh = kDefaultTriangleColor)
              (meshParams case.2)
         /\ clearColorValue case.2 = makeClearValueColor kDefaultClearColor
         /\ stencilResult (op_stencilOp op) clearVal (clearVal + delta) 0 255
            = Some (expectedStencil case.2)) cases
    /\ kDefaultTriangleColor <> kDefaultClearColor.
Proof.
  intros _ Hcompare Hop _ _ Hin.
  apply kCompare_ops in Hcompare.
  apply kStencilOps_ops in Hop as (Hop & Hinc & _).
  destruct (stencilRefCases_in_range P O M face compare op clearVal delta
              Hcompare Hop Hinc Hin) as (wouldPass & first & Hpass & H0 & H).
  pose proof (stencil_case_oracle P O M face compare op clearVal
                (clearVal + delta) wouldPass 0 first Hop Hinc Hin H0)
    as (Hd0 & Ht0 & Hc0 & Hm0 & Hcc0 & Hr0 & _).
  cbn in Hd0.
  exists wouldPass. destruct wouldPass.
  - destruct H as (second & H1 & Hcases).
    pose proof (stencil_case_oracle P O M face compare op clearVal
                  (clearVal + delta) true 1 second Hop Hinc Hin H1)
      as (Hd1 & Ht1 & Hc1 & Hm1 & Hcc1 & Hr1 & _).
    cbn in Hd1.
    exists [first; second]. repeat split; try done.
    + intros _. exists second. split; [|done].
      apply list_elem_of_further, list_elem_of_here.
    + constructor; [|constructor; [|constructor]].
      * exact (conj (or_introl Hd0)
                 (conj Ht0 (conj Hc0 (conj Hm0 (conj Hcc0 Hr0))))).
      * exact (conj (or_intror Hd1)
                 (conj Ht1 (conj Hc1 (conj Hm1 (conj Hcc1 Hr1))))).
  - exists [first]. repeat split; try done.
    + intros (case & Hcase & Hfails).
      apply list_elem_of_singleton in Hcase as ->.
      by destruct (depthTest_exclusive first.2).
    + constructor; [|constructor].
      exact (conj (or_introl Hd0)
               (conj Ht0 (conj Hc0 (conj Hm0 (conj Hcc0 Hr0))))).
Qed.

Lemma stencil_test_oracle_witness :
  exists wouldPass cases,
    stencilPasses VK_COMPARE_OP_LESS_OR_EQUAL 254 (254 + 1) = Some wouldPass
    /\ stencilRefCases PIPELINE_CONSTRUCTION_TYPE_MONOLITHIC CMD_BUFFER_START
         false (mkFaceCase VK_STENCIL_FACE_BACK_BIT "face_back")
         (mkCompareCase VK_COMPARE_OP_LESS_OR_EQUAL "le")
         (mkStencilOpCase VK_STENCIL_OP_INCREMENT_AND_WRAP "inc_wrap"
            [kMaxVal - 1; kMaxVal] VK_STENCIL_OP_KEEP)
         254 1 = Some cases
    /\ length cases = (if wouldPass then 2 else 1)%nat.
Proof.
  destruct (stencil_test_oracle PIPELINE_CONSTRUCTION_TYPE_MONOLITHIC
              CMD_BUFFER_START false
              (mkFaceCase VK_STENCIL_FACE_BACK_BIT "face_back")
              (mkCompareCase VK_COMPARE_OP_LESS_OR_EQUAL "le")
              (mkStencilOpCase VK_STENCIL_OP_INCREMENT_AND_WRAP "inc_wrap"
                 [kMaxVal - 1; kMaxVal] VK_STENCIL_OP_KEEP)
              254 1)
    as (wouldPass & cases & Hpass & Hcases & Hlen & _).
  - unfold kFaces. apply list_elem_of_further, list_elem_of_here.
  - unfold kCompare. do 3 apply list_elem_of_further. apply list_elem_of_here.
  - unfold kStencilOps. do 6 apply list_elem_of_further.
    apply list_elem_of_here.
  - apply list_elem_of_here.
  - change (seqZ (-1) 3) with [-1; 0; 1].
    do 2 apply list_elem_of_further. apply list_elem_of_here.
  - lia.
  - exact (ex_intro _ wouldPass (ex_intro _ cases
             (conj Hpass (conj Hcases Hlen)))).
Defined.

(** The elements produced by nested loops are those produced by the
    bodies. *)
Lemma forAll_elem_of {A B : Type} (l : list A) (body : A -> option (list B))
    r :
  forAll l body = Some r ->
  (forall a, a ∈ l -> is_Some (body a))
  /\ (forall x, x ∈ r <->
        exists a cases, a ∈ l /\ body a = Some cases /\ x ∈ cases).
Proof.
  unfold forAll. revert r. induction l as [|a l IH]; intros r Hr.
  - cbn in Hr. simplify_eq. split; [by intros a Ha; apply elem_of_nil in Ha|].
    intros x. split; [by intros Hx; apply elem_of_nil in Hx|].
    by intros (a & cases & Ha & _); apply elem_of_nil in Ha.
  - cbn [mapM] in Hr.
    destruct (body a) as [ra|] eqn:Hra; [|done]. cbn [mbind option_bind] in Hr.
    destruct (mapM body l) as [k|] eqn:Hk; [|done].
    cbn in Hr. simplify_eq.
    destruct (IH (concat k) eq_refl) as [IHs IHx].
    split.
    + intros a' Ha'. apply elem_of_cons in Ha' as [-> | Ha'];
        [by rewrite Hra|by apply IHs].
    + intros x. cbn [concat]. rewrite elem_of_app, IHx. split.
      * intros [Hx | (a' & cases & Ha' & Hb & Hx)].
        -- exists a, ra. split; [by left|done].
        -- exists a', cases. split; [by right|done].
      * intros (a' & cases & Ha' & Hb & Hx).
        apply elem_of_cons in Ha' as [-> | Ha'].
        -- left. by simplify_eq.
        -- right. by exists a', cases.
Qed.

Section Count.
Variable P : PipelineConstructionType.
Variable O : SequenceOrdering.
Variable M : bool.
Lemma stencilOpTests_length :
  length <$> stencilOpTests P O M = Some 1328%nat.
Proof. vm_compute. reflexivity. Qed.
End Count.

Lemma elem_of_deltas delta :
  delta ∈ seqZ (-1) 3 <-> delta = -1 \/ delta = 0 \/ delta = 1.
Proof. rewrite elem_of_seqZ. lia. Qed.

(** C9. The enumeration of the stencil tests succeeds and has 1328 test
    cases. Its test cases are exactly those that the body of the loops
    generates for the faces, compare operations and stencil operations of
    the tables, the clear values of the stencil operation and the deltas
    -1, 0 and 1. For every clear value and delta the body generates test
    cases exactly when the reference value [clearVal + delta], computed
    in the integers, lies in [0, 255]; for a tuple of the enumeration
    these test cases belong to the enumeration and carry the clear value
    and that reference value. Every configuration of the enumeration has
    an 8-bit reference stencil value. *)
Theorem stencil_reference_in_range P O M :
  exists tests,
    stencilOpTests P O M = Some tests
    /\ length tests = 1328%nat
    /\ (forall case,
          case ∈ tests <->
          exists face compare op clearVal delta cases,
            face ∈ kFaces /\ compare ∈ kCompare /\ op ∈ kStencilOps
            /\ clearVal ∈ op_clearValues op
            /\ (delta = -1 \/ delta = 0 \/ delta = 1)
            /\ stencilRefCases P O M face compare op clearVal delta
               = Some cases
            /\ case ∈ cases)
    /\ (forall face compare op clearVal delta,
          compare ∈ kCompare -> op ∈ kStencilOps ->
          exists cases,
            stencilRefCases P O M face compare op clearVal delta = Some cases
            /\ (cases <> [] <-> 0 <= clearVal + delta <= 255)
            /\ Forall (fun case =>
                         clearStencilValue case.2 = clearVal
                         /\ referenceStencil case.2 = clearVal + delta) cases
            /\ (face ∈ kFaces -> clearVal ∈ op_clearValues op ->
                delta = -1 \/ delta = 0 \/ delta = 1 ->
                Forall (fun case => case ∈ tests) cases))
    /\ Forall (fun case => is_deUint8 (referenceStencil case.2)) tests.
Proof.
  assert (Hbody : forall face compare op clearVal delta,
            compare ∈ kCompare -> op ∈ kStencilOps ->
            exists cases,
              stencilRefCases P O M face compare op clearVal delta
              = Some cases
              /\ (cases <> [] <-> 0 <= clearVal + delta <= 255)
              /\ Forall (fun case =>
                           clearStencilValue case.2 = clearVal
                           /\ referenceStencil case.2 = clearVal + delta)
                   cases).
  { intros face compare op clearVal delta Hcompare Hop.
    apply kCompare_ops in Hcompare.
    apply kStencilOps_ops in Hop as (Hop & Hinc & _).
    destruct (decide (0 <= clearVal + delta <= 255)) as [Hin|Hout].
    - destruct (stencilRefCases_in_range P O M face compare op clearVal delta
                  Hcompare Hop Hinc Hin)
        as (wouldPass & first & _ & H0 & H).
      pose proof (stencil_case_oracle P O M face compare op clearVal
                    (clearVal + delta) wouldPass 0 first Hop Hinc Hin H0)
        as (_ & _ & _ & _ & _ & _ & Hr0 & Hc0).
      destruct wouldPass.
      + destruct H as (second & H1 & Hcases).
        pose proof (stencil_case_oracle P O M face compare op clearVal
                      (clearVal + delta) true 1 second Hop Hinc Hin H1)
          as (_ & _ & _ & _ & _ & _ & Hr1 & Hc1).
        exists [first; second]. split; [done|]. split; [done|].
        by repeat constructor.
      + exists [first]. split; [done|]. split; [done|].
        by repeat constructor.
    - exists []. split; [by apply stencilRefCases_skip|]. by split. }
  assert (Hall : exists tests,
            stencilOpTests P O M = Some tests
            /\ Forall (fun case => is_deUint8 (referenceStencil case.2)) tests).
  { unfold stencilOpTests.
    apply forAll_Forall. intros face _.
    apply forAll_Forall. intros compare Hcompare.
    apply forAll_Forall. intros op Hop.
    apply forAll_Forall. intros clearVal _.
    apply forAll_Forall. intros delta _.
    destruct (Hbody face compare op clearVal delta Hcompare Hop)
      as (cases & Hcases & Hne & Href).
    exists cases. split; [done|].
    destruct cases as [|case cases]; [done|].
    eapply Forall_impl; [exact Href|].
    intros [name config] [_ ->]. cbn. unfold is_deUint8. apply Hne. done. }
  destruct Hall as (tests & Htests & Hrange).
  assert (Hmem : forall case,
            case ∈ tests <->
            exists face compare op clearVal delta cases,
              face ∈ kFaces /\ compare ∈ kCompare /\ op ∈ kStencilOps
              /\ clearVal ∈ op_clearValues op
              /\ (delta = -1 \/ delta = 0 \/ delta = 1)
              /\ stencilRefCases P O M face compare op clearVal delta
                 = Some cases
              /\ case ∈ cases).
  { intros case. unfold stencilOpTests in Htests.
    destruct (forAll_elem_of _ _ _ Htests) as [Hs1 Hx1].
    rewrite Hx1. split.
    - intros (face & r1 & Hface & Hr1 & Hc1).
      destruct (forAll_elem_of _ _ _ Hr1) as [_ Hx2].
      apply Hx2 in Hc1 as (compare & r2 & Hcompare & Hr2 & Hc2).
      destruct (forAll_elem_of _ _ _ Hr2) as [_ Hx3].
      apply Hx3 in Hc2 as (op & r3 & Hop & Hr3 & Hc3).
      destruct (forAll_elem_of _ _ _ Hr3) as [_ Hx4].
      apply Hx4 in Hc3 as (clearVal & r4 & Hclear & Hr4 & Hc4).
      destruct (forAll_elem_of _ _ _ Hr4) as [_ Hx5].
      apply Hx5 in Hc4 as (delta & cases & Hdelta & Hcases & Hc5).
      apply elem_of_deltas in Hdelta.
      exists face, compare, op, clearVal, delta, cases.
      repeat (split; [assumption|]). assumption.
    - intros (face & compare & op & clearVal & delta & cases & Hface
              & Hcompare & Hop & Hclear & Hdelta & Hcases & Hcase).
      apply elem_of_deltas in Hdelta.
      destruct (Hs1 face Hface) as [r1 Hr1].
      exists face, r1. split; [assumption|]. split; [assumption|].
      destruct (forAll_elem_of _ _ _ Hr1) as [Hs2 Hx2]. apply Hx2.
      destruct (Hs2 compare Hcompare) as [r2 Hr2].
      exists compare, r2. split; [assumption|]. split; [assumption|].
      destruct (forAll_elem_of _ _ _ Hr2) as [Hs3 Hx3]. apply Hx3.
      destruct (Hs3 op Hop) as [r3 Hr3].
      exists op, r3. split; [assumption|]. split; [assumption|].
      destruct (forAll_elem_of _ _ _ Hr3) as [Hs4 Hx4]. apply Hx4.
      destruct (Hs4 clearVal Hclear) as [r4 Hr4].
      exists clearVal, r4. split; [assumption|]. split; [assumption|].
      destruct (forAll_elem_of _ _ _ Hr4) as [_ Hx5]. apply Hx5.
      exists delta, cases. repeat (split; [assumption|]). assumption. }
  exists tests. split; [done|]. split.
  { pose proof (stencilOpTests_length P O M) as Hlen.
    rewrite Htests in Hlen. by injection Hlen. }
  split; [exact Hmem|]. split; [|exact Hrange].
  intros face compare op clearVal delta Hcompare Hop.
  destruct (Hbody face compare op clearVal delta Hcompare Hop)
    as (cases & Hcases & Hne & Href).
  exists cases. split; [done|]. split; [done|]. split; [done|].
  intros Hface Hclear Hdelta. apply Forall_forall. intros case Hcase.
  apply Hmem. exists face, compare, op, clearVal, delta, cases.
  repeat (split; [assumption|]). assumption.
Qed.

Lemma stencil_reference_in_range_witness :
  exists tests cases254 cases255,
    stencilOpTests PIPELINE_CONSTRUCTION_TYPE_MONOLITHIC CMD_BUFFER_START false
    = Some tests
    /\ stencilRefCases PIPELINE_CONSTRUCTION_TYPE_MONOLITHIC CMD_BUFFER_START
         false (mkFaceCase VK_STENCIL_FACE_BACK_BIT "face_back")
         (mkCompareCase VK_COMPARE_OP_LESS_OR_EQUAL "le")
         (mkStencilOpCase VK_STENCIL_OP_INCREMENT_AND_WRAP "inc_wrap"
            [kMaxVal - 1; kMaxVal] VK_STENCIL_OP_KEEP)
         254 1 = Some cases254
    /\ cases254 <> []
    /\ Forall (fun case => case ∈ tests) cases254
    /\ stencilRefCases PIPELINE_CONSTRUCTION_TYPE_MONOLITHIC CMD_BUFFER_START
         false (mkFaceCase VK_STENCIL_FACE_BACK_BIT "face_back")
         (mkCompareCase VK_COMPARE_OP_LESS_OR_EQUAL "le")
         (mkStencilOpCase VK_STENCIL_OP_INCREMENT_AND_WRAP "inc_wrap"
            [kMaxVal - 1; kMaxVal] VK_STENCIL_OP_KEEP)
         255 1 = Some cases255
    /\ (cases255 <> [] <-> 0 <= 255 + 1 <= 255).
Proof.
  destruct (stencil_reference_in_range PIPELINE_CONSTRUCTION_TYPE_MONOLITHIC
              CMD_BUFFER_START false) as (tests & Htests & _ & _ & Hbody & _).
  assert (Hcompare : mkCompareCase VK_COMPARE_OP_LESS_OR_EQUAL "le" ∈ kCompare).
  { unfold kCompare. do 3 apply list_elem_of_further. apply list_elem_of_here. }
  assert (Hop : mkStencilOpCase VK_STENCIL_OP_INCREMENT_AND_WRAP "inc_wrap"
                  [kMaxVal - 1; kMaxVal] VK_STENCIL_OP_KEEP ∈ kStencilOps).
  { unfold kStencilOps. do 6 apply list_elem_of_further.
    apply list_elem_of_here. }
  destruct (Hbody (mkFaceCase VK_STENCIL_FACE_BACK_BIT "face_back") _ _ 254 1
              Hcompare Hop) as (cases254 & H254 & Hne254 & _ & Hin254).
  destruct (Hbody (mkFaceCase VK_STENCIL_FACE_BACK_BIT "face_back") _ _ 255 1
              Hcompare Hop) as (cases255 & H255 & Hne255 & _).
  exists tests, cases254, cases255.
  split; [exact Htests|]. split; [exact H254|].
  split; [apply Hne254; lia|]. split; [|by split].
  apply Hin254.
  - unfold kFaces. apply list_elem_of_further, list_elem_of_here.
  - apply list_elem_of_here.
  - lia.
Defined.

(** ** Command recording *)

Ltac eval_orderings :=
  repeat match goal with
  | |- context [bool_decide (?a = ?b :> SequenceOrdering)] =>
      let v := eval vm_compute in (bool_decide (a = b)) in
      change (bool_decide (a = b)) with v
  end.

Ltac normalize_app :=
  rewrite ?app_nil_r; cbn [app]; repeat (rewrite <- app_assoc; cbn [app]).

Lemma swapValues_sequenceOrdering c :
  sequenceOrdering (swapValues c) = sequenceOrdering c.
Proof. by destruct c. Qed.

(** ** Checks and buffers before the recording *)

Lemma vertices_size_pos c : 0 < vertices_size c.
Proof.
  unfold vertices_size.
  destruct (singleVertex c); [done|].
  by destruct (getTopologyClass _).
Qed.

Lemma to_deUint32_range z : 0 <= to_deUint32 z < 2 ^ 32.
Proof. unfold to_deUint32. apply Z.mod_pos_bound. lia. Qed.

Lemma to_deUint32_le z : 0 <= z -> to_deUint32 z <= z.
Proof. intros Hz. unfold to_deUint32. apply Z.mod_le; lia. Qed.

(** A vertex generator makes one buffer per binding, each larger than
    its paddings. *)
Lemma createVertexData_sizes_Some g n dataOffset trailing :
  0 < n ->
  exists sizes,
    createVertexData_sizes g n dataOffset trailing = Some sizes
    /\ length sizes = length (getVertexDataStrides g)
    /\ Forall (fun size => dataOffset + trailing < size) sizes.
Proof.
  intros Hn. unfold createVertexData_sizes, createSingleBindingVertexData_size.
  destruct (Z.eqb_spec n 0) as [->|_]; [lia|]. cbn [negb DE_ASSERT].
  unfold sizeof_Vec2, sizeof_Vec4.
  destruct g; cbn; eexists; (split; [reflexivity|]); (split; [reflexivity|]);
    repeat constructor; lia.
Qed.

Lemma prepareVertexBuffers_Some handle g n dataOffset trailing :
  0 < n -> 0 <= dataOffset -> 0 <= trailing ->
  exists buffers,
    prepareVertexBuffers handle g n dataOffset trailing = Some buffers
    /\ length buffers = length (getVertexDataStrides g)
    /\ Forall (fun b => offset b = dataOffset /\ 0 < dataSize b) buffers.
Proof.
  intros Hn Hoff Htr. unfold prepareVertexBuffers.
  destruct (createVertexData_sizes_Some g n dataOffset trailing Hn)
    as (sizes & -> & <- & Hsizes).
  cbn [mbind option_bind].
  pose proof (to_deUint32_le (dataOffset + trailing) ltac:(lia)) as Hextra.
  change (@pair nat Z) with (fun (i : nat) (x : Z) => (id i, x)).
  generalize (@id nat). intros j. revert j.
  induction Hsizes as [|size sizes Hsize _ IH]; intros j.
  - by exists [].
  - cbn [imap mapM].
    destruct (Z.gtb_spec size (to_deUint32 (dataOffset + trailing)));
      [|lia].
    cbn [DE_ASSERT mbind option_bind].
    destruct (IH (j ∘ S)) as (buffers & Hbuffers & Hlen & Hall).
    unfold compose in *. rewrite Hbuffers. cbn [mbind option_bind mret option_ret].
    eexists. split; [reflexivity|]. split; [by cbn; rewrite Hlen|].
    constructor; [|done]. cbn. split; [done|lia].
Qed.

Lemma stride_at_is_Some strides i :
  is_Some (stride_at strides i) <-> (i < length strides)%nat.
Proof.
  unfold stride_at. rewrite fmap_is_Some. apply lookup_lt_is_Some.
Qed.

Lemma prepareVertexBuffers_length handle g n dataOffset trailing buffers :
  prepareVertexBuffers handle g n dataOffset trailing = Some buffers ->
  length buffers = length (getVertexDataStrides g).
Proof.
  unfold prepareVertexBuffers. intros H.
  apply bind_Some in H as (sizes & Hsizes & H).
  apply length_mapM in H. rewrite length_imap in H. rewrite <- H.
  revert Hsizes.
  unfold createVertexData_sizes, createSingleBindingVertexData_size.
  destruct (DE_ASSERT _) as [[]|]; [|by destruct g].
  destruct g; cbn; by intros [= <-].
Qed.

Lemma getVertexDataStrides_length g :
  (0 < length (getVertexDataStrides g))%nat.
Proof. destruct g; cbn; lia. Qed.

(** [iterate] reaches the recording exactly under the conditions of
    [passesChecks]. *)
Lemma iterate_prepare_is_Some vh rvh c :
  is_Some (iterate_prepare vh rvh c) <-> passesChecks c.
Proof.
  unfold iterate_prepare, passesChecks.
  pose proof (vertices_size_pos c) as Hvert.
  pose proof (to_deUint32_range (vertexDataOffset c)) as Hoff.
  pose proof (to_deUint32_range (vertexDataExtraBytes c)) as Htr.
  destruct (prepareVertexBuffers_Some vh (getActiveVertexGenerator c)
              (vertices_size c) (to_deUint32 (vertexDataOffset c))
              (to_deUint32 (vertexDataExtraBytes c)))
    as (vb & Hvb & Hvblen & _); [lia..|].
  destruct (prepareVertexBuffers_Some rvh (getActiveVertexGenerator c)
              (if singleVertex c then 1 else 6)
              (to_deUint32 (vertexDataOffset c))
              (to_deUint32 (vertexDataExtraBytes c)))
    as (rvb & Hrvb & Hrvblen & _); [by destruct (singleVertex c)|lia..|].
  pose proof (getVertexDataStrides_length (getActiveVertexGenerator c))
    as Hstrides.
  rewrite Hvb.
  assert (Hviewports :
    is_Some
      match dynamicValue (viewportConfig c) with
      | Some viewports => DE_ASSERT (bool_decide (0 < length viewports)%nat)
      | None => DE_ASSERT (bool_decide
                  (0 < length (staticValue (viewportConfig c)))%nat)
      end
    <-> default (staticValue (viewportConfig c))
          (dynamicValue (viewportConfig c)) <> []).
  { destruct (dynamicValue (viewportConfig c)) as [v|]; cbn [default];
      [destruct v|destruct (staticValue (viewportConfig c))];
      cbn; split; try done; try (by intros [? ?]); by eexists. }
  assert (Hscissors :
    is_Some
      match dynamicValue (scissorConfig c) with
      | Some scissors => DE_ASSERT (bool_decide (0 < length scissors)%nat)
      | None => DE_ASSERT (bool_decide
                  (0 < length (staticValue (scissorConfig c)))%nat)
      end
    <-> default (staticValue (scissorConfig c))
          (dynamicValue (scissorConfig c)) <> []).
  { destruct (dynamicValue (scissorConfig c)) as [v|]; cbn [default];
      [destruct v|destruct (staticValue (scissorConfig c))];
      cbn; split; try done; try (by intros [? ?]); by eexists. }
  rewrite <- Hviewports, <- Hscissors. clear Hviewports Hscissors.
  set (viewports := match dynamicValue (viewportConfig c) with
                    | Some _ => _ | None => _ end).
  set (scissors := match dynamicValue (scissorConfig c) with
                   | Some _ => _ | None => _ end).
  assert (Hmeshes :
    is_Some (mapM (fun mesh => DE_ASSERT (negb (reversed mesh)))
               (meshParams c))
    <-> Forall (fun mesh => reversed mesh = false) (meshParams c)).
  { rewrite mapM_is_Some. apply Forall_proper; [|done].
    intros mesh. unfold compose. destruct (reversed mesh); cbn; split;
      try done; try (by intros [? ?]); by eexists. }
  rewrite <- Hmeshes. clear Hmeshes.
  set (meshes := mapM _ (meshParams c)).
  set (class := getTopologyClass (staticValue (topologyConfig c))) in *.
  destruct (decide (class = TopologyClass_TRIANGLE)) as [Htri|Htri].
  - rewrite !(bool_decide_eq_true_2 _ Htri).
    destruct (Z.eqb_spec (vertices_size c) 0); [lia|].
    cbn [mbind option_bind DE_ASSERT negb]. rewrite Hrvb.
    cbn [mbind option_bind].
    rewrite (bool_decide_eq_true_2 (length vb = length rvb)) by congruence.
    assert (Hmesh : (if useMeshShaders c then DE_ASSERT true else Some tt)
                    = Some tt) by (by destruct (useMeshShaders c)).
    rewrite Hmesh. cbn [mbind option_bind].
    destruct (getBindingDescriptions _ _) as [bindings|];
      cbn [mbind option_bind];
      [|split; [by intros [? ?]|by intros (_ & _ & _ & [? ?] & _)]].
    destruct viewports as [[]|]; cbn [mbind option_bind];
      [|split; [by intros [? ?]|by intros (_ & _ & _ & _ & [? ?] & _)]].
    destruct scissors as [[]|]; cbn [mbind option_bind];
      [|split; [by intros [? ?]|by intros (_ & _ & _ & _ & _ & [? ?])]].
    split; [|by eexists]. intros _.
    split; [congruence|]. split; [done|]. split; [done|].
    split; [by eexists|]. split; by eexists.
  - rewrite !(bool_decide_eq_false_2 _ Htri).
    cbn [negb].
    assert (Hpatch :
      is_Some (if bool_decide (class = TopologyClass_PATCH)
               then DE_ASSERT (getActivePatchControlPoints c >? 1)
               else Some tt)
      <-> (class = TopologyClass_PATCH
           -> 1 < getActivePatchControlPoints c)).
    { case_bool_decide as Hpat.
      - destruct (Z.gtb_spec (getActivePatchControlPoints c) 1); cbn.
        + split; [done|by eexists].
        + split; [by intros [? ?]|]. intros Hpcp. specialize (Hpcp Hpat). lia.
      - split; [done|by eexists]. }
    rewrite <- Hpatch. clear Hpatch.
    destruct (if bool_decide (class = TopologyClass_PATCH) then _ else _)
      as [[]|]; cbn [mbind option_bind];
      [|split; [by intros [? ?]|by intros ([? ?] & _)]].
    destruct meshes as [units|]; cbn [mbind option_bind];
      [|split; [by intros [? ?]|by intros (_ & [? ?] & _)]].
    split.
    + intros Hsome. split; [by eexists|]. split; [by eexists|].
      destruct (useMeshShaders c) eqn:Hmesh.
      * exfalso. rewrite bool_decide_eq_false_2 in Hsome;
          [by destruct Hsome|].
        cbn. lia.
      * split; [done|]. cbn [mbind option_bind] in Hsome.
        destruct (getBindingDescriptions _ _) as [bindings|];
          cbn [mbind option_bind] in Hsome; [|by destruct Hsome].
        split; [by eexists|].
        destruct viewports as [[]|]; cbn [mbind option_bind] in Hsome;
          [|by destruct Hsome].
        split; [by eexists|]. destruct scissors as [[]|]; [by eexists|].
        by destruct Hsome.
    + intros (_ & _ & Hmesh & [bindings ->] & [[] ->] & [[] ->]).
      destruct (useMeshShaders c); [by specialize (Hmesh eq_refl)|].
      cbn. by eexists.
Qed.

(** The configurations of [plainRecording] pass the checks that precede
    the recording. *)
Lemma iterate_prepare_Some vh rvh c :
  plainRecording c -> is_Some (iterate_prepare vh rvh c).
Proof.
  intros (_ & _ & _ & _ & _ & Hchecks). by apply iterate_prepare_is_Some.
Qed.

(** *** Commands of the parts of a recording *)

Lemma runRec_bind {A B : Type} (m : Rec A) (f : A -> Rec B) :
  runRec (m ≫= f)
  = match runRec m with
    | None => None
    | Some (a, out1) =>
        match runRec (f a) with
        | None => None
        | Some (b, out2) => Some (b, out1 ++ out2)
        end
    end.
Proof. reflexivity. Qed.

Section Emits.

Context {A : Type} (P : Command -> Prop).

Lemma emitsOnly_ret (a : A) : emitsOnly P (mret a).
Proof. intros a' out H. injection H as <- <-. constructor. Qed.

Lemma emitsOnly_check (o : option A) : emitsOnly P (check o).
Proof. intros a out H. destruct o; cbn in H; simplify_eq. constructor. Qed.

Lemma emitsOnly_bind {B : Type} (m : Rec B) (f : B -> Rec A) :
  emitsOnly P m -> (forall b, emitsOnly P (f b)) -> emitsOnly P (m ≫= f).
Proof.
  intros Hm Hf a out H. rewrite runRec_bind in H.
  destruct (runRec m) as [[b out1]|] eqn:Hrun; [|done].
  destruct (runRec (f b)) as [[a' out2]|] eqn:Hrun'; [|done].
  simplify_eq. apply Forall_app. split; [by eapply Hm|by eapply Hf].
Qed.

Lemma emitsOnly_if (cond : bool) (m1 m2 : Rec A) :
  emitsOnly P m1 -> emitsOnly P m2 -> emitsOnly P (if cond then m1 else m2).
Proof. by destruct cond. Qed.



End Emits.

Lemma emitsOnly_emit (P : Command -> Prop) c : P c -> emitsOnly P (emit c).
Proof. intros Hc a out H. cbn in H. simplify_eq. by constructor. Qed.


Lemma emitsOnly_when (P : Command -> Prop) cond body :
  emitsOnly P body -> emitsOnly P (when cond body).
Proof. intros. destruct cond; [done|]. apply emitsOnly_ret. Qed.

Lemma emitsOnly_whenSome {T : Type} (P : Command -> Prop) (m : option T) body :
  (forall v, emitsOnly P (body v)) -> emitsOnly P (whenSome m body).
Proof. intros Hbody. destruct m; [apply Hbody|]. apply emitsOnly_ret. Qed.

Lemma emitsOnly_forEach {T : Type} (P : Command -> Prop) (l : list T) body :
  (forall x, emitsOnly P (body x)) -> emitsOnly P (forEach l body).
Proof.
  intros Hbody. induction l as [|x l IH]; cbn [forEach].
  - apply emitsOnly_ret.
  - by apply emitsOnly_bind.
Qed.


Ltac emits_only :=
  repeat first
    [ apply emitsOnly_bind; [|intros ?]
    | apply emitsOnly_whenSome; intros ?
    | apply emitsOnly_when
    | apply emitsOnly_forEach; intros ?
    | apply emitsOnly_if
    | apply emitsOnly_check
    | apply emitsOnly_ret
    | apply emitsOnly_emit; done ].

Lemma setDynamicStates_emits c :
  emitsOnly (fun cmd => isDynamicStateCommand cmd = true) (setDynamicStates c).
Proof. unfold setDynamicStates. emits_only. Qed.

Lemma maybeBindVertexBufferDynStride_emits c meshIdx vb rvb :
  emitsOnly (fun cmd => isDynamicStateCommand cmd = true)
    (maybeBindVertexBufferDynStride c meshIdx vb rvb).
Proof.
  unfold maybeBindVertexBufferDynStride.
  destruct (dynamicValue (strideConfig c)); emits_only.
Qed.



(** *** Recordings that succeed *)

Lemma succeeds_bind {A B : Type} (m : Rec A) (f : A -> Rec B) :
  is_Some (runRec m) -> (forall a, is_Some (runRec (f a))) ->
  is_Some (runRec (m ≫= f)).
Proof.
  intros [[a out1] Hm] Hf. destruct (Hf a) as [[b out2] Hfa].
  rewrite runRec_bind, Hm, Hfa. by eexists.
Qed.

Lemma succeeds_whenSome {T : Type} (m : option T) body :
  (forall v, is_Some (runRec (body v))) -> is_Some (runRec (whenSome m body)).
Proof. intros Hbody. destruct m; [apply Hbody|]. by eexists. Qed.

Lemma succeeds_when cond body :
  is_Some (runRec body) -> is_Some (runRec (when cond body)).
Proof. intros Hbody. destruct cond; [done|]. by eexists. Qed.

Lemma succeeds_forEach {T : Type} (l : list T) body :
  (forall x, x ∈ l -> is_Some (runRec (body x))) ->
  is_Some (runRec (forEach l body)).
Proof.
  induction l as [|x l IH]; intros Hbody; cbn [forEach].
  - by eexists.
  - apply succeeds_bind; [apply Hbody; by left|].
    intros _. apply IH. intros y Hy. apply Hbody. by right.
Qed.

Lemma succeeds_emit c : is_Some (runRec (emit c)).
Proof. by eexists. Qed.

Ltac succeeds :=
  repeat first
    [ apply succeeds_bind; [|intros ?]
    | apply succeeds_whenSome; intros ?
    | apply succeeds_when
    | apply succeeds_emit ].

Lemma setDynamicStates_succeeds c :
  dynamicValue (vertexGenerator c) = None ->
  is_Some (runRec (setDynamicStates c)).
Proof.
  intros Hgen. unfold setDynamicStates. rewrite Hgen. cbn [whenSome].
  succeeds; [|by eexists].
  apply succeeds_forEach. intros. apply succeeds_emit.
Qed.

Lemma drawMeshes_succeeds vb rvb c bound :
  plainRecording c -> is_Some (runRec (drawMeshes vb rvb c bound)).
Proof.
  intros (Hmesh & _ & Hstride & Hgen & Hrestart & _). unfold drawMeshes.
  apply succeeds_forEach. intros viewportIdx _.
  apply succeeds_forEach. intros meshIdx Hidx.
  apply elem_of_seq in Hidx as [_ Hidx].
  destruct (lookup_lt_is_Some_2 (meshParams c) meshIdx Hidx) as [mesh Hlook].
  unfold drawMesh, needsIndexBuffer, maybeBindVertexBufferDynStride,
    bindVertexBuffers.
  rewrite Hlook, Hmesh, Hrestart, Hstride. cbn [hasValue check].
  succeeds; try by eexists.
  - destruct (_ || _); [|by eexists].
    apply succeeds_bind; [by apply setDynamicStates_succeeds|].
    intros _. by eexists.
  - match goal with |- context [if ?b then _ else _] => destruct b end;
      apply succeeds_emit.
Qed.

(** *** The orderings with two draws *)


Lemma iterate_config_sequenceOrdering c :
  sequenceOrdering (iterate_config c) = sequenceOrdering c.
Proof.
  unfold iterate_config. destruct (isReversed c); [|done].
  apply swapValues_sequenceOrdering.
Qed.






(** *** The dynamic states that are declared and the commands that set
    them *)

Lemma elem_of_push_back_if {A : Type} (cond : bool) (x y : A) (v : list A) :
  y ∈ push_back_if cond x v <-> y ∈ v \/ (cond = true /\ y = x).
Proof.
  unfold push_back_if. destruct cond.
  - rewrite elem_of_app, list_elem_of_singleton. intuition.
  - intuition congruence.
Qed.

(** [getDynamicStates] lists the states whose pair has a dynamic value. *)
Lemma getDynamicStates_elem c state :
  state ∈ getDynamicStates c <-> hasDynamicValue c state = true.
Proof.
  unfold getDynamicStates. cbv zeta.
  rewrite !elem_of_push_back_if, elem_of_nil. split.
  - intros H.
    repeat (destruct H as [H | [Hb ->]]; [|exact Hb]). done.
  - intros H. destruct state; cbn in H; try discriminate;
      solve [repeat (first [right; split; [exact H|reflexivity] | left])].
Qed.

Lemma runRec_bind_Some {A B : Type} (m : Rec A) (f : A -> Rec B) b out :
  runRec (m ≫= f) = Some (b, out) ->
  exists a out1 out2,
    runRec m = Some (a, out1) /\ runRec (f a) = Some (b, out2)
    /\ out = out1 ++ out2.
Proof.
  rewrite runRec_bind. intros H.
  destruct (runRec m) as [[a out1]|]; [|done].
  destruct (runRec (f a)) as [[b' out2]|] eqn:Hf; [|done].
  simplify_eq. by exists a, out1, out2.
Qed.





Lemma emitsOnly_check_bind {A B : Type} (P : Command -> Prop) (o : option A)
    (f : A -> Rec B) :
  (forall a, o = Some a -> emitsOnly P (f a)) -> emitsOnly P (check o ≫= f).
Proof.
  intros Hf b out H. rewrite runRec_bind in H.
  destruct o as [a|]; [|done]. cbn in H.
  destruct (runRec (f a)) as [[b' out']|] eqn:Hrun; [|done].
  simplify_eq. by eapply Hf.
Qed.













(** * Further properties of the recording *)

Lemma iterate_record_ordered vh rvh c :
  runRec (iterate_record vh rvh c) = runRec (orderedRecording vh rvh c).
Proof.
  unfold iterate_record, orderedRecording, numIterations. cbv zeta.
  pose proof (iterate_config_sequenceOrdering c) as Hord.
  revert Hord. generalize (iterate_config c). intros c' Hord.
  rewrite !runRec_bind.
  destruct (runRec (check (iterate_prepare vh rvh c'))) as [[[vb rvb] out]|];
    [|done].
  f_equal. cbn [fst snd].
  unfold orderedCommands, inRenderPass, setStatesAndStride,
    bindDynamicPipelines. cbv zeta. rewrite Hord.
  destruct (sequenceOrdering c) eqn:Hc;
    [change (seqZ 0 1) with [0]|change (seqZ 0 1) with [0]
    |change (seqZ 0 1) with [0]|change (seqZ 0 1) with [0]
    |change (seqZ 0 1) with [0]|change (seqZ 0 2) with [0; 1]
    |change (seqZ 0 2) with [0; 1]];
    cbn [forEach]; unfold recordIteration; rewrite Hord; eval_orderings;
    set (W := drawMeshes vb rvb c');
    destruct (W true) as [[[[] drawsT]|]] eqn:HT;
    destruct (W false) as [[[[] drawsF]|]] eqn:HF;
    destruct (setDynamicStates c') as [[[[] dynSet]|]];
    destruct (maybeBindVertexBufferDynStride c' 0 vb rvb)
      as [[[[] dynBind]|]];
    destruct (bindUnusedMeshShadingPipeline c'), (useExtraDynPCPPipeline c');
    cbn; rewrite ?HT, ?HF; cbn; rewrite ?HT, ?HF; cbn;
    normalize_app; reflexivity.
Qed.

(** ** Pipelines bound by a recording *)

Lemma emitsOnly_impl {A : Type} (P Q : Command -> Prop) (m : Rec A) :
  (forall cmd, P cmd -> Q cmd) -> emitsOnly P m -> emitsOnly Q m.
Proof. intros HPQ Hm a out H. eapply Forall_impl; [by eapply Hm|done]. Qed.

Lemma boundPipelines_app l1 l2 :
  boundPipelines (l1 ++ l2) = boundPipelines l1 ++ boundPipelines l2.
Proof. apply omap_app. Qed.

Lemma boundPipelines_cons cmd l :
  boundPipelines (cmd :: l)
  = match cmd with
    | cmdBindPipeline p => p :: boundPipelines l
    | _ => boundPipelines l
    end.
Proof. by destruct cmd. Qed.

Lemma boundPipelines_nil l :
  Forall (fun cmd => isPipelineBind cmd = false) l -> boundPipelines l = [].
Proof.
  induction 1 as [|cmd l Hcmd _ IH]; [done|].
  rewrite boundPipelines_cons, IH. by destruct cmd.
Qed.

Lemma setDynamicStates_no_bind c :
  emitsOnly (fun cmd => isPipelineBind cmd = false) (setDynamicStates c).
Proof.
  eapply emitsOnly_impl; [|apply setDynamicStates_emits].
  by intros [].
Qed.

Lemma maybeBindVertexBufferDynStride_no_bind c meshIdx vb rvb :
  emitsOnly (fun cmd => isPipelineBind cmd = false)
    (maybeBindVertexBufferDynStride c meshIdx vb rvb).
Proof.
  eapply emitsOnly_impl; [|apply maybeBindVertexBufferDynStride_emits].
  by intros [].
Qed.

(** Whatever the ordering, drawing the meshes binds no pipeline. *)
Lemma drawMeshes_no_bind vb rvb c bound :
  emitsOnly (fun cmd => isPipelineBind cmd = false) (drawMeshes vb rvb c bound).
Proof.
  unfold drawMeshes, drawMesh, bindVertexBuffers.
  emits_only;
    first [apply setDynamicStates_no_bind
          |apply maybeBindVertexBufferDynStride_no_bind].
Qed.

Lemma iterate_config_flags c :
  bindUnusedMeshShadingPipeline (iterate_config c)
  = bindUnusedMeshShadingPipeline c
  /\ useExtraDynPCPPipeline (iterate_config c) = useExtraDynPCPPipeline c.
Proof. unfold iterate_config. destruct (isReversed c); by destruct c. Qed.

Lemma boundPipelines_recorded vh rvh c t :
  recorded (iterate_record vh rvh c) = Some t ->
  boundPipelines t
  = (if bindStaticFirst c then [staticPipeline] else [])
    ++ (if bindUnusedMeshShadingPipeline c then [meshNoOutPipeline] else [])
    ++ (if useExtraDynPCPPipeline c then [extraDynPCPPipeline] else [])
    ++ [graphicsPipeline]
    ++ (if isReversed c then [staticPipeline] else []).
Proof.
  unfold recorded. rewrite iterate_record_ordered.
  unfold orderedRecording, bindStaticFirst, isReversed. cbv zeta.
  destruct (iterate_config_flags c) as [<- <-].
  pose proof (iterate_config_sequenceOrdering c) as Hord.
  revert Hord. generalize (iterate_config c). intros c' Hord.
  rewrite runRec_bind.
  destruct (runRec (check (iterate_prepare vh rvh c'))) as [[[vb rvb] out]|]
    eqn:Hprep; [|done].
  assert (out = []) as ->.
  { destruct (iterate_prepare vh rvh c'); cbn in Hprep; by simplify_eq. }
  cbn [fst snd app].
  unfold orderedCommands, inRenderPass, setStatesAndStride,
    bindDynamicPipelines. cbv zeta.
  rewrite Hord.
  set (W := drawMeshes vb rvb c').
  pose proof (drawMeshes_no_bind vb rvb c' true) as HWT.
  pose proof (drawMeshes_no_bind vb rvb c' false) as HWF.
  pose proof (setDynamicStates_no_bind c') as HS.
  pose proof (maybeBindVertexBufferDynStride_no_bind c' 0 vb rvb) as HB.
  fold W in HWT, HWF.
  destruct (sequenceOrdering c) eqn:Hc; eval_orderings;
    destruct (W true) as [[[[] drawsT]|]] eqn:HT;
    destruct (W false) as [[[[] drawsF]|]] eqn:HF;
    destruct (setDynamicStates c') as [[[[] dynSet]|]];
    destruct (maybeBindVertexBufferDynStride c' 0 vb rvb)
      as [[[[] dynBind]|]];
    destruct (bindUnusedMeshShadingPipeline c'), (useExtraDynPCPPipeline c');
    cbn; rewrite ?HT, ?HF; cbn; rewrite ?HT, ?HF; cbn;
    try discriminate; intros [= <-];
    repeat match goal with
    | H : emitsOnly _ {| runRec := Some (?a, ?out) |} |- _ =>
        apply (fun H' => H' a out eq_refl) in H;
        apply boundPipelines_nil in H
    | H : emitsOnly _ {| runRec := None |} |- _ => clear H
    end;
    repeat first
      [ rewrite boundPipelines_app
      | rewrite boundPipelines_cons; cbv iota
      | match goal with
        | H : boundPipelines _ = [] |- _ => rewrite H; clear H
        end ];
    reflexivity.
Qed.

(** X1. Whatever the ordering, a recording binds the pipelines in this
    order: the static pipeline first for BETWEEN_PIPELINES,
    AFTER_PIPELINES and TWO_DRAWS_DYNAMIC; then the unused mesh shading
    pipeline and the extra pipeline with dynamic patch control points,
    when the configuration asks for them; then the dynamic pipeline; and
    the static pipeline last for the reversed orderings. No other
    pipeline is bound: the dynamic pipeline is bound exactly once, and
    the last pipeline bound, the one that draws the final result, is the
    static one exactly for the reversed orderings. *)
Theorem pipeline_bind_sequence vh rvh c t :
  recorded (iterate_record vh rvh c) = Some t ->
  boundPipelines t
  = (if bindStaticFirst c then [staticPipeline] else [])
    ++ (if bindUnusedMeshShadingPipeline c then [meshNoOutPipeline] else [])
    ++ (if useExtraDynPCPPipeline c then [extraDynPCPPipeline] else [])
    ++ [graphicsPipeline]
    ++ (if isReversed c then [staticPipeline] else [])
  /\ length (filter (fun p => p = graphicsPipeline) (boundPipelines t)) = 1%nat
  /\ last (boundPipelines t)
     = Some (if isReversed c then staticPipeline else graphicsPipeline).
Proof.
  intros Hrec. rewrite (boundPipelines_recorded vh rvh c t Hrec).
  split; [done|].
  by destruct (bindStaticFirst c), (bindUnusedMeshShadingPipeline c),
    (useExtraDynPCPPipeline c), (isReversed c).
Qed.

Lemma pipeline_bind_sequence_witness :
  exists t,
    recorded (iterate_record (fun _ => 1) (fun _ => 2)
                (cull_none_config PIPELINE_CONSTRUCTION_TYPE_MONOLITHIC
                   BEFORE_GOOD_STATIC false)) = Some t
    /\ boundPipelines t = [graphicsPipeline; staticPipeline]
    /\ last (boundPipelines t) = Some staticPipeline.
Proof.
  eexists. split; [reflexivity|].
  destruct (pipeline_bind_sequence (fun _ => 1) (fun _ => 2)
              (cull_none_config PIPELINE_CONSTRUCTION_TYPE_MONOLITHIC
                 BEFORE_GOOD_STATIC false) _ eq_refl) as (Hseq & _ & Hlast).
  exact (conj Hseq Hlast).
Defined.

(** X2. The pipelines bound by a recording are exactly those that
    [iterate] has built: the dynamic pipeline always; the static pipeline
    when it is bound first or the ordering is reversed; the unused mesh
    shading pipeline and the extra pipeline with dynamic patch control
    points when the configuration asks for them. *)
Theorem bound_pipelines_are_built vh rvh c t p :
  recorded (iterate_record vh rvh c) = Some t ->
  p ∈ boundPipelines t <-> pipelineBuilt c p = true.
Proof.
  intros Hrec. rewrite (boundPipelines_recorded vh rvh c t Hrec).
  unfold pipelineBuilt, useStaticPipeline. cbv zeta.
  destruct p, (bindStaticFirst c), (bindUnusedMeshShadingPipeline c),
    (useExtraDynPCPPipeline c), (isReversed c); cbn;
    rewrite ?elem_of_cons, ?elem_of_nil; intuition congruence.
Qed.

Lemma bound_pipelines_are_built_witness :
  exists t,
    recorded (iterate_record (fun _ => 1) (fun _ => 2)
                (cull_none_config PIPELINE_CONSTRUCTION_TYPE_MONOLITHIC
                   CMD_BUFFER_START false)) = Some t
    /\ (staticPipeline ∈ boundPipelines t <-> false = true)
    /\ (graphicsPipeline ∈ boundPipelines t <-> true = true).
Proof.
  eexists. split; [reflexivity|].
  exact (conj
    (bound_pipelines_are_built (fun _ => 1) (fun _ => 2)
       (cull_none_config PIPELINE_CONSTRUCTION_TYPE_MONOLITHIC
          CMD_BUFFER_START false) _ staticPipeline eq_refl)
    (bound_pipelines_are_built (fun _ => 1) (fun _ => 2)
       (cull_none_config PIPELINE_CONSTRUCTION_TYPE_MONOLITHIC
          CMD_BUFFER_START false) _ graphicsPipeline eq_refl)).
Defined.

(** ** Recordings that succeed, whatever the ordering *)

Lemma orderedCommands_succeeds vb rvb c :
  plainRecording c -> is_Some (runRec (orderedCommands vb rvb c)).
Proof.
  intros Hplain. pose proof Hplain as (_ & Hunused & Hstride & Hgen & _).
  assert (Hbind : is_Some (runRec (bindDynamicPipelines c))).
  { unfold bindDynamicPipelines. rewrite Hunused. cbn [when].
    succeeds. by eexists. }
  assert (Hstate : is_Some (runRec (setStatesAndStride vb rvb c))).
  { unfold setStatesAndStride. apply succeeds_bind;
      [by apply setDynamicStates_succeeds|].
    intros _. unfold maybeBindVertexBufferDynStride. rewrite Hstride.
    by eexists. }
  assert (Hdraw : forall bound, is_Some (runRec (drawMeshes vb rvb c bound)))
    by (intros; by apply drawMeshes_succeeds).
  unfold orderedCommands, inRenderPass. cbv zeta.
  revert Hbind Hstate Hdraw.
  generalize (bindDynamicPipelines c) (setStatesAndStride vb rvb c)
    (drawMeshes vb rvb c).
  intros binds states draws Hbind Hstate Hdraw.
  destruct (sequenceOrdering c); succeeds; auto.
Qed.

(** X3. Whatever the ordering, the recording succeeds when the
    configuration that is recorded is one of [plainRecording]: the checks
    that precede the recording pass and no assertion stops the
    recording. The commands start the command buffer first and end it
    last. *)
Theorem plain_recording_succeeds vh rvh c :
  plainRecording (iterate_config c) ->
  exists t,
    recorded (iterate_record vh rvh c) = Some t
    /\ head t = Some beginCommandBuffer
    /\ last t = Some endCommandBuffer.
Proof.
  intros Hplain. unfold recorded. rewrite iterate_record_ordered.
  unfold orderedRecording. cbv zeta. rewrite runRec_bind.
  destruct (iterate_prepare_Some vh rvh _ Hplain) as [[vb rvb] ->].
  cbn [check runRec fst snd].
  destruct (orderedCommands_succeeds vb rvb _ Hplain) as [[[] t] Ht].
  rewrite Ht. exists t. split; [done|].
  revert Ht. unfold orderedCommands. cbv zeta.
  intros Ht.
  apply runRec_bind_Some in Ht as ([] & o1 & o2 & Hbegin & Ht & ->).
  apply runRec_bind_Some in Ht as ([] & o3 & o4 & _ & Hend & ->).
  cbn in Hbegin, Hend. simplify_eq. split; [done|].
  rewrite app_assoc. apply last_snoc.
Qed.

Lemma plain_recording_succeeds_witness :
  exists t,
    recorded (iterate_record (fun _ => 1) (fun _ => 2)
                (cull_none_config PIPELINE_CONSTRUCTION_TYPE_MONOLITHIC
                   AFTER_PIPELINES false)) = Some t
    /\ head t = Some beginCommandBuffer
    /\ last t = Some endCommandBuffer.
Proof.
  apply (plain_recording_succeeds (fun _ => 1) (fun _ => 2)
           (cull_none_config PIPELINE_CONSTRUCTION_TYPE_MONOLITHIC
              AFTER_PIPELINES false)).
  unfold plainRecording, passesChecks. cbn.
  repeat split; try done; by eexists.
Defined.


(** ** Dynamic states of a configuration *)

Lemma NoDup_push_back_if {A : Type} (cond : bool) (x : A) (v : list A) :
  NoDup v -> x ∉ v -> NoDup (push_back_if cond x v).
Proof.
  intros Hv Hx. unfold push_back_if. destruct cond; [|done].
  apply NoDup_app. split; [done|]. split; [|apply NoDup_singleton].
  intros y Hy Hy'. apply list_elem_of_singleton in Hy' as ->. done.
Qed.

Lemma hasValue_swapValues {T : Type} (p : StaticAndDynamicPair T) :
  hasValue (dynamicValue (Pair.swapValues p)) = hasValue (dynamicValue p).
Proof. unfold Pair.swapValues. by destruct (dynamicValue p) eqn:H; [|rewrite H]. Qed.

Lemma hasDynamicValue_swapValues c state :
  hasDynamicValue (swapValues c) state = hasDynamicValue c state.
Proof.
  destruct c, state; cbn; try done; apply hasValue_swapValues.
Qed.

(** X5. [getDynamicStates] lists every dynamic state at most once and
    lists a state exactly when its pair has a dynamic value; swapping the
    values changes neither the list nor, therefore, the answer of
    [badMeshShadingPipelineDynState]. *)
Theorem getDynamicStates_unique_and_stable c :
  NoDup (getDynamicStates c)
  /\ (forall state,
        state ∈ getDynamicStates c <-> hasDynamicValue c state = true)
  /\ getDynamicStates (swapValues c) = getDynamicStates c
  /\ badMeshShadingPipelineDynState (swapValues c)
     = badMeshShadingPipelineDynState c.
Proof.
  assert (Hswap : getDynamicStates (swapValues c) = getDynamicStates c).
  { unfold getDynamicStates. cbv zeta. destruct c. cbn.
    by rewrite !hasValue_swapValues. }
  split; [|split; [apply getDynamicStates_elem|split; [done|]]].
  - unfold getDynamicStates. cbv zeta.
    repeat (apply NoDup_push_back_if;
            [|rewrite ?elem_of_push_back_if, elem_of_nil;
              intros Hin;
              repeat (destruct Hin as [Hin | [_ ?]]; [|discriminate]);
              done]).
    constructor.
  - unfold badMeshShadingPipelineDynState. cbv zeta. by rewrite Hswap.
Qed.

(** ** The constructor of the configuration *)

(** X6. The constructor of [TestConfig] fails exactly when a dynamic
    vertex generator is given without a static one. Otherwise no value
    has been swapped, the static generator is the given one or the
    default generator with padding, the dynamic generator is the given
    one, and the strides are static and are those of the active
    generator: the dynamic one when given, else the static one. *)
Theorem TestConfig_new_generators P O M staticGen dynamicGen :
  (TestConfig_new P O M staticGen dynamicGen = None
   <-> is_Some dynamicGen /\ staticGen = None)
  /\ (forall c,
        TestConfig_new P O M staticGen dynamicGen = Some c ->
        m_swappedValues c = false
        /\ staticValue (vertexGenerator c)
           = default getVertexWithPaddingGenerator staticGen
        /\ dynamicValue (vertexGenerator c) = dynamicGen
        /\ getActiveVertexGenerator c
           = default (default getVertexWithPaddingGenerator staticGen)
               dynamicGen
        /\ getInactiveVertexGenerator c
           = default getVertexWithPaddingGenerator staticGen
        /\ strideConfig c
           = Pair.static_only
               (getVertexDataStrides (getActiveVertexGenerator c))).
Proof.
  unfold TestConfig_new, makeVertexGeneratorConfig, chooseVertexGenerator.
  destruct staticGen as [s|], dynamicGen as [d|]; cbn; split;
    try (split; [done|intros [[? ?] ?]; done]);
    try (split; [intros _; split; [by eexists|done]|done]);
    try (intros c [= <-]; done); try done.
Qed.

(** ** Stencil operations *)

(** X7. On stored values between the bounds, with 8-bit bounds, the
    wrapping stencil operations are inverse of each other, no increment
    or decrement leaves the bounds, the clamping ones stop at the bound
    and move by one elsewhere, and inverting twice gives the stored
    value back. *)
Theorem stencilResult_increment_decrement stored reference min max :
  0 <= min -> min <= stored <= max -> max <= 255 ->
  (exists up down,
     stencilResult VK_STENCIL_OP_INCREMENT_AND_WRAP stored reference min max
     = Some up
     /\ stencilResult VK_STENCIL_OP_DECREMENT_AND_WRAP stored reference min max
        = Some down
     /\ min <= up <= max /\ min <= down <= max
     /\ stencilResult VK_STENCIL_OP_DECREMENT_AND_WRAP up reference min max
        = Some stored
     /\ stencilResult VK_STENCIL_OP_INCREMENT_AND_WRAP down reference min max
        = Some stored)
  /\ (exists up down,
        stencilResult VK_STENCIL_OP_INCREMENT_AND_CLAMP stored reference min
          max = Some up
        /\ stencilResult VK_STENCIL_OP_DECREMENT_AND_CLAMP stored reference
             min max = Some down
        /\ up = Z.min max (stored + 1) /\ down = Z.max min (stored - 1))
  /\ (exists inverted,
        stencilResult VK_STENCIL_OP_INVERT stored reference min max
        = Some inverted
        /\ inverted = 255 - stored
        /\ stencilResult VK_STENCIL_OP_INVERT inverted reference min max
           = Some stored).
Proof.
  intros Hmin Hstored Hmax. unfold stencilResult. cbv zeta.
  assert (Hinv : to_deUint8 (Z.lnot stored) = 255 - stored).
  { rewrite to_deUint8_lnot; [done|]. unfold is_deUint8. lia. }
  split; [|split].
  - eexists _, _. split; [reflexivity|]. split; [reflexivity|].
    destruct (Z.eqb_spec stored max) as [Hmx|Hmx],
      (Z.eqb_spec stored min) as [Hmn|Hmn];
      rewrite ?(to_deUint8_id (stored + 1)), ?(to_deUint8_id (stored - 1))
        by (unfold is_deUint8; lia);
      repeat match goal with
      | |- context [?a =? ?b] => destruct (Z.eqb_spec a b); try lia
      end;
      rewrite ?(to_deUint8_id (stored + 1 - 1)),
        ?(to_deUint8_id (stored - 1 + 1)) by (unfold is_deUint8; lia);
      repeat split; try lia; f_equal; lia.
  - eexists _, _. split; [reflexivity|]. split; [reflexivity|].
    destruct (Z.eqb_spec stored max), (Z.eqb_spec stored min);
      rewrite ?(to_deUint8_id (_ + 1)), ?(to_deUint8_id (_ - 1))
        by (unfold is_deUint8; lia); lia.
  - eexists. split; [reflexivity|]. split; [done|]. rewrite Hinv.
    rewrite to_deUint8_lnot by (unfold is_deUint8; lia). f_equal. lia.
Qed.

Lemma stencilResult_increment_decrement_witness :
  exists up down,
    stencilResult VK_STENCIL_OP_INCREMENT_AND_WRAP 255 0 0 255 = Some up
    /\ stencilResult VK_STENCIL_OP_DECREMENT_AND_WRAP 255 0 0 255 = Some down
    /\ 0 <= up <= 255 /\ 0 <= down <= 255
    /\ stencilResult VK_STENCIL_OP_DECREMENT_AND_WRAP up 0 0 255 = Some 255
    /\ stencilResult VK_STENCIL_OP_INCREMENT_AND_WRAP down 0 0 255 = Some 255.
Proof.
  destruct (stencilResult_increment_decrement 255 0 0 255) as (Hwrap & _);
    [lia..|].
  exact Hwrap.
Defined.

(** ** Vertex input descriptions and vertex buffers *)

Lemma stride_at_None strides i :
  stride_at strides i = None <-> (length strides <= i)%nat.
Proof. unfold stride_at. rewrite fmap_None. apply lookup_ge_None. Qed.

(** X8. The vertex input of the static pipeline and the one set
    dynamically describe the same layout. For every generator and stride
    vector the two lists of binding descriptions are made or fail
    together, and they are made exactly when there is a stride for every
    binding of the generator; they hold the same bindings, strides and
    input rates up to their order, the dynamic ones with divisor 1; the
    bindings are distinct, they are the positions of the generator's
    strides, and each takes the 32-bit value of the stride at its
    position. The two lists of attributes hold the same locations,
    bindings, formats and offsets up to their order. *)
Theorem vertex_input_descriptions_agree g strides :
  (is_Some (getBindingDescriptions g strides)
   <-> is_Some (getBindingDescriptions2 g strides))
  /\ (is_Some (getBindingDescriptions g strides)
      <-> (length (getVertexDataStrides g) <= length strides)%nat)
  /\ (forall static dynamic,
        getBindingDescriptions g strides = Some static ->
        getBindingDescriptions2 g strides = Some dynamic ->
        (fun d => (bd_binding d, bd_stride d, bd_inputRate d)) <$> static
        ≡ₚ (fun d => (bind_binding d, bind_stride d, bind_inputRate d))
           <$> dynamic
        /\ Forall (fun d => bind_divisor d = 1) dynamic
        /\ bd_binding <$> static
           ≡ₚ Z.of_nat <$> seq 0 (length (getVertexDataStrides g))
        /\ Forall (fun d =>
                     stride_at strides (Z.to_nat (bd_binding d))
                     = Some (bd_stride d)) static)
  /\ (fun a => (ad_location a, ad_binding a, ad_format a, ad_offset a))
     <$> getAttributeDescriptions g
     ≡ₚ (fun a => (attr_location a, attr_binding a, attr_format a,
                   attr_offset a)) <$> getAttributeDescriptions2 g.
Proof.
  assert (H3 : forall {A : Type} (a b c : A), [a; b; c] ≡ₚ [c; a; b]).
  { intros A a b c. change [c; a; b] with ([c] ++ [a; b]).
    change [a; b; c] with ([a; b] ++ [c]). apply Permutation_app_comm. }
  split; [|split; [|split]].
  - unfold getBindingDescriptions, getBindingDescriptions2.
    destruct g;
      destruct (stride_at strides 2), (stride_at strides 0),
        (stride_at strides 1), (stride_at strides 5), (stride_at strides 4),
        (stride_at strides 3); cbn; split; try done;
        first [by intros [? ?] | by eexists].
  - unfold getBindingDescriptions.
    destruct g; cbn [getVertexDataStrides length].
    + destruct (stride_at strides 0) eqn:H0; cbn.
      * apply mk_is_Some, stride_at_is_Some in H0.
        split; [lia|by eexists].
      * apply stride_at_None in H0. split; [by intros [? ?]|lia].
    + destruct (stride_at strides 0) eqn:H0; cbn.
      * apply mk_is_Some, stride_at_is_Some in H0.
        split; [lia|by eexists].
      * apply stride_at_None in H0. split; [by intros [? ?]|lia].
    + destruct (stride_at strides 5) eqn:H5.
      * apply mk_is_Some, stride_at_is_Some in H5.
        destruct (stride_at_is_Some strides 0) as [_ [s0 ->]]; [lia|].
        destruct (stride_at_is_Some strides 1) as [_ [s1 ->]]; [lia|].
        destruct (stride_at_is_Some strides 2) as [_ [s2 ->]]; [lia|].
        destruct (stride_at_is_Some strides 3) as [_ [s3 ->]]; [lia|].
        destruct (stride_at_is_Some strides 4) as [_ [s4 ->]]; [lia|].
        cbn. split; [lia|by eexists].
      * apply stride_at_None in H5.
        split; [|lia].
        destruct (stride_at strides 2), (stride_at strides 0),
          (stride_at strides 1), (stride_at strides 4),
          (stride_at strides 3); cbn; by intros [? ?].
  - intros static dynamic.
    unfold getBindingDescriptions, getBindingDescriptions2.
    destruct g.
    + destruct (stride_at strides 0) as [s0|] eqn:H0; [|done].
      cbn. intros [= <-] [= <-].
      split; [done|]. split; [by repeat constructor|].
      split; [done|]. repeat constructor. exact H0.
    + destruct (stride_at strides 0) as [s0|] eqn:H0; [|done].
      cbn. intros [= <-] [= <-].
      split; [done|]. split; [by repeat constructor|].
      split; [done|]. repeat constructor. exact H0.
    + destruct (stride_at strides 2) as [s2|] eqn:H2; [|done].
      destruct (stride_at strides 0) as [s0|] eqn:H0; [|done].
      destruct (stride_at strides 1) as [s1|] eqn:H1; [|done].
      destruct (stride_at strides 4) as [s4|] eqn:H4;
        [|by destruct (stride_at strides 5)].
      destruct (stride_at strides 3) as [s3|] eqn:H3';
        [|by destruct (stride_at strides 5)].
      destruct (stride_at strides 5) as [s5|] eqn:H5; [|done].
      cbn. intros [= <-] [= <-].
      split; [cbn; do 3 apply perm_skip; apply H3|].
      split; [by repeat constructor|].
      split; [|repeat constructor; assumption].
      change ([2; 0; 1] ++ [4; 3; 5] ≡ₚ [0; 1; 2] ++ [3; 4; 5]).
      apply Permutation_app.
      * symmetry. apply H3.
      * apply perm_swap.
  - destruct g; cbn; [done|done|]. etrans; [|apply H3].
    apply perm_skip. apply perm_swap.
Qed.

Lemma vertex_input_descriptions_agree_witness :
  exists static dynamic,
    getBindingDescriptions MultipleBindingsVertex
      (getVertexDataStrides MultipleBindingsVertex) = Some static
    /\ getBindingDescriptions2 MultipleBindingsVertex
         (getVertexDataStrides MultipleBindingsVertex) = Some dynamic
    /\ (fun d => (bd_binding d, bd_stride d, bd_inputRate d)) <$> static
       ≡ₚ (fun d => (bind_binding d, bind_stride d, bind_inputRate d))
          <$> dynamic
    /\ bd_binding <$> static ≡ₚ [0; 1; 2; 3; 4; 5].
Proof.
  eexists _, _. split; [reflexivity|]. split; [reflexivity|].
  destruct (vertex_input_descriptions_agree MultipleBindingsVertex
              (getVertexDataStrides MultipleBindingsVertex))
    as (_ & _ & Hagree & _).
  destruct (Hagree _ _ eq_refl eq_refl) as (Hsame & _ & Hbindings & _).
  exact (conj Hsame Hbindings).
Defined.

(** X9. Every attribute of a vertex generator refers to one of its
    bindings and lies within a vertex record of that binding: its offset
    plus the size of its format does not exceed the generator's stride
    for the binding. Locations are distinct, and so are the bindings the
    attributes read. *)
Theorem vertex_attributes_fit g :
  Forall (fun a =>
            exists stride,
              getVertexDataStrides g !! Z.to_nat (attr_binding a)
              = Some stride
              /\ 0 <= attr_binding a
              /\ 0 <= attr_offset a
              /\ attr_offset a + formatSize (attr_format a) <= stride)
    (getAttributeDescriptions2 g)
  /\ NoDup (attr_location <$> getAttributeDescriptions2 g)
  /\ (g = MultipleBindingsVertex ->
      NoDup (attr_binding <$> getAttributeDescriptions2 g)).
Proof.
  split; [|split].
  - apply Forall_forall. intros a Ha. unfold sizeof_Vec2, sizeof_Vec4.
    destruct g; cbn in Ha;
      repeat (apply elem_of_cons in Ha as [->|Ha]);
      try (by apply elem_of_nil in Ha);
      eexists; (split; [reflexivity|]);
      cbn; unfold formatSize, sizeof_Vec2, sizeof_Vec4; lia.
  - destruct g; apply (bool_decide_unpack _); by vm_compute.
  - intros ->. apply (bool_decide_unpack _). by vm_compute.
Qed.

(** X10. [prepareVertexBuffers] fails for an empty set of vertices.
    Otherwise, when the leading and trailing paddings together fit 32
    bits, it makes one buffer per stride of the generator, in order: the
    buffer of binding [i] has the handle of the [i]-th buffer created,
    its data starts after the leading padding and its data size is one
    stride per vertex. *)
Theorem prepareVertexBuffers_layout handle g n dataOffset trailingSize :
  0 <= dataOffset -> 0 <= trailingSize ->
  dataOffset + trailingSize < 2 ^ 32 ->
  (n = 0 ->
   prepareVertexBuffers handle g n dataOffset trailingSize = None)
  /\ (0 < n ->
      prepareVertexBuffers handle g n dataOffset trailingSize
      = Some (imap (fun i stride =>
                      {| buffer := handle i; offset := dataOffset;
                         dataSize := n * stride |})
                (getVertexDataStrides g))).
Proof.
  intros Hoff Htr Hfit.
  unfold prepareVertexBuffers, createVertexData_sizes,
    createSingleBindingVertexData_size.
  assert (Hextra : to_deUint32 (dataOffset + trailingSize)
                   = dataOffset + trailingSize).
  { unfold to_deUint32. apply Z.mod_small. lia. }
  rewrite Hextra. split.
  - intros ->. by destruct g.
  - intros Hn. destruct (Z.eqb_spec n 0); [lia|].
    unfold sizeof_Vec2, sizeof_Vec4.
    destruct g; cbn;
      repeat match goal with
      | |- context [?a >? ?b] => destruct (Z.gtb_spec a b); [|lia]
      end; cbn; unfold sizeof_Vec2, sizeof_Vec4;
      repeat (first [reflexivity | lia | progress f_equal]).
Qed.

Lemma prepareVertexBuffers_layout_witness :
  prepareVertexBuffers (fun i => Z.of_nat i + 10) MultipleBindingsVertex 6
    4 4
  = Some [mkVertexBufferInfo 10 4 48; mkVertexBufferInfo 11 4 240;
          mkVertexBufferInfo 12 4 48; mkVertexBufferInfo 13 4 144;
          mkVertexBufferInfo 14 4 48; mkVertexBufferInfo 15 4 240].
Proof.
  destruct (prepareVertexBuffers_layout (fun i => Z.of_nat i + 10)
              MultipleBindingsVertex 6 4 4) as [_ Hlayout]; [lia..|].
  exact (eq_trans (Hlayout ltac:(lia)) eq_refl).
Defined.
